(** * pyxlutils: the field descriptor pipeline and the ISO-8601 parser

    A shallow embedding of [src/fields.py] and [src/utils.py].

    Python values are an inductive type [pyval]; a Python call that may raise
    is a [result]; a method of [Field] is a function of the field's runtime
    attributes ([FieldState]) returning a result together with the attributes
    as the call left them, so that what a call did before it raised stays
    visible.  Interpreter builtins ([int], [str.strip], [Decimal], ...) are
    written out on the values a field can receive; text is ASCII. *)

From Stdlib Require Import ZArith Ascii String List Bool Lia.
From Stdlib Require Import Floats.SpecFloat.
From stdpp Require Import gmap strings list.

Local Open Scope string_scope.
Local Open Scope Z_scope.
Local Set Warnings "-register-all".

(** ** Python values *)

(** [decimal.Decimal]: sign, coefficient and exponent, or a special value.
    The coefficient is the number whose decimal digits are the digit tuple
    of [as_tuple()]. *)
Inductive decimal : Type :=
| DFin (neg : bool) (coeff : N) (expo : Z)
| DInf (neg : bool)
| DNaN (neg : bool) (signaling : bool).

(** [datetime.timezone]: [timezone.utc], or a fixed offset in minutes with
    its name. *)
Inductive timezone : Type :=
| TzUTC
| TzFixed (offset_minutes : Z) (tzname : string).

(** [datetime.datetime]; [dt_tzinfo = None] is a naive datetime. *)
Record datetime : Type := mkDatetime {
  dt_year : Z; dt_month : Z; dt_day : Z;
  dt_hour : Z; dt_minute : Z; dt_second : Z; dt_microsecond : Z;
  dt_tzinfo : option timezone
}.

Inductive pyval : Type :=
| PNone
| PBool (b : bool)
| PInt (z : Z)
| PFloat (f : spec_float)
| PStr (s : string)
| PList (l : list pyval)
| PTuple (l : list pyval)
| PDict (l : list (pyval * pyval))
| PDecimal (d : decimal)
| PDatetime (d : datetime)
| PEnum (member_name : string) (member_value : pyval).

(** ** Exceptions and results *)

Inductive exn_class : Type :=
| AttributeError | TypeError | ValueError | KeyError | OverflowError
| InvalidOperation | ValidationError | OtherError (name : string).

Inductive exn : Type := Exn (cls : exn_class) (msg : string).

Definition exn_cls (e : exn) : exn_class := let 'Exn c _ := e in c.

Inductive result (A : Type) : Type :=
| Ok (a : A)
| Raise (e : exn).
Arguments Ok {A} a.
Arguments Raise {A} e.

Definition is_class (c : exn_class) (e : exn) : bool :=
  match c, exn_cls e with
  | AttributeError, AttributeError | TypeError, TypeError
  | ValueError, ValueError | KeyError, KeyError
  | OverflowError, OverflowError | InvalidOperation, InvalidOperation
  | ValidationError, ValidationError => true
  | OtherError a, OtherError b => bool_decide (a = b)
  | _, _ => false
  end.

(** ** Text builtins *)

Module Text.

(** [str.isspace] on ASCII: TAB..CR, FS..US and the space. *)
Definition is_space (c : ascii) : bool :=
  let n := Z.of_nat (nat_of_ascii c) in
  ((9 <=? n) && (n <=? 13)) || ((28 <=? n) && (n <=? 32)).

Definition is_digit (c : ascii) : bool :=
  let n := Z.of_nat (nat_of_ascii c) in (48 <=? n) && (n <=? 57).

Definition digit_val (c : ascii) : Z := Z.of_nat (nat_of_ascii c) - 48.

Fixpoint lstrip (s : string) : string :=
  match s with
  | String c s' => if is_space c then lstrip s' else s
  | EmptyString => EmptyString
  end.

Fixpoint rstrip (s : string) : string :=
  match s with
  | EmptyString => EmptyString
  | String c s' =>
      match rstrip s' with
      | EmptyString => if is_space c then EmptyString else String c EmptyString
      | r => String c r
      end
  end.

(** [s.strip()] *)
Definition strip (s : string) : string := rstrip (lstrip s).

Definition lower_char (c : ascii) : ascii :=
  let n := nat_of_ascii c in
  if ((65 <=? Z.of_nat n) && (Z.of_nat n <=? 90))%Z
  then ascii_of_nat (n + 32) else c.

(** [s.lower()] *)
Fixpoint lower (s : string) : string :=
  match s with
  | EmptyString => EmptyString
  | String c s' => String (lower_char c) (lower s')
  end.

Definition digit_char (d : Z) : ascii := ascii_of_nat (Z.to_nat (48 + d)).

Fixpoint digits_of_pos_fuel (fuel : nat) (n : Z) (acc : string) : string :=
  match fuel with
  | O => acc
  | S fuel' =>
      let acc' := String (digit_char (n mod 10)) acc in
      if n <? 10 then acc' else digits_of_pos_fuel fuel' (n / 10) acc'
  end.

(** decimal digits of a natural number, ["0"] for zero *)
Definition digits_of (n : Z) : string :=
  digits_of_pos_fuel (S (Z.to_nat (Z.log2 n))) n EmptyString.

(** [str(z)] for an int *)
Definition of_Z (z : Z) : string :=
  if z <? 0 then String "-"%char (digits_of (- z)) else digits_of z.

(** ["%02d" % n] for [0 <= n] *)
Definition pad2 (n : Z) : string :=
  if n <? 10 then String "0"%char (digits_of n) else digits_of n.

(** value of a run of digits read left to right *)
Fixpoint digits_val (acc : Z) (s : string) : Z :=
  match s with
  | EmptyString => acc
  | String c s' => digits_val (10 * acc + digit_val c) s'
  end.

Fixpoint all_digits (s : string) : bool :=
  match s with
  | EmptyString => true
  | String c s' => is_digit c && all_digits s'
  end.

(** the number of digits in the text *)
Fixpoint count_digits (s : string) : Z :=
  match s with
  | EmptyString => 0
  | String c s' => (if is_digit c then 1 else 0) + count_digits s'
  end.

(** digit groups joined by single underscores, as [int] and [Decimal]
    accept them: returns the value, [None] when the text is malformed.
    [prev] tells whether the previous character was a digit. *)
Fixpoint int_digits (prev : bool) (acc : Z) (s : string) : option Z :=
  match s with
  | EmptyString => if prev then Some acc else None
  | String c s' =>
      if is_digit c then int_digits true (10 * acc + digit_val c) s'
      else if (Ascii.eqb c "_"%char && prev)%bool then
        match s' with
        | String d _ => if is_digit d then int_digits false acc s' else None
        | EmptyString => None
        end
      else None
  end.

(** [int(s)] on text: surrounding whitespace, an optional sign, digits.
    [None] stands for the ValueError. *)
Definition parse_int (s : string) : option Z :=
  match strip s with
  | String "-"%char r => Z.opp <$> int_digits false 0 r
  | String "+"%char r => int_digits false 0 r
  | r => int_digits false 0 r
  end.

(** [s.ljust(n, c)] *)
Definition ljust (n : nat) (c : ascii) (s : string) : string :=
  s +:+ string_of_list_ascii (repeat c (n - String.length s)).

(** [s[i:]] for [0 <= i] *)
Fixpoint drop (i : nat) (s : string) : string :=
  match i, s with
  | O, _ => s
  | S i', String _ s' => drop i' s'
  | S _, EmptyString => EmptyString
  end.

(** [s[:i]] for [0 <= i] *)
Fixpoint take (i : nat) (s : string) : string :=
  match i, s with
  | O, _ => EmptyString
  | S i', String c s' => String c (take i' s')
  | S _, EmptyString => EmptyString
  end.

(** [s[-2:]] *)
Definition last2 (s : string) : string := drop (String.length s - 2) s.

(** [s.replace("_", " ")] *)
Fixpoint underscores_to_spaces (s : string) : string :=
  match s with
  | EmptyString => EmptyString
  | String c s' =>
      String (if Ascii.eqb c "_"%char then " "%char else c)
             (underscores_to_spaces s')
  end.

Definition upper_char (c : ascii) : ascii :=
  let n := nat_of_ascii c in
  if ((97 <=? Z.of_nat n) && (Z.of_nat n <=? 122))%Z
  then ascii_of_nat (n - 32) else c.

(** [s.capitalize()] *)
Definition capitalize (s : string) : string :=
  match s with
  | EmptyString => EmptyString
  | String c s' => String (upper_char c) (lower s')
  end.

End Text.

(** ** Numbers *)

Module Num.

(** The exact value of a Python number: a fraction, an infinity, or a
    NaN.  Python compares [int], [float] and [Decimal] operands by their
    exact values. *)
Inductive numv : Type :=
| Fin (n : Z) (d : Z)          (* n / d with 0 < d *)
| Inf (neg : bool)
| NaN.

Definition signed (neg : bool) (z : Z) : Z := if neg then - z else z.

Definition scaled (neg : bool) (m : Z) (base e : Z) : numv :=
  if 0 <=? e then Fin (signed neg (m * base ^ e)) 1
  else Fin (signed neg m) (base ^ (- e)).

Definition of_float (f : spec_float) : numv :=
  match f with
  | S754_zero _ => Fin 0 1
  | S754_infinity s => Inf s
  | S754_nan => NaN
  | S754_finite s m e => scaled s (Z.pos m) 2 e
  end.

Definition of_decimal (d : decimal) : numv :=
  match d with
  | DFin neg c e => scaled neg (Z.of_N c) 10 e
  | DInf neg => Inf neg
  | DNaN _ _ => NaN
  end.

Definition of_val (v : pyval) : option numv :=
  match v with
  | PBool b => Some (Fin (if b then 1 else 0) 1)
  | PInt z => Some (Fin z 1)
  | PFloat f => Some (of_float f)
  | PDecimal d => Some (of_decimal d)
  | _ => None
  end.

Definition is_decimal_nan (v : pyval) : bool :=
  match v with PDecimal (DNaN _ _) => true | _ => false end.

(** [a < b] on exact values; a NaN is below nothing and above nothing *)
Definition ltb (a b : numv) : bool :=
  match a, b with
  | NaN, _ | _, NaN => false
  | Inf true, Inf true => false
  | Inf true, _ => true
  | _, Inf true => false
  | Inf false, _ => false
  | _, Inf false => true
  | Fin n1 d1, Fin n2 d2 => n1 * d2 <? n2 * d1
  end.

Definition eqb (a b : numv) : bool :=
  match a, b with
  | Fin n1 d1, Fin n2 d2 => n1 * d2 =? n2 * d1
  | Inf s1, Inf s2 => Bool.eqb s1 s2
  | _, _ => false
  end.

(** [a < b] where one operand is a number: numbers compare by value, an
    ordering that involves a Decimal NaN raises InvalidOperation, and a
    number against anything else raises TypeError. *)
Definition lt (a b : pyval) : result bool :=
  match of_val a, of_val b with
  | Some x, Some y =>
      if is_decimal_nan a || is_decimal_nan b
      then Raise (Exn InvalidOperation "comparison involving NaN")
      else Ok (ltb x y)
  | _, _ => Raise (Exn TypeError "'<' not supported between instances")
  end.

(** [a > b] is [b < a] on these types *)
Definition gt (a b : pyval) : result bool := lt b a.

(** quotient rounded toward zero *)
Definition trunc_div (n d : Z) : Z := Z.quot n d.

Definition trunc (x : numv) : option Z :=
  match x with Fin n d => Some (trunc_div n d) | _ => None end.

End Num.

(** Bounds of the numeric fields are numbers. *)
Inductive number : Type :=
| NumInt (z : Z)
| NumFloat (f : spec_float)
| NumDecimal (d : decimal).

Definition val_of_number (n : number) : pyval :=
  match n with
  | NumInt z => PInt z
  | NumFloat f => PFloat f
  | NumDecimal d => PDecimal d
  end.

(** ** [decimal.Decimal] *)

Module Dec.

Inductive rounding : Type :=
| ROUND_DOWN | ROUND_UP | ROUND_HALF_UP | ROUND_HALF_DOWN | ROUND_HALF_EVEN
| ROUND_CEILING | ROUND_FLOOR | ROUND_05UP.

(** the default context: [prec=28], [Emax=999999], [Emin=-999999],
    rounding [ROUND_HALF_EVEN] *)
Definition prec : Z := 28.
Definition Emax : Z := 999999.
Definition Emin : Z := -999999.
Definition Etiny : Z := Emin - prec + 1.
Definition context_rounding : rounding := ROUND_HALF_EVEN.

Definition coeff_digits (c : N) : string := Text.digits_of (Z.of_N c).
Definition ndigits (c : N) : Z := Z.of_nat (String.length (coeff_digits c)).

Fixpoint span_digits (s : string) : string * string :=
  match s with
  | String c s' =>
      if Text.is_digit c
      then let '(d, r) := span_digits s' in (String c d, r)
      else (EmptyString, s)
  | EmptyString => (EmptyString, EmptyString)
  end.

Fixpoint remove_underscores (s : string) : string :=
  match s with
  | EmptyString => EmptyString
  | String c s' =>
      if Ascii.eqb c "_"%char then remove_underscores s'
      else String c (remove_underscores s')
  end.

Definition split_sign (s : string) : bool * string :=
  match s with
  | String "-"%char r => (true, r)
  | String "+"%char r => (false, r)
  | _ => (false, s)
  end.

Definition nonempty (s : string) : bool :=
  match s with EmptyString => false | _ => true end.

(** the exponent part after the [E] *)
Definition parse_exp (r : string) : option Z :=
  let '(neg, ds) := split_sign r in
  if nonempty ds && Text.all_digits ds
  then Some (Num.signed neg (Text.digits_val 0 ds)) else None.

Definition finite_of (neg : bool) (ip fp : string) (e : Z) : decimal :=
  DFin neg (Z.to_N (Text.digits_val 0 (ip +:+ fp)))
       (e - Z.of_nat (String.length fp)).

Definition parse_finite (neg : bool) (r : string) : option decimal :=
  let '(ip, r1) := span_digits r in
  let '(fp, r2) :=
    match r1 with
    | String "."%char t => span_digits t
    | _ => (EmptyString, r1)
    end in
  if nonempty ip || nonempty fp then
    match r2 with
    | EmptyString => Some (finite_of neg ip fp 0)
    | String c t =>
        if Ascii.eqb (Text.lower_char c) "e"%char
        then finite_of neg ip fp <$> parse_exp t
        else None
    end
  else None.

Definition parse_special (neg : bool) (r : string) : option decimal :=
  let l := Text.lower r in
  if bool_decide (l = "inf") || bool_decide (l = "infinity") then Some (DInf neg)
  else if bool_decide (Text.take 3 l = "nan") && Text.all_digits (Text.drop 3 l)
  then Some (DNaN neg false)
  else if bool_decide (Text.take 4 l = "snan") && Text.all_digits (Text.drop 4 l)
  then Some (DNaN neg true)
  else None.

(** [Decimal(s)] for text [s]; [None] stands for InvalidOperation *)
Definition of_string (s : string) : option decimal :=
  let '(neg, r) := split_sign (remove_underscores (Text.strip s)) in
  match parse_finite neg r with
  | Some d => Some d
  | None => parse_special neg r
  end.

Definition sign_str (neg : bool) : string := if neg then "-" else EmptyString.

Definition zeros (n : Z) : string :=
  string_of_list_ascii (repeat "0"%char (Z.to_nat n)).

(** ["%+d" % n] *)
Definition signed_str (n : Z) : string :=
  if n <? 0 then Text.of_Z n else String "+"%char (Text.of_Z n).

(** [Decimal.__str__(eng)]: [str(d)] with [eng = false],
    [d.to_eng_string()] with [eng = true] *)
Definition to_str (eng : bool) (d : decimal) : string :=
  match d with
  | DInf neg => sign_str neg +:+ "Infinity"
  | DNaN neg sig => sign_str neg +:+ (if sig then "sNaN" else "NaN")
  | DFin neg c e =>
      let int := coeff_digits c in
      let len := Z.of_nat (String.length int) in
      let leftdigits := e + len in
      let dotplace :=
        if (e <=? 0) && (-6 <? leftdigits) then leftdigits
        else if negb eng then 1
        else if bool_decide (int = "0") then (leftdigits + 1) mod 3 - 1
        else (leftdigits - 1) mod 3 + 1 in
      let '(intpart, fracpart) :=
        if dotplace <=? 0 then ("0", "." +:+ zeros (- dotplace) +:+ int)
        else if len <=? dotplace then (int +:+ zeros (dotplace - len), EmptyString)
        else (Text.take (Z.to_nat dotplace) int,
              "." +:+ Text.drop (Z.to_nat dotplace) int) in
      let exp :=
        if leftdigits =? dotplace then EmptyString
        else "E" +:+ signed_str (leftdigits - dotplace) in
      sign_str neg +:+ intpart +:+ fracpart +:+ exp
  end.

Definition to_eng_string : decimal -> string := to_str true.

Definition is_finite (d : decimal) : bool :=
  match d with DFin _ _ _ => true | _ => false end.

(** whether dropping the remainder [r] of [q * 10^k + r] rounds the
    quotient up *)
Definition round_up (mode : rounding) (neg : bool) (q r pow : Z) : bool :=
  match mode with
  | ROUND_DOWN => false
  | ROUND_UP => negb (r =? 0)
  | ROUND_HALF_UP => pow <=? 2 * r
  | ROUND_HALF_DOWN => pow <? 2 * r
  | ROUND_HALF_EVEN => (pow <? 2 * r) || ((pow =? 2 * r) && Z.odd q)
  | ROUND_CEILING => negb neg && negb (r =? 0)
  | ROUND_FLOOR => neg && negb (r =? 0)
  | ROUND_05UP => negb (r =? 0) && ((q mod 10 =? 0) || (q mod 10 =? 5))
  end.

(** [Decimal._rescale(exp, rounding)] on a finite value *)
Definition rescale (neg : bool) (c : N) (e : Z) (exp : Z) (mode : rounding)
  : decimal :=
  if (c =? 0)%N then DFin neg 0 exp
  else if exp <=? e then DFin neg (Z.to_N (Z.of_N c * 10 ^ (e - exp))) exp
  else
    let pow := 10 ^ (exp - e) in
    let q := Z.of_N c / pow in
    let r := Z.of_N c mod pow in
    DFin neg (Z.to_N (if round_up mode neg q r pow then q + 1 else q)) exp.

Definition adjusted (c : N) (e : Z) : Z := e + ndigits c - 1.

Definition invalid (msg : string) : result decimal :=
  Raise (Exn InvalidOperation msg).

(** [self.quantize(exp, rounding=rounding)] for a finite [self], in the
    default context *)
Definition quantize (self : decimal) (exp : decimal) (rnd : option rounding)
  : result decimal :=
  let mode := default context_rounding rnd in
  match self, exp with
  | _, DNaN _ true | DNaN _ true, _ => invalid "sNaN"
  | DNaN n s, _ => Ok (DNaN n s)
  | _, DNaN n s => Ok (DNaN n s)
  | DInf n, DInf _ => Ok (DInf n)
  | DInf _, _ | _, DInf _ => invalid "quantize with one INF"
  | DFin neg c e, DFin _ _ ee =>
      if negb ((Etiny <=? ee) && (ee <=? Emax))
      then invalid "target exponent out of bounds in quantize"
      else if (c =? 0)%N then Ok (DFin neg 0 ee)
      else if Emax <? adjusted c e
      then invalid "exponent of quantize result too large for current context"
      else if prec <? adjusted c e - ee + 1
      then invalid "quantize result has too many digits for current context"
      else
        match rescale neg c e ee mode with
        | DFin neg' c' e' =>
            if Emax <? adjusted c' e'
            then invalid "exponent of quantize result too large for current context"
            else if prec <? ndigits c'
            then invalid "quantize result has too many digits for current context"
            else Ok (DFin neg' c' e')
        | d => Ok d
        end
  end.

End Dec.

(** ** Regular expressions ([re.match] on patterns without stars) *)

Module Re.

Inductive re : Type :=
| Eps
| Chr (p : ascii -> bool)          (* one character of a class *)
| Seq (a b : re)
| Alt (a b : re)                   (* [a|b], [a] tried first *)
| Opt (a : re)                     (* greedy [a?] *)
| Grp (name : string) (a : re)     (* [(?P<name>a)] *)
| Eot.                             (* [$] *)

(** [a{n}] *)
Fixpoint times (n : nat) (a : re) : re :=
  match n with O => Eps | S n' => Seq a (times n' a) end.

(** greedy [a{0,n}] *)
Fixpoint upto (n : nat) (a : re) : re :=
  match n with O => Eps | S n' => Opt (Seq a (upto n' a)) end.

(** greedy [a{m,n}] *)
Definition between (m n : nat) (a : re) : re :=
  Seq (times m a) (upto (n - m) a).

Fixpoint seqs (l : list re) : re :=
  match l with
  | [] => Eps
  | [a] => a
  | a :: l' => Seq a (seqs l')
  end.

Definition lit (c : ascii) : re := Chr (Ascii.eqb c).
Definition one_of (a b : ascii) : re := Chr (fun c => Ascii.eqb c a || Ascii.eqb c b).
Definition digit : re := Chr Text.is_digit.

(** the text matched between position [s] and the later position [s'] *)
Definition consumed (s s' : string) : string :=
  Text.take (String.length s - String.length s') s.

(** Backtracking matcher in continuation-passing style: [k] is what is
    left to match; the first success in the order Python tries wins. *)
Fixpoint run {A : Type} (r : re) (s : string) (caps : gmap string string)
    (k : string -> gmap string string -> option A) : option A :=
  match r with
  | Eps => k s caps
  | Chr p =>
      match s with
      | String c s' => if p c then k s' caps else None
      | EmptyString => None
      end
  | Seq a b => run a s caps (fun s' caps' => run b s' caps' k)
  | Alt a b =>
      match run a s caps k with
      | Some x => Some x
      | None => run b s caps k
      end
  | Opt a =>
      match run a s caps k with
      | Some x => Some x
      | None => k s caps
      end
  | Grp name a =>
      run a s caps (fun s' caps' => k s' (<[name := consumed s s']> caps'))
  | Eot =>
      (* end of text, or just before a newline that ends the text *)
      match s with
      | EmptyString => k s caps
      | String c EmptyString =>
          if Ascii.eqb c (ascii_of_nat 10) then k s caps else None
      | _ => None
      end
  end.

(** [pattern.match(s)]: the named groups that took part, [None] when
    there is no match at the start of [s] *)
Definition matches (r : re) (s : string) : option (gmap string string) :=
  run r s ∅ (fun _ caps => Some caps).

End Re.

(** ** [src/utils.py] *)

Module Utils.
Import Re.

(** [_iso8601_datetime_re] *)
Definition _iso8601_datetime_re : re :=
  seqs [
    Grp "year" (times 4 digit); lit "-";
    Grp "month" (between 1 2 digit); lit "-";
    Grp "day" (between 1 2 digit);
    one_of "T" " ";
    Grp "hour" (between 1 2 digit); lit ":";
    Grp "minute" (between 1 2 digit);
    Opt (seqs [
      lit ":"; Grp "second" (between 1 2 digit);
      Opt (seqs [lit "."; Grp "microsecond" (between 1 6 digit);
                 upto 6 digit])]);
    Opt (Grp "tzinfo"
           (Alt (lit "Z")
                (seqs [one_of "+" "-"; times 2 digit;
                       Opt (seqs [Opt (lit ":"); times 2 digit])])));
    Eot ].

(** the argument of [get_fixed_timezone]: minutes as an int, or a
    [timedelta] (given by its whole seconds) *)
Inductive offset_arg : Type :=
| OffsetMinutes (minutes : Z)
| OffsetDelta (seconds : Z).

(** [dt.timezone(dt.timedelta(minutes=offset), name)]: the offset must lie
    strictly between -24h and 24h *)
Definition timezone_new (minutes : Z) (name : string) : result timezone :=
  if (-1440 <? minutes) && (minutes <? 1440) then Ok (TzFixed minutes name)
  else Raise (Exn ValueError
    "offset must be a timedelta strictly between -timedelta(hours=24) and timedelta(hours=24)").

Definition get_fixed_timezone (offset : offset_arg) : result timezone :=
  let offset :=
    match offset with
    | OffsetDelta seconds => seconds / 60
    | OffsetMinutes m => m
    end in
  let sign := if offset <? 0 then "-" else "+" in
  let hhmm := Text.pad2 (Z.abs offset / 60) +:+ Text.pad2 (Z.abs offset mod 60) in
  let name := sign +:+ hhmm in
  timezone_new offset name.

Definition is_leap (y : Z) : bool :=
  (y mod 4 =? 0) && (negb (y mod 100 =? 0) || (y mod 400 =? 0)).

Definition days_in_month (y m : Z) : Z :=
  if m =? 2 then (if is_leap y then 29 else 28)
  else if (m =? 4) || (m =? 6) || (m =? 9) || (m =? 11) then 30 else 31.

Definition in_range (lo x hi : Z) : bool := (lo <=? x) && (x <=? hi).

(** [dt.datetime(year, month, day, hour, minute, second, microsecond,
    tzinfo)]: a field out of range raises ValueError *)
Definition datetime_new (year month day hour minute second microsecond : Z)
    (tzinfo : option timezone) : result datetime :=
  if negb (in_range 1 year 9999) then Raise (Exn ValueError "year is out of range")
  else if negb (in_range 1 month 12) then Raise (Exn ValueError "month must be in 1..12")
  else if negb (in_range 1 day (days_in_month year month))
  then Raise (Exn ValueError "day is out of range for month")
  else if negb (in_range 0 hour 23) then Raise (Exn ValueError "hour must be in 0..23")
  else if negb (in_range 0 minute 59) then Raise (Exn ValueError "minute must be in 0..59")
  else if negb (in_range 0 second 59) then Raise (Exn ValueError "second must be in 0..59")
  else if negb (in_range 0 microsecond 999999)
  then Raise (Exn ValueError "microsecond must be in 0..999999")
  else Ok (mkDatetime year month day hour minute second microsecond tzinfo).

(** [int(s)] on text *)
Definition int_of_text (s : string) : result Z :=
  match Text.parse_int s with
  | Some z => Ok z
  | None => Raise (Exn ValueError "invalid literal for int() with base 10")
  end.

(** [int(v)] for a group of the match; a group that did not take part is
    left out of the keyword arguments, and the constructor's default
    applies *)
Definition int_group (kw : gmap string string) (name : string) (dflt : Z)
  : result Z :=
  match kw !! name with
  | None => Ok dflt
  | Some v => int_of_text v
  end.

Definition bind_result {A B : Type} (r : result A) (k : A -> result B)
  : result B :=
  match r with Ok a => k a | Raise e => Raise e end.

Notation "x <-r e1 ; e2" := (bind_result e1 (fun x => e2))
  (at level 100, e1 at next level, right associativity, only parsing).

(** the minutes east of UTC that [from_iso_datetime] reads off a numeric
    [tzinfo] group: [tzinfo[-2:]], [tzinfo[1:3]] and [tzinfo[0]] *)
Definition tz_offset (tzinfo : string) : result Z :=
  offset_mins <-r (if (3 <? Z.of_nat (String.length tzinfo))
                  then int_of_text (Text.last2 tzinfo) else Ok 0);
  hours <-r int_of_text (Text.take 2 (Text.drop 1 tzinfo));
  let offset := 60 * hours + offset_mins in
  Ok (if bool_decide (Text.take 1 tzinfo = "-") then - offset else offset).

Definition not_iso8601 : exn :=
  Exn ValueError "Not a valid ISO8601-formatted datetime string".

Definition from_iso_datetime (value : pyval) : result datetime :=
  match value with
  | PStr value =>
      match matches _iso8601_datetime_re value with
      | None => Raise not_iso8601
      | Some kw =>
          let kw := match kw !! "microsecond" with
                    | Some us => <["microsecond" := Text.ljust 6 "0" us]> kw
                    | None => kw
                    end in
          let tzinfo := kw !! "tzinfo" in
          let kw := delete "tzinfo" kw in
          tzinfo <-r
            match tzinfo with
            | None => Ok None
            | Some tz =>
                if bool_decide (tz = "Z") then Ok (Some TzUTC)
                else
                  offset <-r tz_offset tz;
                  tz' <-r get_fixed_timezone (OffsetMinutes offset);
                  Ok (Some tz')
            end;
          year <-r int_group kw "year" 0;
          month <-r int_group kw "month" 0;
          day <-r int_group kw "day" 0;
          hour <-r int_group kw "hour" 0;
          minute <-r int_group kw "minute" 0;
          second <-r int_group kw "second" 0;
          microsecond <-r int_group kw "microsecond" 0;
          datetime_new year month day hour minute second microsecond tzinfo
      end
  | _ => Raise (Exn TypeError "expected string or bytes-like object")
  end.

End Utils.

(** ** The interpreter's conversions *)

(** Library routines whose results the field code passes on unchanged: the
    pipeline is stated for any behaviour of them. *)
Record Runtime : Type := mkRuntime {
  (** [float(s)] on text; [None] stands for the ValueError *)
  float_of_text : string -> option spec_float;
  (** [str(v)] for floats, containers, datetimes and enum members *)
  repr_of : pyval -> string;
  (** [dt.datetime.strptime(value, data_format)] on text *)
  strptime : string -> string -> result datetime;
  (** [email.utils.parsedate_to_datetime] *)
  parsedate_to_datetime : pyval -> result datetime
}.

(** [fields.EMPTY_VALUES]: [None], the empty text, list, tuple and dict; and
    [value in EMPTY_VALUES] *)
Definition in_EMPTY_VALUES (v : pyval) : bool :=
  match v with
  | PNone | PStr EmptyString | PList [] | PTuple [] | PDict [] => true
  | _ => false
  end.

(** [bool(v)] *)
Definition truth (v : pyval) : bool :=
  match v with
  | PNone => false
  | PBool b => b
  | PInt z => negb (z =? 0)
  | PFloat (S754_zero _) => false
  | PFloat _ => true
  | PStr s => Dec.nonempty s
  | PList l | PTuple l => match l with [] => false | _ => true end
  | PDict l => match l with [] => false | _ => true end
  | PDecimal (DFin _ c _) => negb (c =? 0)%N
  | PDecimal _ => true
  | PDatetime _ | PEnum _ _ => true
  end.

(** whether [hash(v)] succeeds *)
Fixpoint hashable (v : pyval) : bool :=
  match v with
  | PList _ | PDict _ => false
  | PTuple l =>
      (fix all (l : list pyval) : bool :=
         match l with [] => true | x :: r => hashable x && all r end) l
  | PDecimal (DNaN _ true) => false
  | _ => true
  end.

(** [float(z)] for an int: the nearest double, OverflowError beyond the
    range *)
Definition float_of_int (z : Z) : result spec_float :=
  match binary_normalize 53 1024 z 0 false with
  | S754_infinity _ => Raise (Exn OverflowError "int too large to convert to float")
  | f => Ok f
  end.

Section Conversions.
Variable rt : Runtime.

(** [str(v)] *)
Definition py_str (v : pyval) : string :=
  match v with
  | PNone => "None"
  | PBool true => "True"
  | PBool false => "False"
  | PInt z => Text.of_Z z
  | PStr s => s
  | PDecimal d => Dec.to_str false d
  | _ => repr_of rt v
  end.

(** [sys.get_int_max_str_digits()] as the interpreter starts: [int] refuses
    text with more digits *)
Definition INT_MAX_STR_DIGITS : Z := 4300.

(** [int(v)] *)
Definition py_int (v : pyval) : result pyval :=
  match v with
  | PBool b => Ok (PInt (if b then 1 else 0))
  | PInt z => Ok (PInt z)
  | PStr s =>
      match Text.parse_int s with
      | Some z =>
          if INT_MAX_STR_DIGITS <? Text.count_digits s
          then Raise (Exn ValueError
                 "Exceeds the limit (4300 digits) for integer string conversion")
          else Ok (PInt z)
      | None => Raise (Exn ValueError "invalid literal for int() with base 10")
      end
  | PFloat _ | PDecimal (DFin _ _ _) =>
      match Num.of_val v with
      | Some (Num.Fin n d) => Ok (PInt (Num.trunc_div n d))
      | Some (Num.Inf _) =>
          Raise (Exn OverflowError "cannot convert float infinity to integer")
      | _ => Raise (Exn ValueError "cannot convert float NaN to integer")
      end
  | PDecimal (DInf _) =>
      Raise (Exn OverflowError "cannot convert Infinity to integer")
  | PDecimal (DNaN _ _) =>
      Raise (Exn ValueError "cannot convert NaN to integer")
  | _ => Raise (Exn TypeError
           "int() argument must be a string, a bytes-like object or a real number")
  end.

(** [float(v)] *)
Definition py_float (v : pyval) : result pyval :=
  match v with
  | PBool b => Ok (PFloat (if b then S754_finite false 4503599627370496 (-52)
                           else S754_zero false))
  | PInt z => match float_of_int z with
              | Ok f => Ok (PFloat f)
              | Raise e => Raise e
              end
  | PFloat f => Ok (PFloat f)
  | PStr s =>
      match float_of_text rt s with
      | Some f => Ok (PFloat f)
      | None => Raise (Exn ValueError "could not convert string to float")
      end
  | PDecimal (DNaN _ true) =>
      Raise (Exn ValueError "cannot convert signaling NaN to float")
  | PDecimal d =>
      match float_of_text rt (Dec.to_str false d) with
      | Some f => Ok (PFloat f)
      | None => Raise (Exn ValueError "could not convert string to float")
      end
  | _ => Raise (Exn TypeError "float() argument must be a string or a real number")
  end.

(** [len(v)] *)
Definition py_len (v : pyval) : result Z :=
  match v with
  | PStr s => Ok (Z.of_nat (String.length s))
  | PList l | PTuple l => Ok (Z.of_nat (List.length l))
  | PDict l => Ok (Z.of_nat (List.length l))
  | _ => Raise (Exn TypeError "object has no len()")
  end.

End Conversions.

(** ** [src/constants.py] *)

Module Constants.

(** A format string with plain named fields, split at the braces:
    ["Row {row_number}."] is [[Lit "Row "; Hole "row_number"; Lit "."]]. *)
Inductive segment : Type :=
| Lit (s : string)
| Hole (name : string).

Definition template : Type := list segment.

Definition dquote : string := String (ascii_of_nat 34) EmptyString.

(** [REQUIRED.message] *)
Definition REQUIRED_message : template :=
  [Lit "Missing Value - "; Hole "field"; Lit " = : Row "; Hole "row_number";
   Lit "."].

(** [INCORRECT_FORMAT.message] *)
Definition INCORRECT_FORMAT_message : template :=
  [Lit "Incorrect Format - "; Hole "field"; Lit (" = " +:+ dquote);
   Hole "value"; Lit (dquote +:+ " : Row "); Hole "row_number"; Lit "."].

Definition MISSING_ERROR_MESSAGE : template :=
  [Lit "ValidationError raised by `"; Hole "class_name";
   Lit "`, but error key `"; Hole "key";
   Lit "` does not exist in the `error_messages` dictionary."].

End Constants.

(** ** [src/fields.py] *)

Module Fields.
Import Constants.

(** *** The data *)

(** an entry of [error_messages]: a format string, or an object that is
    recorded as it is *)
Inductive message : Type :=
| MsgTemplate (t : template)
| MsgObject (v : pyval).

(** a validator or a preprocessor: a unary function that returns or raises *)
Definition pyfun : Type := pyval -> result pyval.

(** the concrete classes with the attributes their constructors add *)
Inductive field_kind : Type :=
| IntField (min_value max_value : option number)
| FloatField (min_value max_value : option number)
| StrField (min_len max_len : option Z)
| DecimalField (places : option decimal) (places_limit : option Z)
               (rounding : option Dec.rounding)
               (min_value max_value : option number)
| DateTime (format : option string)
| BooleanField
| EnumField (enumeration : list (string * string)).  (* member name, value *)

(** The attributes [__init__] and [__set_name__] fix: the declaration. *)
Record Field : Type := mkField {
  kind : field_kind;
  attr_name : string;
  verbose_name_arg : option string;
  required : bool;
  default : pyval;
  convert_to_none_strings_arg : list string;
  validators_arg : list pyfun;
  pre_processors_arg : list pyfun;
  error_messages_arg : gmap string message
}.

(** [self.errors]: the list of [__init__], or the [defaultdict(list)] of
    [__set__] *)
Inductive errstore : Type :=
| ErrList (msgs : list pyval)
| ErrDefaultDict (items : list (pyval * list pyval)).

(** The attributes a call rewrites: the runtime state.  [owner] is a
    reference into the heap of record instances. *)
Record FieldState : Type := mkState {
  owner : option nat;
  original_value : pyval;
  is_error : bool;
  errors : errstore
}.

(** the runtime attributes as [__init__] leaves them *)
Definition init_state : FieldState :=
  {| owner := None; original_value := PNone; is_error := false;
     errors := ErrList [] |}.

(** what [getattr(owner, "fields")] finds *)
Inductive fields_attr : Type :=
| FieldsUnset                              (* no such attribute *)
| FieldsNone                               (* [fields = None] *)
| FieldsDict (registry : gmap string Field).

(** A record instance: [row_number] ([None] when the attribute is not
    there), the registry attribute, and the other attributes by name. *)
Record Instance : Type := mkInstance {
  row_number : option pyval;
  fields : fields_attr;
  slots : gmap string pyval
}.

(** an object with no attribute set *)
Definition bare : Instance :=
  {| row_number := None; fields := FieldsUnset; slots := ∅ |}.

Definition heap : Type := gmap nat Instance.

Definition deref (h : gmap nat Instance) (o : nat) : Instance :=
  match h !! o with Some i => i | None => bare end.

(** *** Calls that return or raise and rewrite the runtime state *)

Definition M (A : Type) : Type := FieldState -> result A * FieldState.

#[global] Instance M_ret : MRet M := fun A a st => (Ok a, st).
#[global] Instance M_bind : MBind M := fun A B k m st =>
  match m st with
  | (Ok a, st') => k a st'
  | (Raise e, st') => (Raise e, st')
  end.

Definition raise {A : Type} (e : exn) : M A := fun st => (Raise e, st).
Definition lift {A : Type} (r : result A) : M A := fun st => (r, st).

(** [try: body  except <caught>: handler] *)
Definition try_except {A : Type} (body : M A) (caught : exn -> bool)
    (handler : exn -> M A) : M A := fun st =>
  match body st with
  | (Raise e, st') => if caught e then handler e st' else (Raise e, st')
  | r => r
  end.

Definition class_name (k : field_kind) : string :=
  match k with
  | IntField _ _ => "IntField"
  | FloatField _ _ => "FloatField"
  | StrField _ _ => "StrField"
  | DecimalField _ _ _ _ _ => "DecimalField"
  | DateTime _ => "DateTime"
  | BooleanField => "BooleanField"
  | EnumField _ => "EnumField"
  end.

(** [Field.default_error_messages] *)
Definition Field_default_error_messages : gmap string message :=
  {[ "required" := MsgTemplate REQUIRED_message;
     "format" := MsgTemplate INCORRECT_FORMAT_message ]}.

(** [DateTime.default_error_messages] *)
Definition DateTime_default_error_messages : gmap string message :=
  {[ "invalid" := MsgTemplate [Lit "Not a valid "; Hole "obj_type"; Lit "."];
     "invalid_awareness" :=
       MsgTemplate [Lit "Not a valid "; Hole "awareness"; Lit " ";
                    Hole "obj_type"; Lit "."];
     "format" :=
       MsgTemplate [Lit dquote; Hole "input";
                    Lit (dquote +:+ " cannot be formatted as a ");
                    Hole "obj_type"; Lit "."] ]}.

Definition class_error_messages (k : field_kind) : gmap string message :=
  match k with
  | DateTime _ => DateTime_default_error_messages
  | _ => ∅
  end.

Section Methods.
Variable rt : Runtime.
Variable h : gmap nat Instance.
Variable self : Field.

(** [self.error_messages]: the defaults along the class hierarchy, base
    first, then the constructor's overrides; later entries win *)
Definition error_messages : gmap string message :=
  error_messages_arg self
    ∪ (class_error_messages (kind self) ∪ Field_default_error_messages).

Definition default_convert_to_none_strings : list string := ["null"].
Definition default_validators : list pyfun := [].

Definition convert_to_none_strings : list string :=
  default_convert_to_none_strings ++ convert_to_none_strings_arg self.
Definition validators : list pyfun :=
  default_validators ++ validators_arg self.
Definition preprocessors : list pyfun :=
  default_validators ++ pre_processors_arg self.

Definition make_verbose_name (verbose_name : option string) : string :=
  match verbose_name with
  | Some v => if Dec.nonempty v then v
              else Text.capitalize (Text.underscores_to_spaces (attr_name self))
  | None => Text.capitalize (Text.underscores_to_spaces (attr_name self))
  end.

(** [self.verbose_name] after [__set_name__] *)
Definition verbose_name : string := make_verbose_name (verbose_name_arg self).
Definition private_name : string := "_" +:+ attr_name self.

(** [msg.format] on the keyword arguments: a field that is not among
    them raises KeyError *)
Fixpoint format (t : template) (kwargs : list (string * pyval))
  : result string :=
  match t with
  | [] => Ok EmptyString
  | Lit s :: t' =>
      match format t' kwargs with
      | Ok r => Ok (s +:+ r)
      | Raise e => Raise e
      end
  | Hole name :: t' =>
      match (list_to_map kwargs : gmap string pyval) !! name with
      | None => Raise (Exn KeyError name)
      | Some v =>
          match format t' kwargs with
          | Ok r => Ok (py_str rt v +:+ r)
          | Raise e => Raise e
          end
      end
  end.

(** [self.owner.row_number] *)
Definition owner_row_number (st : FieldState) : result pyval :=
  match owner st with
  | None => Raise (Exn AttributeError
              "'NoneType' object has no attribute 'row_number'")
  | Some o =>
      match row_number (deref h o) with
      | Some v => Ok v
      | None => Raise (Exn AttributeError "object has no attribute 'row_number'")
      end
  end.

Definition no_append : exn :=
  Exn AttributeError "'collections.defaultdict' object has no attribute 'append'".

(** [self.errors.append(msg)] *)
Definition errors_append (msg : pyval) : M unit := fun st =>
  match errors st with
  | ErrList l =>
      (Ok (), {| owner := owner st; original_value := original_value st;
                 is_error := is_error st; errors := ErrList (l ++ [msg]) |})
  | ErrDefaultDict _ => (Raise no_append, st)
  end.

Definition set_is_error (b : bool) : M unit := fun st =>
  (Ok (), {| owner := owner st; original_value := original_value st;
             is_error := b; errors := errors st |}).

(** the message [_make_error] builds for [key] *)
Definition error_text (key : string) (kwargs : list (string * pyval))
    (rown : pyval) : result pyval :=
  let kwargs := ("field", PStr verbose_name) :: ("row_number", rown) :: kwargs in
  match error_messages !! key with
  | Some (MsgObject v) => Ok v
  | Some (MsgTemplate t) =>
      match format t kwargs with Ok s => Ok (PStr s) | Raise e => Raise e end
  | None =>
      match format MISSING_ERROR_MESSAGE
              [("class_name", PStr (class_name (kind self))); ("key", PStr key)] with
      | Ok s => Ok (PStr s)
      | Raise e => Raise e
      end
  end.

Definition _make_error (key : string) (kwargs : list (string * pyval))
  : M unit :=
  rown ← (fun st => (owner_row_number st, st));
  msg ← lift (error_text key kwargs rown);
  errors_append msg;;
  set_is_error true.

Definition pre_process_value (value : pyval) : pyval :=
  match value with
  | PStr s =>
      let _value := if Dec.nonempty (Text.strip s) then PStr (Text.strip s)
                    else PNone in
      if bool_decide (Text.lower (py_str rt _value) ∈ convert_to_none_strings)
      then PNone else _value
  | _ => value
  end.

(** the loop of [_run_preprocessors] *)
Fixpoint apply_preprocessors (ps : list pyfun) (original_value value : pyval)
  : M pyval :=
  match ps with
  | [] => mret value
  | p :: ps' =>
      match p value with
      | Ok value' => apply_preprocessors ps' original_value value'
      | Raise e =>
          if is_class ValidationError e then
            _make_error "incorrect_format" [("value", original_value)];;
            mret PNone
          else raise e
      end
  end.

Definition _run_preprocessors (value : pyval) : M pyval :=
  if in_EMPTY_VALUES value then mret value
  else apply_preprocessors preprocessors value value.

Definition _validate_required (value : pyval) : M unit :=
  match value with
  | PNone => if required self then _make_error "required" [("value", value)]
             else mret ()
  | _ => mret ()
  end.

(** the loop of [_run_validators] *)
Fixpoint apply_validators (vs : list pyfun) (value : pyval) : M unit :=
  match vs with
  | [] => mret ()
  | v :: vs' =>
      match v value with
      | Ok _ => apply_validators vs' value
      | Raise e =>
          if is_class ValidationError e then
            ov ← (fun st => (Ok (original_value st), st));
            _make_error "incorrect_format" [("value", ov)];;
            apply_validators vs' value
          else raise e
      end
  end.

Definition _run_validators (value : pyval) : M unit :=
  if in_EMPTY_VALUES value then mret ()
  else apply_validators validators value.

(** [self._make_error("incorrect_format", value=self.original_value)] *)
Definition incorrect_format : M unit :=
  ov ← (fun st => (Ok (original_value st), st));
  _make_error "incorrect_format" [("value", ov)].

(** *** [NumberField] *)

Definition NumberField_validate (min_value max_value : option number)
    (value : pyval) : M pyval :=
  value ←
    match value, min_value with
    | PNone, _ | _, None => mret value
    | _, Some m =>
        below ← lift (Num.gt (val_of_number m) value);
        if below : bool then incorrect_format;; mret PNone else mret value
    end;
  match value, max_value with
  | PNone, _ | _, None => mret value
  | _, Some _ =>
      (* [self.min_value < value] *)
      above ← lift (match min_value with
                    | Some m => Num.lt (val_of_number m) value
                    | None => Raise (Exn TypeError
                        "'<' not supported between instances of 'NoneType' and the value")
                    end);
      if above : bool then incorrect_format;; mret PNone else mret value
  end.

Definition IntField_deserialize (value : pyval) : M pyval :=
  try_except (lift (py_int value)) (is_class ValueError)
    (fun _ => incorrect_format;; mret PNone).

Definition FloatField_deserialize (value : pyval) : M pyval :=
  try_except (lift (py_float rt value)) (is_class ValueError)
    (fun _ => incorrect_format;; mret PNone).

(** *** [StrField] *)

Definition StrField_validate (min_len max_len : option Z) (value : pyval)
  : M pyval :=
  match value with
  | PNone => mret PNone
  | _ =>
      short ← match min_len with
              | Some m => n ← lift (py_len value); mret (n <? m)
              | None => mret false
              end;
      bad ← (if short : bool then mret true
             else match max_len with
                  | Some m => n ← lift (py_len value); mret (m <? n)
                  | None => mret false
                  end);
      (if bad : bool then incorrect_format else mret ());;
      mret PNone
  end.

Definition StrField_deserialize (value : pyval) : M pyval :=
  mret (PStr (Text.strip (py_str rt value))).

(** *** [DecimalField] *)

Definition no_attribute (name : string) : exn :=
  Exn AttributeError ("object has no attribute '" +:+ name +:+ "'").

Definition DecimalField__validate_place (places_limit : option Z)
    (value : pyval) : M pyval :=
  match places_limit with
  | None | Some 0 => mret value
  | Some limit =>
      match value with
      | PDecimal (DFin _ _ e as d) =>
          if limit <? Z.abs e then
            _make_error "incorrect_format"
              [("value", PStr (Dec.to_eng_string d))];;
            mret PNone
          else mret value
      | PDecimal _ => raise (Exn TypeError "bad operand type for abs(): 'str'")
      | _ => raise (no_attribute "as_tuple")
      end
  end.

Definition DecimalField_validate (places : option decimal)
    (places_limit : option Z) (rounding : option Dec.rounding)
    (min_value max_value : option number) (value : pyval) : M pyval :=
  DecimalField__validate_place places_limit value;;
  value ←
    match places with
    | None => mret value
    | Some quantum =>
        match value with
        | PDecimal d =>
            if Dec.is_finite d
            then q ← lift (Dec.quantize d quantum rounding); mret (PDecimal q)
            else mret value
        | _ => raise (no_attribute "is_finite")
        end
    end;
  match value with
  | PNone => mret PNone
  | _ =>
      below ← match min_value with
              | Some m => lift (Num.lt value (val_of_number m))
              | None => mret false
              end;
      bad ← (if below : bool then mret true
             else match max_value with
                  | Some m => lift (Num.gt value (val_of_number m))
                  | None => mret false
                  end);
      (if bad : bool then incorrect_format else mret ());;
      mret PNone
  end.

Definition DecimalField_deserialize (value : pyval) : M pyval :=
  try_except
    (lift (match Dec.of_string (py_str rt value) with
           | Some d => Ok (PDecimal d)
           | None => Raise (Exn InvalidOperation "ConversionSyntax")
           end))
    (fun e => is_class ValueError e || is_class InvalidOperation e)
    (fun _ => incorrect_format;; mret PNone).

(** *** [DateTime] *)

Definition DEFAULT_FORMAT : string := "iso".
Definition OBJ_TYPE : string := "datetime".

(** [utils.from_rfc] *)
Definition from_rfc (datestring : pyval) : result datetime :=
  parsedate_to_datetime rt datestring.

Definition _make_object_from_format (value : pyval) (data_format : string)
  : result datetime :=
  match value with
  | PStr s => strptime rt s data_format
  | _ => Raise (Exn TypeError "strptime() argument 1 must be str")
  end.

(** [DESERIALIZATION_FUNCS.get(data_format)] *)
Definition DESERIALIZATION_FUNCS (data_format : string)
  : option (pyval -> result datetime) :=
  if bool_decide (data_format = "iso") || bool_decide (data_format = "iso8601")
  then Some Utils.from_iso_datetime
  else if bool_decide (data_format = "rfc") || bool_decide (data_format = "rfc822")
  then Some from_rfc
  else None.

(** [raise None]: what [raise self._make_error(...)] comes to once
    [_make_error] has returned *)
Definition raise_None {A : Type} : M A :=
  raise (Exn TypeError "exceptions must derive from BaseException").

Definition DateTime_deserialize (format : option string) (value : pyval)
  : M pyval :=
  let data_format :=
    match format with
    | Some f => if Dec.nonempty f then f else DEFAULT_FORMAT
    | None => DEFAULT_FORMAT
    end in
  let parse :=
    match DESERIALIZATION_FUNCS data_format with
    | Some func => func value
    | None => _make_object_from_format value data_format
    end in
  try_except
    (d ← lift parse; mret (PDatetime d))
    (fun e => is_class TypeError e || is_class AttributeError e
              || is_class ValueError e)
    (fun _ =>
       _make_error "invalid" [("input", value); ("obj_type", PStr OBJ_TYPE)];;
       raise_None).

(** *** [BooleanField] *)

Definition truthy : list pyval :=
  [PStr "t"; PStr "T"; PStr "true"; PStr "True"; PStr "TRUE"; PStr "1";
   PInt 1; PBool true; PStr "yes"; PStr "Yes"; PStr "YES"].

Definition falsy : list pyval :=
  [PStr "f"; PStr "F"; PStr "false"; PStr "False"; PStr "FALSE"; PStr "0";
   PInt 0; PFloat (S754_zero false); PBool false;
   PStr "no"; PStr "No"; PStr "NO"].

(** [a == b] between a hashable value and a member of these sets *)
Definition member_eq (a b : pyval) : bool :=
  match a, b with
  | PStr x, PStr y => bool_decide (x = y)
  | PStr _, _ | _, PStr _ => false
  | _, _ =>
      match Num.of_val a, Num.of_val b with
      | Some x, Some y => Num.eqb x y
      | _, _ => false
      end
  end.

(** [value in s] for a set [s]: hashing comes first *)
Definition set_contains (s : list pyval) (value : pyval) : result bool :=
  if hashable value then Ok (existsb (member_eq value) s)
  else Raise (Exn TypeError "unhashable type").

Definition BooleanField_deserialize (value : pyval) : M pyval :=
  match truthy with
  | [] => mret (PBool (truth value))
  | _ =>
      try_except
        (t ← lift (set_contains truthy value);
         if t : bool then mret (PBool true)
         else
           f ← lift (set_contains falsy value);
           if f : bool then mret (PBool false)
           else incorrect_format;; mret PNone)
        (is_class TypeError)
        (fun _ => incorrect_format;; mret PNone)
  end.

(** *** [EnumField] *)

(** [{element.value.lower(): element.value for element in enumeration}] *)
Definition enum_lookup (enumeration : list (string * string))
  : gmap string string :=
  foldl (fun m '(_, v) => <[Text.lower v := v]> m) ∅ enumeration.

(** [self.enumeration(v)]: the first member whose value is [v] *)
Definition enum_call (enumeration : list (string * string))
    (v : option string) : result pyval :=
  match v with
  | None => Raise (Exn ValueError "None is not a valid member")
  | Some v =>
      match List.find (fun m => bool_decide (m.2 = v)) enumeration with
      | Some (name, value) => Ok (PEnum name (PStr value))
      | None => Raise (Exn ValueError "not a valid member")
      end
  end.

Definition EnumField_deserialize (enumeration : list (string * string))
    (value : pyval) : M pyval :=
  let table := enum_lookup enumeration in
  try_except
    (lift (match value with
           | PStr s => enum_call enumeration (table !! Text.lower s)
           | _ => Raise (no_attribute "lower")
           end))
    (fun e => is_class ValueError e || is_class AttributeError e)
    (fun _ => incorrect_format;; mret PNone).

(** *** The pipeline *)

Definition deserialize (value : pyval) : M pyval :=
  match kind self with
  | IntField _ _ => IntField_deserialize value
  | FloatField _ _ => FloatField_deserialize value
  | StrField _ _ => StrField_deserialize value
  | DecimalField _ _ _ _ _ => DecimalField_deserialize value
  | DateTime format => DateTime_deserialize format value
  | BooleanField => BooleanField_deserialize value
  | EnumField enumeration => EnumField_deserialize enumeration value
  end.

(** the [validate] hook; [Field.validate] does nothing *)
Definition validate (value : pyval) : M pyval :=
  match kind self with
  | IntField lo hi | FloatField lo hi => NumberField_validate lo hi value
  | StrField lo hi => StrField_validate lo hi value
  | DecimalField places places_limit rounding lo hi =>
      DecimalField_validate places places_limit rounding lo hi value
  | DateTime _ | BooleanField | EnumField _ => mret PNone
  end.

Definition _validate (value : pyval) : M pyval :=
  validate value;;
  _run_validators value;;
  mret value.

Definition _deserialize (value : pyval) : M pyval :=
  let output := pre_process_value value in
  output ← _run_preprocessors output;
  _validate_required value;;
  output ← (if negb (in_EMPTY_VALUES value) then deserialize output
            else mret output);
  _validate output;;
  mret output.

(** [setattr(owner, name, value)] for an attribute other than
    [row_number] and [fields] *)
Definition set_slot (i : Instance) (name : string) (value : pyval) : Instance :=
  {| row_number := row_number i; fields := fields i;
     slots := <[name := value]> (slots i) |}.

(** [setattr(owner, FIELDS, registry)] *)
Definition set_fields (i : Instance) (registry : gmap string Field) : Instance :=
  {| row_number := row_number i; fields := FieldsDict registry;
     slots := slots i |}.

(** [Field.__set__]: returns the result, the runtime state and the heap
    as the call leaves them.  The registry is held by the instance: a dict
    that several instances share, which [update] would change for all of
    them at once, is outside the model. *)
Definition __set__ (owner : nat) (value : pyval) (st : FieldState)
  : result unit * FieldState * gmap nat Instance :=
  let st := {| Fields.owner := Some owner; original_value := value;
               is_error := is_error st; errors := ErrDefaultDict [] |} in
  match _deserialize value st with
  | (Raise e, st') => (Raise e, st', h)
  | (Ok value, st') =>
      let o := set_slot (deref h owner) private_name value in
      match fields o with
      | FieldsUnset =>
          (Raise (no_attribute "fields"), st', <[owner := o]> h)
      | FieldsNone =>
          (Ok (), st', <[owner := set_fields o {[ attr_name self := self ]}]> h)
      | FieldsDict registry =>
          if bool_decide (size registry = 0%nat)
          then (Ok (), st',
                <[owner := set_fields o {[ attr_name self := self ]}]> h)
          else (Ok (), st',
                <[owner := set_fields o (<[attr_name self := self]> registry)]> h)
      end
  end.

(** [Field.__get__] *)
Definition __get__ (obj : nat) : result pyval :=
  match slots (deref h obj) !! private_name with
  | None => Raise (no_attribute private_name)
  | Some PNone => Ok (default self)
  | Some value => Ok value
  end.

End Methods.
End Fields.

(** * Vocabulary of the statements *)

Import Fields.

(** A runtime for the examples: [float] reads integer literals only; none
    of the examples converts other text to a float, prints a container or
    parses with [strptime] or the mail-date parser. *)
Definition example_runtime : Runtime :=
  {| float_of_text := fun s =>
       match Text.parse_int s with
       | Some z => match float_of_int z with Ok f => Some f | Raise _ => None end
       | None => None
       end;
     repr_of := fun _ => "<object>";
     strptime := fun _ _ => Raise (Exn ValueError "time data does not match format");
     parsedate_to_datetime := fun _ => Raise (Exn TypeError "not a date string") |}.

(** [name = Kind(required=req)] with no other argument *)
Definition declare (k : field_kind) (name : string) (req : bool) : Field :=
  {| kind := k; attr_name := name; verbose_name_arg := None; required := req;
     default := PNone; convert_to_none_strings_arg := []; validators_arg := [];
     pre_processors_arg := []; error_messages_arg := ∅ |}.

(** a record on row 7 whose class declares [fields = None] *)
Definition row7 : Instance :=
  {| row_number := Some (PInt 7); fields := FieldsNone; slots := ∅ |}.

Definition heap7 : gmap nat Instance := {[ 0%nat := row7 ]}.

(** a state in which errors can be recorded: the list of [__init__] and an
    owner *)
Definition listening (o : nat) : FieldState :=
  {| owner := Some o; original_value := PNone; is_error := false;
     errors := ErrList [] |}.

(** [frozen m]: started with a [defaultdict] in [errors], [m] leaves the
    runtime attributes as they were, whether it returns or raises. *)
Definition frozen {A : Type} (m : M A) : Prop :=
  forall st items, errors st = ErrDefaultDict items -> (m st).2 = st.

(** the first three statements of [__set__] *)
Definition entered (o : nat) (v : pyval) (st : FieldState) : FieldState :=
  {| owner := Some o; original_value := v; is_error := is_error st;
     errors := ErrDefaultDict [] |}.

(** [setattr(owner, private_name, value)] and the registry update that end
    [__set__] *)
Definition stored (self : Field) (h : gmap nat Instance) (o : nat) (value : pyval)
  : result unit * gmap nat Instance :=
  let i := set_slot (deref h o) (private_name self) value in
  match fields i with
  | FieldsUnset => (Raise (no_attribute "fields"), <[o := i]> h)
  | FieldsNone => (Ok (), <[o := set_fields i {[ attr_name self := self ]}]> h)
  | FieldsDict registry =>
      if bool_decide (size registry = 0%nat)
      then (Ok (), <[o := set_fields i {[ attr_name self := self ]}]> h)
      else (Ok (), <[o := set_fields i (<[attr_name self := self]> registry)]> h)
  end.

(** the state after [self.errors.append(msg); self.is_error = True] on a
    list *)
Definition with_error (msg : pyval) (st : FieldState) : FieldState :=
  {| owner := owner st; original_value := original_value st; is_error := true;
     errors := match errors st with
               | ErrList l => ErrList (l ++ [msg])
               | e => e
               end |}.

(** the diagnostic [_make_error] records for a key that [error_messages]
    does not have *)
Definition missing_key_message (cls key : string) : pyval :=
  PStr ("ValidationError raised by `" +:+ cls +:+ "`, but error key `" +:+ key
        +:+ "` does not exist in the `error_messages` dictionary.").

Definition is_None (v : pyval) : bool :=
  match v with PNone => true | _ => false end.

(** the validate hook of the kind takes [None] without touching it *)
Definition accepts_None (k : field_kind) : bool :=
  match k with
  | DecimalField None (None | Some 0) _ _ _ => true
  | DecimalField _ _ _ _ _ => false
  | _ => true
  end.

(** the validate hook of the kind has no bound to compare with and no
    length to measure *)
Definition unconstrained (k : field_kind) : bool :=
  match k with
  | IntField None None | FloatField None None | StrField None None
  | DecimalField None (None | Some 0) _ None None
  | DateTime _ | BooleanField | EnumField _ => true
  | _ => false
  end.

(** the parse [DateTime.deserialize] attempts *)
Definition datetime_parse (rt : Runtime) (format : option string) (value : pyval)
  : result datetime :=
  let data_format :=
    match format with
    | Some f => if Dec.nonempty f then f else DEFAULT_FORMAT
    | None => DEFAULT_FORMAT
    end in
  match DESERIALIZATION_FUNCS rt data_format with
  | Some func => func value
  | None => _make_object_from_format rt value data_format
  end.


(** A run of assignment statements [rec.name = value] on the instance [o]:
    each is tried on the heap the earlier ones left (the field object comes
    with the runtime state it is in); the result is the final heap and the
    fields whose assignment completed, in order. *)
Fixpoint assign_all (rt : Runtime) (o : nat)
    (l : list (Field * FieldState * pyval)) (h : gmap nat Instance)
  : gmap nat Instance * list Field :=
  match l with
  | [] => (h, [])
  | (f, st, v) :: l' =>
      let '(r, _, h') := __set__ rt h f o v st in
      let '(h'', done) := assign_all rt o l' h' in
      (h'', match r with Ok _ => f :: done | Raise _ => done end)
  end.

(** [fields.update({attr_name: self})] *)
Definition register (m : gmap string Field) (f : Field) : gmap string Field :=
  <[attr_name f := f]> m.

Definition registry_of (a : fields_attr) : gmap string Field :=
  match a with FieldsDict m => m | _ => ∅ end.

(** a run of exactly [n] digits *)
Definition digits (n : nat) (s : string) : Prop :=
  String.length s = n /\ Text.all_digits s = true.

Definition val (s : string) : Z := Text.digits_val 0 s.

Definition in_calendar (y mo d h mi s us : Z) : bool :=
  Utils.in_range 1 y 9999 && Utils.in_range 1 mo 12
  && Utils.in_range 1 d (Utils.days_in_month y mo)
  && Utils.in_range 0 h 23 && Utils.in_range 0 mi 59 && Utils.in_range 0 s 59
  && Utils.in_range 0 us 999999.

(** [int(v)] for a group that may not have taken part *)
Definition group_int (g : option string) (dflt : Z) : result Z :=
  match g with None => Ok dflt | Some v => Utils.int_of_text v end.

(** the timezone [from_iso_datetime] derives from the [tzinfo] group *)
Definition tzinfo_of (g : option string) : result (option timezone) :=
  match g with
  | None => Ok None
  | Some tz =>
      if bool_decide (tz = "Z") then Ok (Some TzUTC)
      else
        Utils.bind_result (Utils.tz_offset tz) (fun offset =>
        Utils.bind_result (Utils.get_fixed_timezone (Utils.OffsetMinutes offset))
          (fun tz' => Ok (Some tz')))
  end.

(** the name [get_fixed_timezone] gives an offset *)
Definition offset_name (offset : Z) : string :=
  (if offset <? 0 then "-" else "+")
  +:+ Text.pad2 (Z.abs offset / 60) +:+ Text.pad2 (Z.abs offset mod 60).

Definition sign_char (neg : bool) : ascii := if neg then "-"%char else "+"%char.
Definition sign_of (neg : bool) : Z := if neg then -1 else 1.

(** * Further vocabulary *)

(** What a call of [_make_error] that has built the message [msg] comes
    to, with [a] for the result of the code that follows it: with a list in
    [errors] the message is appended and the flag set; with the
    [defaultdict] of [__set__], [append] raises and nothing is written. *)
Definition recorded {A : Type} (msg : pyval) (a : A) (st : FieldState)
  : result A * FieldState :=
  match errors st with
  | ErrList _ => (Ok a, with_error msg st)
  | ErrDefaultDict _ => (Raise no_append, st)
  end.

(** the leftmost field of the template that is not among the names *)
Fixpoint first_missing (t : Constants.template) (names : list string)
  : option string :=
  match t with
  | [] => None
  | Constants.Lit _ :: t' => first_missing t' names
  | Constants.Hole name :: t' =>
      if bool_decide (name ∈ names) then first_missing t' names else Some name
  end.

(** [c.isupper()] on ASCII *)
Definition is_upper (c : ascii) : bool :=
  let n := Z.of_nat (nat_of_ascii c) in (65 <=? n) && (n <=? 90).

(** whether the text has an upper-case letter *)
Fixpoint has_upper (s : string) : bool :=
  match s with
  | EmptyString => false
  | String c s' => is_upper c || has_upper s'
  end.

(** whether the text has the character *)
Fixpoint has_char (c : ascii) (s : string) : bool :=
  match s with
  | EmptyString => false
  | String d s' => Ascii.eqb c d || has_char c s'
  end.

(** the function returns on the value, or rejects it with ValidationError *)
Definition returns_or_rejects (f : pyfun) (v : pyval) : bool :=
  match f v with Ok _ => true | Raise e => is_class ValidationError e end.

(** the function rejects the value with ValidationError *)
Definition rejects (v : pyval) (f : pyfun) : bool :=
  match f v with Ok _ => false | Raise e => is_class ValidationError e end.

(** the functions applied one after the other, each to the result of the
    one before *)
Definition chain (ps : list pyfun) (v : pyval) : result pyval :=
  foldl (fun r p => match r with Ok x => p x | Raise e => Raise e end) (Ok v) ps.

(** the minutes [get_fixed_timezone] works with *)
Definition offset_minutes_of (offset : Utils.offset_arg) : Z :=
  match offset with
  | Utils.OffsetMinutes m => m
  | Utils.OffsetDelta seconds => seconds / 60
  end.

(** the timezone of a parsed datetime is absent, UTC, or a fixed offset
    within a day under the name [get_fixed_timezone] gives it *)
Definition parsed_tzinfo (tz : option timezone) : Prop :=
  match tz with
  | None | Some TzUTC => True
  | Some (TzFixed m name) => -1440 < m < 1440 /\ name = offset_name m
  end.

(** whether the name of every offset of the list reads back as the
    offset *)
Definition names_read_back (l : list Z) : bool :=
  forallb (fun m =>
             match Utils.tz_offset (offset_name m) with
             | Ok z => (z =? m) && (String.length (offset_name m) =? 5)%nat
             | Raise _ => false
             end) l.

(** [YYYY-MM-DD(T| )HH:MM:SS] *)
Definition stamp (yy mo dd sep hh mi ss : string) : string :=
  yy +:+ "-" +:+ mo +:+ "-" +:+ dd +:+ sep +:+ hh +:+ ":" +:+ mi +:+ ":" +:+ ss.

(** the numeric suffixes [+HH:MM], [-HH:MM], [+HHMM] and [-HHMM] *)
Definition offset_suffix (neg colon : bool) (zh zm : string) : string :=
  String (sign_char neg) zh +:+ (if colon then ":" else EmptyString) +:+ zm.

Definition newline : string := String (ascii_of_nat 10) EmptyString.

(** ** [utils.isoformat] *)

(** ["%0wd" % n] for [0 <= n] *)
Definition pad (w : nat) (n : Z) : string :=
  let s := Text.digits_of n in
  string_of_list_ascii (repeat "0"%char (w - String.length s)) +:+ s.

(** the fraction [datetime.isoformat] prints: none for zero microseconds *)
Definition fraction_text (microsecond : Z) : string :=
  if microsecond =? 0 then EmptyString else "." +:+ pad 6 microsecond.

(** the UTC offset [datetime.isoformat] prints, for offsets of whole
    minutes *)
Definition utcoffset_text (tz : option timezone) : string :=
  match tz with
  | None => EmptyString
  | Some TzUTC => offset_suffix false true "00" "00"
  | Some (TzFixed m _) =>
      offset_suffix (m <? 0) true (Text.pad2 (Z.abs m / 60))
        (Text.pad2 (Z.abs m mod 60))
  end.

(** [utils.isoformat]: [datetime.isoformat()] *)
Definition isoformat (d : datetime) : string :=
  stamp (pad 4 (dt_year d)) (Text.pad2 (dt_month d)) (Text.pad2 (dt_day d)) "T"
    (Text.pad2 (dt_hour d)) (Text.pad2 (dt_minute d)) (Text.pad2 (dt_second d))
  +:+ fraction_text (dt_microsecond d) +:+ utcoffset_text (dt_tzinfo d).

(** the timezone as [from_iso_datetime] rebuilds it from the printed
    offset *)
Definition reparsed_tzinfo (tz : option timezone) : option timezone :=
  match tz with
  | None => None
  | Some TzUTC => Some (TzFixed 0 (offset_name 0))
  | Some (TzFixed m _) => Some (TzFixed m (offset_name m))
  end.

(** whether ["%02d"] of every number of the list is two digits that read
    back as the number *)
Definition pad2_reads_back (l : list Z) : bool :=
  forallb (fun n => (String.length (Text.pad2 n) =? 2)%nat
                    && Text.all_digits (Text.pad2 n)
                    && (val (Text.pad2 n) =? n)) l.

(** ** [src/models.py] *)

Module Models.

(** [class StaffNoteStatusTypes(Enum)] *)
Inductive StaffNoteStatusTypes : Type := OPEN | REOPENED | RESOLVED.

(** the members with their values, in the order of the class body *)
Definition members : list (string * string) :=
  [("OPEN", "open"); ("REOPENED", "reopened"); ("RESOLVED", "resolved")].

(** [a == b]: members are equal when they are the same member *)
Definition same (a b : StaffNoteStatusTypes) : bool :=
  match a, b with
  | OPEN, OPEN | REOPENED, REOPENED | RESOLVED, RESOLVED => true
  | _, _ => false
  end.

(** the dict [allowed_map] of [follow], in the order of its display *)
Definition allowed_map : list (StaffNoteStatusTypes * StaffNoteStatusTypes) :=
  [(OPEN, RESOLVED); (RESOLVED, REOPENED); (REOPENED, RESOLVED)].

(** [d.get(key)] on a dict display: the last entry of the key *)
Fixpoint get (d : list (StaffNoteStatusTypes * StaffNoteStatusTypes))
    (key : StaffNoteStatusTypes) : option StaffNoteStatusTypes :=
  match d with
  | [] => None
  | (k, v) :: d' =>
      match get d' key with
      | Some v' => Some v'
      | None => if same k key then Some v else None
      end
  end.

(** [StaffNoteStatusTypes.follow] *)
Definition follow (self other : StaffNoteStatusTypes) : bool :=
  match get allowed_map other with
  | Some allowed => same self allowed
  | None => false
  end || same self other.

(** the module-level [a = StaffNoteStatusTypes.RESOLVED.follow(
    StaffNoteStatusTypes.REOPENED)] *)
Definition a : bool := follow RESOLVED REOPENED.

End Models.

(** * Properties *)

(** ** The builtins on examples *)

Example strip_ex : Text.strip "  a b 	" = "a b".
Proof. reflexivity. Qed.

Example parse_int_ex :
  Text.parse_int " -1_000 " = Some (-1000) /\ Text.parse_int "abc" = None
  /\ Text.parse_int EmptyString = None /\ Text.parse_int "1__0" = None
  /\ Text.parse_int "007" = Some 7.
Proof. repeat split. Qed.

Example of_Z_ex :
  Text.of_Z 0 = "0" /\ Text.of_Z (-1205) = "-1205" /\ Text.pad2 5 = "05".
Proof. repeat split. Qed.

Example lt_ex :
  Num.lt (PInt 3) (PFloat (S754_finite false 7 (-1))) = Ok true
  /\ Num.lt (PDecimal (DFin false 1005 (-3))) (PInt 1) = Ok false
  /\ (exists m, Num.lt PNone (PInt 1) = Raise (Exn TypeError m)).
Proof. repeat split. eexists; reflexivity. Qed.

Example decimal_parse_ex :
  Dec.of_string "1.005" = Some (DFin false 1005 (-3))
  /\ Dec.of_string " -.5e2 " = Some (DFin true 5 1)
  /\ Dec.of_string "1." = Some (DFin false 1 0)
  /\ Dec.of_string "None" = None /\ Dec.of_string "." = None
  /\ Dec.of_string "abc" = None /\ Dec.of_string "-Infinity" = Some (DInf true)
  /\ Dec.of_string "NaN" = Some (DNaN false false).
Proof. repeat split. Qed.

Example decimal_str_ex :
  Dec.to_str false (DFin false 1005 (-3)) = "1.005"
  /\ Dec.to_str false (DFin true 5 1) = "-5E+1"
  /\ Dec.to_eng_string (DFin false 123 4) = "1.23E+6"
  /\ Dec.to_str false (DFin false 123 4) = "1.23E+6"
  /\ Dec.to_eng_string (DFin false 12 4) = "120E+3"
  /\ Dec.to_str false (DFin false 1 (-7)) = "1E-7"
  /\ Dec.to_eng_string (DFin false 0 (-2)) = "0.00".
Proof. repeat split. Qed.

Example quantize_ex :
  Dec.quantize (DFin false 1005 (-3)) (DFin false 1 (-2)) (Some Dec.ROUND_HALF_UP)
  = Ok (DFin false 101 (-2))
  /\ Dec.quantize (DFin false 1005 (-3)) (DFin false 1 (-2)) None
     = Ok (DFin false 100 (-2))
  /\ Dec.quantize (DFin true 15 (-1)) (DFin false 1 0) (Some Dec.ROUND_FLOOR)
     = Ok (DFin true 2 0).
Proof. repeat split. Qed.

Example iso_utc_ex :
  Utils.from_iso_datetime (PStr "2023-01-15T10:30:00Z")
  = Ok (mkDatetime 2023 1 15 10 30 0 0 (Some TzUTC)).
Proof. vm_compute. reflexivity. Qed.

Example iso_offset_ex :
  Utils.from_iso_datetime (PStr "2023-01-15T10:30:00+05:30")
  = Ok (mkDatetime 2023 1 15 10 30 0 0 (Some (TzFixed 330 "+0530")))
  /\ Utils.from_iso_datetime (PStr "2023-01-15 10:30:00.5-0800")
     = Ok (mkDatetime 2023 1 15 10 30 0 500000 (Some (TzFixed (-480) "-0800")))
  /\ Utils.from_iso_datetime (PStr "2023-01-15T10:30")
     = Ok (mkDatetime 2023 1 15 10 30 0 0 None)
  /\ Utils.from_iso_datetime (PStr "2023-01-15") = Raise Utils.not_iso8601
  /\ Utils.from_iso_datetime (PStr "2023-01-15T10:30:00.1234567890123") = Raise Utils.not_iso8601
  /\ Utils.from_iso_datetime (PStr "2023-01-15T10:30:00.1234567Z")
     = Ok (mkDatetime 2023 1 15 10 30 0 123456 (Some TzUTC)).
Proof. vm_compute. repeat split. Qed.

Example float_of_int_ex :
  float_of_int 1 = Ok (S754_finite false 4503599627370496 (-52))
  /\ Num.of_float (S754_finite false 4503599627370496 (-52))
     = Num.Fin 4503599627370496 4503599627370496.
Proof. vm_compute. repeat split. Qed.

(** ** The monad *)

Lemma bind_ok {A B : Type} (m : M A) (k : A -> M B) st a st' :
  m st = (Ok a, st') -> (m ≫= k) st = k a st'.
Proof. intros E. unfold mbind, M_bind. now rewrite E. Qed.

Lemma bind_raise {A B : Type} (m : M A) (k : A -> M B) st e st' :
  m st = (Raise e, st') -> (m ≫= k) st = (Raise e, st').
Proof. intros E. unfold mbind, M_bind. now rewrite E. Qed.

(** ** Under the [defaultdict] of [__set__] no call changes the state *)

Create HintDb frozen.

Lemma frozen_mret {A : Type} (a : A) : frozen (mret a : M A).
Proof. now intros st items _. Qed.

Lemma frozen_raise {A : Type} (e : exn) : frozen (raise e : M A).
Proof. now intros st items _. Qed.

Lemma frozen_lift {A : Type} (r : result A) : frozen (lift r).
Proof. now intros st items _. Qed.

Lemma frozen_bind {A B : Type} (m : M A) (k : A -> M B) :
  frozen m -> (forall a, frozen (k a)) -> frozen (m ≫= k).
Proof.
  intros Hm Hk st items E. unfold mbind, M_bind.
  specialize (Hm st items E).
  destruct (m st) as [[a|e] st']; simpl in Hm; subst st'.
  - now apply (Hk a st items).
  - reflexivity.
Qed.

Lemma frozen_try_except {A : Type} (body : M A) caught (handler : exn -> M A) :
  frozen body -> (forall e, frozen (handler e)) ->
  frozen (try_except body caught handler).
Proof.
  intros Hb Hh st items E. unfold try_except.
  specialize (Hb st items E).
  destruct (body st) as [[a|e] st']; simpl in Hb; subst st'; [reflexivity|].
  destruct (caught e); [now apply (Hh e st items) | reflexivity].
Qed.

Lemma frozen_if {A : Type} (b : bool) (m1 m2 : M A) :
  frozen m1 -> frozen m2 -> frozen (if b then m1 else m2).
Proof. now destruct b. Qed.

#[global] Hint Resolve frozen_mret frozen_raise frozen_lift frozen_try_except
  frozen_if : frozen.
#[global] Hint Extern 2 (frozen (_ ≫= _)) =>
  apply frozen_bind; [| intros ?] : frozen.

Section Frozen.
Variable rt : Runtime.
Variable h : gmap nat Instance.
Variable self : Field.

(** With a [defaultdict] in [errors], [_make_error] raises before it
    writes anything. *)
Lemma make_error_raises key kwargs st items :
  errors st = ErrDefaultDict items ->
  exists e, _make_error rt h self key kwargs st = (Raise e, st).
Proof.
  intros E. unfold _make_error, mbind, M_bind, lift, errors_append.
  destruct (owner_row_number h st); [|eauto].
  destruct (error_text rt self key kwargs a); [|eauto].
  rewrite E. eauto.
Qed.

(** On assignment, with a row number on the owner and a message that
    builds, what [_make_error] raises is the AttributeError of [append]. *)
Lemma make_error_on_assignment key kwargs st items rn msg :
  errors st = ErrDefaultDict items ->
  owner_row_number h st = Ok rn ->
  error_text rt self key kwargs rn = Ok msg ->
  _make_error rt h self key kwargs st = (Raise no_append, st).
Proof.
  intros E R T. unfold _make_error, mbind, M_bind, lift, errors_append.
  now rewrite R, T, E.
Qed.



Lemma frozen_make_error key kwargs : frozen (_make_error rt h self key kwargs).
Proof.
  intros st items E.
  destruct (make_error_raises key kwargs st items E) as [e ->]. reflexivity.
Qed.

Lemma frozen_incorrect_format : frozen (incorrect_format rt h self).
Proof.
  unfold incorrect_format. apply frozen_bind.
  - now intros st items _.
  - intros a. apply frozen_make_error.
Qed.

Hint Resolve frozen_make_error frozen_incorrect_format : frozen.

Lemma frozen_apply_preprocessors ps ov v :
  frozen (apply_preprocessors rt h self ps ov v).
Proof.
  revert v. induction ps as [|p ps IH]; intros v; cbn [apply_preprocessors].
  - auto with frozen.
  - destruct (p v) as [v'|e]; [apply IH|].
    destruct (is_class ValidationError e); auto with frozen.
Qed.

Lemma frozen_apply_validators vs v :
  frozen (apply_validators rt h self vs v).
Proof.
  induction vs as [|f vs IH]; cbn [apply_validators].
  - auto with frozen.
  - destruct (f v) as [r|e]; [apply IH|].
    destruct (is_class ValidationError e); [|auto with frozen].
    apply frozen_bind; [now intros st items _|intros ov].
    apply frozen_bind; [apply frozen_make_error|intros _; apply IH].
Qed.

Hint Resolve frozen_apply_preprocessors frozen_apply_validators : frozen.

Lemma frozen_deserialize v : frozen (deserialize rt h self v).
Proof.
  unfold deserialize.
  destruct (kind self);
    unfold IntField_deserialize, FloatField_deserialize, StrField_deserialize,
      DecimalField_deserialize, DateTime_deserialize, BooleanField_deserialize,
      EnumField_deserialize, raise_None; simpl;
    auto 8 with frozen.
Qed.

Lemma frozen_validate v : frozen (validate rt h self v).
Proof.
  unfold validate.
  destruct (kind self);
    unfold NumberField_validate, StrField_validate, DecimalField_validate,
      DecimalField__validate_place;
    repeat first
      [ progress auto 6 with frozen
      | apply frozen_bind; [| intros ?]
      | match goal with
        | |- frozen (match ?x with _ => _ end) => destruct x
        end ].
Qed.

Lemma frozen__run_preprocessors v : frozen (_run_preprocessors rt h self v).
Proof.
  unfold _run_preprocessors. destruct (in_EMPTY_VALUES v); auto with frozen.
Qed.

Lemma frozen__deserialize v : frozen (_deserialize rt h self v).
Proof.
  unfold _deserialize, _validate, _run_preprocessors, _run_validators,
    _validate_required.
  repeat first
    [ apply frozen_deserialize | apply frozen_validate
    | progress auto 6 with frozen
    | apply frozen_bind; [| intros ?]
    | match goal with
      | |- frozen (match ?x with _ => _ end) => destruct x
      | |- frozen (if ?x then _ else _) => destruct x
      end ].
Qed.

End Frozen.

(** ** What an assignment does to the runtime state *)

Section Assignment.
Variable rt : Runtime.
Variable h : gmap nat Instance.
Variable self : Field.

(** An assignment runs [_deserialize] on the reset state and, when that
    returns, stores the value and registers the field; the state it leaves
    is the reset state itself. *)
Lemma set_unfold o v st :
  __set__ rt h self o v st =
  match (_deserialize rt h self v (entered o v st)).1 with
  | Raise e => (Raise e, entered o v st, h)
  | Ok value => let '(r, h') := stored self h o value in (r, entered o v st, h')
  end.
Proof.
  unfold __set__, stored. fold (entered o v st).
  pose proof (frozen__deserialize rt h self v (entered o v st) [] eq_refl) as F.
  destruct (_deserialize rt h self v (entered o v st)) as [[value|e] st'];
    simpl in F; subst st'; simpl; [|reflexivity].
  destruct (fields (deref h o)); simpl; [reflexivity..|].
  now destruct (bool_decide _).
Qed.

(** Whatever the assignment does, it leaves [errors] an empty
    [defaultdict], the flag as it found it, and the new owner and
    original value. *)
Lemma set_state o v st :
  (__set__ rt h self o v st).1.2 = entered o v st.
Proof.
  rewrite set_unfold.
  destruct (_deserialize rt h self v (entered o v st)).1; [|reflexivity].
  now destruct (stored self h o a).
Qed.

Lemma set_keeps_flag o v st :
  is_error (__set__ rt h self o v st).1.2 = is_error st.
Proof. now rewrite set_state. Qed.

(** An assignment that raises out of [_deserialize] leaves the heap as it
    was. *)
Lemma set_raise_heap o v st e :
  (_deserialize rt h self v (entered o v st)).1 = Raise e ->
  __set__ rt h self o v st = (Raise e, entered o v st, h).
Proof. intros E. now rewrite set_unfold, E. Qed.

End Assignment.

(** C1 (the code departs from the claim).  An [age = IntField()] on row 7:
    after [rec.age = "1"], the assignment [rec.age = "abc"] raises the
    AttributeError of [defaultdict.append] and records nothing, so the
    error store and the flag do not reflect the second value; and a flag
    that a direct [_deserialize("abc")] has set survives two assignments of
    valid values, because [__set__] never writes it. *)
Theorem C1_error_state_after_reassignment :
  let f := declare (IntField None None) "age" true in
  let a1 := __set__ example_runtime heap7 f 0 (PStr "1") init_state in
  let a2 := __set__ example_runtime a1.2 f 0 (PStr "abc") a1.1.2 in
  let d := _deserialize example_runtime heap7 f (PStr "abc") (listening 0) in
  let b1 := __set__ example_runtime heap7 f 0 (PStr "1") d.2 in
  let b2 := __set__ example_runtime b1.2 f 0 (PStr "2") b1.1.2 in
  (a1.1.1 = Ok () /\ a2.1.1 = Raise no_append
   /\ errors a2.1.2 = ErrDefaultDict [] /\ is_error a2.1.2 = false)
  /\ (d.1 = Ok PNone /\ is_error d.2 = true
      /\ b1.1.1 = Ok () /\ b2.1.1 = Ok ()
      /\ slots (deref b2.2 0) !! "_age" = Some (PInt 2)
      /\ is_error b2.1.2 = true).
Proof. vm_compute. repeat split. Qed.

(** ** Recording an error *)

Section Recording.
Variable rt : Runtime.
Variable h : gmap nat Instance.
Variable self : Field.

Lemma make_error_records key kwargs st l rn msg :
  errors st = ErrList l ->
  owner_row_number h st = Ok rn ->
  error_text rt self key kwargs rn = Ok msg ->
  _make_error rt h self key kwargs st = (Ok (), with_error msg st).
Proof.
  intros E R T.
  unfold _make_error, mbind, M_bind, lift, errors_append, set_is_error, with_error.
  rewrite R, T, E. reflexivity.
Qed.

(** the default text of the "required" message *)
Lemma required_text kwargs rn :
  error_messages_arg self !! "required" = None ->
  error_text rt self "required" kwargs rn
  = Ok (PStr ("Missing Value - " +:+ verbose_name self +:+ " = : Row "
              +:+ py_str rt rn +:+ ".")).
Proof.
  intros E. unfold error_text, error_messages.
  assert ((error_messages_arg self
           ∪ (class_error_messages (kind self) ∪ Field_default_error_messages))
          !! "required" = Some (MsgTemplate Constants.REQUIRED_message)) as ->.
  { apply lookup_union_Some_raw. right. split; [exact E|].
    apply lookup_union_Some_raw. right. split.
    - destruct (kind self); try apply lookup_empty. reflexivity.
    - reflexivity. }
  unfold Constants.REQUIRED_message. cbn [format].
  rewrite !list_to_map_cons. cbn [fst snd].
  rewrite lookup_insert_eq, lookup_insert_ne, lookup_insert_eq by discriminate.
  reflexivity.
Qed.

(** The required check: one message exactly when the value it is handed
    is [None] and the field is required. *)
Lemma validate_required_spec v st l rn msg :
  errors st = ErrList l ->
  owner_row_number h st = Ok rn ->
  error_text rt self "required" [("value", v)] rn = Ok msg ->
  _validate_required rt h self v st =
  (Ok (), if required self && is_None v then with_error msg st else st).
Proof.
  intros E R T. unfold _validate_required.
  destruct v; simpl; rewrite ?andb_false_r; try reflexivity.
  destruct (required self); simpl; [|reflexivity].
  now apply make_error_records with (l := l) (rn := rn).
Qed.

Lemma validate_None st :
  accepts_None (kind self) = true -> validate rt h self PNone st = (Ok PNone, st).
Proof.
  unfold validate, accepts_None. intros A.
  destruct (kind self) as [lo hi|lo hi|lo hi|pl lim rnd lo hi|f| |en];
    try reflexivity;
    try (destruct lo, hi; reflexivity).
  destruct pl; [discriminate|].
  destruct lim as [[|?|?]|]; try discriminate; reflexivity.
Qed.

Lemma validate_empty_container v st :
  unconstrained (kind self) = true ->
  v = PList [] \/ v = PTuple [] \/ v = PDict [] ->
  exists r, validate rt h self v st = (Ok r, st).
Proof.
  unfold validate, unconstrained. intros U V.
  destruct (kind self) as [lo hi|lo hi|lo hi|pl lim rnd lo hi|f| |en];
    try (eexists; reflexivity).
  - destruct lo, hi; try discriminate.
    destruct V as [->|[->| ->]]; eexists; reflexivity.
  - destruct lo, hi; try discriminate.
    destruct V as [->|[->| ->]]; eexists; reflexivity.
  - destruct lo, hi; try discriminate.
    destruct V as [->|[->| ->]]; eexists; reflexivity.
  - destruct pl; [discriminate|].
    destruct lim as [[|?|?]|], lo, hi; try discriminate;
      destruct V as [->|[->| ->]]; eexists; reflexivity.
Qed.

(** On an empty-value sentinel the pipeline is the required check on the
    raw value and the validate hook on the pre-processed one. *)
Lemma deserialize_empty v st :
  in_EMPTY_VALUES v = true ->
  _deserialize rt h self v st =
  (_validate_required rt h self v;;
   validate rt h self (pre_process_value rt self v);;
   mret (pre_process_value rt self v)) st.
Proof.
  intros E. unfold _deserialize, _validate, _run_preprocessors, _run_validators.
  assert (in_EMPTY_VALUES (pre_process_value rt self v) = true) as E'.
  { destruct v as [| | | |s|l|l|l| | |]; try discriminate; try exact E.
    destruct s; [|discriminate]. simpl.
    now destruct (bool_decide _). }
  rewrite E, E'. simpl.
  unfold mbind, M_bind, mret, M_ret.
  destruct (_validate_required rt h self v st) as [[[]|e] st1]; [|reflexivity].
  destruct (validate rt h self (pre_process_value rt self v) st1) as [[r|e] st2];
    rewrite ?E'; reflexivity.
Qed.

Lemma stored_ok o value :
  fields (deref h o) <> FieldsUnset ->
  exists h', stored self h o value = (Ok (), h')
    /\ slots (deref h' o) !! private_name self = Some value
    /\ exists registry, fields (deref h' o) = FieldsDict registry
         /\ registry !! attr_name self = Some self.
Proof.
  intros F. unfold stored. simpl.
  destruct (fields (deref h o)) as [| |registry] eqn:E; [congruence| |].
  - eexists; split; [reflexivity|]. unfold deref. rewrite lookup_insert_eq. simpl.
    split; [apply lookup_insert_eq|]. eexists; split; [reflexivity|].
    apply lookup_singleton_eq.
  - destruct (bool_decide _);
      (eexists; split; [reflexivity|]); unfold deref; rewrite lookup_insert_eq;
      simpl; (split; [apply lookup_insert_eq|]); eexists; (split; [reflexivity|]).
    + apply lookup_singleton_eq.
    + apply lookup_insert_eq.
Qed.

End Recording.

(** ** Empty values and the required check (C2) *)

Lemma pre_process_value_empty_text rt self :
  pre_process_value rt self (PStr EmptyString) = PNone.
Proof. unfold pre_process_value. simpl. now destruct (bool_decide _). Qed.

(** What holds of the claim on a record that has a [fields] attribute:
    assigning [None] or the empty string to a non-required field completes,
    records nothing and stores [None] (a Decimal field with [places] or
    [places_limit] aside); an empty list, tuple or mapping is stored as it
    is, required or not, on a field without bounds. *)
Lemma empty_values_stored rt h self o st :
  fields (deref h o) <> FieldsUnset ->
  (required self = false -> accepts_None (kind self) = true ->
   forall v, v = PNone \/ v = PStr EmptyString ->
   exists h', __set__ rt h self o v st = (Ok (), entered o v st, h')
     /\ slots (deref h' o) !! private_name self = Some PNone)
  /\ (unconstrained (kind self) = true ->
      forall v, v = PList [] \/ v = PTuple [] \/ v = PDict [] ->
      exists h', __set__ rt h self o v st = (Ok (), entered o v st, h')
        /\ slots (deref h' o) !! private_name self = Some v).
Proof.
  intros Hfields. split.
  - intros R A v V.
    destruct (stored_ok h self o PNone Hfields) as (h' & S & L & _).
    exists h'. split; [|exact L].
    rewrite set_unfold, deserialize_empty by (now destruct V as [-> | ->]).
    assert (pre_process_value rt self v = PNone) as ->.
    { destruct V as [-> | ->]; [reflexivity|apply pre_process_value_empty_text]. }
    assert (_validate_required rt h self v (entered o v st)
            = (Ok (), entered o v st)) as V1.
    { destruct V as [-> | ->]; unfold _validate_required; [now rewrite R|reflexivity]. }
    unfold mbind, M_bind. rewrite V1, (validate_None rt h self _ A). simpl.
    now rewrite S.
  - intros U v V.
    destruct (stored_ok h self o v Hfields) as (h' & S & L & _).
    exists h'. split; [|exact L].
    rewrite set_unfold, deserialize_empty by (now destruct V as [-> | [-> | ->]]).
    assert (pre_process_value rt self v = v) as ->
        by (now destruct V as [-> | [-> | ->]]).
    assert (_validate_required rt h self v (entered o v st)
            = (Ok (), entered o v st)) as V1
        by (now destruct V as [-> | [-> | ->]]).
    destruct (validate_empty_container rt h self v (entered o v st) U V) as [r V2].
    unfold mbind, M_bind. rewrite V1, V2. simpl. now rewrite S.
Qed.

(** C2 (the code departs from the claim).  On row 7, with
    [age = IntField()] required and [opt = IntField(required=False)]:
    assigning [None] to the required field raises the AttributeError of
    [defaultdict.append] out of [_make_error], with nothing recorded and
    nothing stored; assigning the empty string to it completes with [None]
    stored and nothing recorded, because the required check is handed the
    raw text and not the pre-processed [None] (and so it is where a list in
    [errors] lets [_make_error] record, where [None] does give the one
    "required" message); on the non-required field both store [None] with
    nothing recorded, as claimed; and an empty list is stored as the list
    on either field. *)
Theorem C2_required_error_on_assignment :
  let age := declare (IntField None None) "age" true in
  let opt := declare (IntField None None) "opt" false in
  let a := __set__ example_runtime heap7 age 0 PNone init_state in
  let b := __set__ example_runtime heap7 age 0 (PStr EmptyString) init_state in
  let c := __set__ example_runtime heap7 opt 0 PNone init_state in
  let d := __set__ example_runtime heap7 opt 0 (PStr EmptyString) init_state in
  let e := __set__ example_runtime heap7 age 0 (PList []) init_state in
  let f := __set__ example_runtime heap7 opt 0 (PList []) init_state in
  (a = (Raise no_append, entered 0 PNone init_state, heap7)
   /\ errors a.1.2 = ErrDefaultDict [] /\ is_error a.1.2 = false)
  /\ (b.1.1 = Ok () /\ slots (deref b.2 0) !! "_age" = Some PNone
      /\ errors b.1.2 = ErrDefaultDict [] /\ is_error b.1.2 = false)
  /\ pre_process_value example_runtime age (PStr EmptyString) = PNone
  /\ _deserialize example_runtime heap7 age (PStr EmptyString) (listening 0)
     = (Ok PNone, listening 0)
  /\ _deserialize example_runtime heap7 age PNone (listening 0)
     = (Ok PNone,
        with_error (PStr "Missing Value - Age = : Row 7.") (listening 0))
  /\ (c.1.1 = Ok () /\ slots (deref c.2 0) !! "_opt" = Some PNone
      /\ errors c.1.2 = ErrDefaultDict [])
  /\ (d.1.1 = Ok () /\ slots (deref d.2 0) !! "_opt" = Some PNone
      /\ errors d.1.2 = ErrDefaultDict [])
  /\ (e.1.1 = Ok () /\ slots (deref e.2 0) !! "_age" = Some (PList [])
      /\ errors e.1.2 = ErrDefaultDict [])
  /\ (f.1.1 = Ok () /\ slots (deref f.2 0) !! "_opt" = Some (PList [])).
Proof. vm_compute. repeat split. Qed.

(** ** Convert-to-none text (C3) *)

(** Pre-processing turns text whose trimmed, lower-cased form is a
    configured token into [None]. *)
Lemma pre_process_value_token rt self s :
  Text.lower (Text.strip s) ∈ convert_to_none_strings self ->
  pre_process_value rt self (PStr s) = PNone.
Proof.
  intros T. unfold pre_process_value.
  destruct (Dec.nonempty (Text.strip s)); [|now destruct (bool_decide _)].
  simpl. now rewrite bool_decide_eq_true_2.
Qed.

(** C3 (the code departs from the claim).  Pre-processing turns ["null"]
    into [None], but [_deserialize] gates the required check and the call
    of [deserialize] on the raw text: on [age = IntField(required=False)]
    the text reaches [int(None)] and the assignment raises TypeError, where
    assigning [None] stores [None]; on [note = StrField(required=False)]
    the text is stored as ["None"]. *)
Theorem C3_convert_to_none_text_is_not_None :
  let age := declare (IntField None None) "age" false in
  let note := declare (StrField None None) "note" false in
  let a := __set__ example_runtime heap7 age 0 (PStr "null") init_state in
  let b := __set__ example_runtime heap7 age 0 PNone init_state in
  let c := __set__ example_runtime heap7 note 0 (PStr "null") init_state in
  let d := __set__ example_runtime heap7 note 0 PNone init_state in
  pre_process_value example_runtime age (PStr "null") = PNone
  /\ (exists m, a.1.1 = Raise (Exn TypeError m)) /\ slots (deref a.2 0) !! "_age" = None
  /\ b.1.1 = Ok () /\ slots (deref b.2 0) !! "_age" = Some PNone
  /\ c.1.1 = Ok () /\ slots (deref c.2 0) !! "_note" = Some (PStr "None")
  /\ d.1.1 = Ok () /\ slots (deref d.2 0) !! "_note" = Some PNone.
Proof. vm_compute. repeat split. eexists; reflexivity. Qed.

(** ** The numeric range check (C4) *)

Section RangeCheck.
Variable rt : Runtime.
Variable h : gmap nat Instance.
Variable self : Field.

(** The minimum check: a value below the configured minimum is recorded
    and the hook returns [None]. *)
Lemma NumberField_validate_below lo hi v st l rn msg :
  Num.gt (val_of_number lo) v = Ok true ->
  errors st = ErrList l ->
  owner_row_number h st = Ok rn ->
  error_text rt self "incorrect_format" [("value", original_value st)] rn = Ok msg ->
  NumberField_validate rt h self (Some lo) hi v st = (Ok PNone, with_error msg st).
Proof.
  intros G E R T. unfold NumberField_validate.
  assert (v <> PNone) as NN.
  { intros ->. unfold Num.gt, Num.lt in G. simpl in G. discriminate. }
  assert (incorrect_format rt h self st = (Ok (), with_error msg st)) as I.
  { unfold incorrect_format, mbind, M_bind.
    now apply make_error_records with (l := l) (rn := rn). }
  destruct v; try congruence;
    unfold mbind, M_bind, lift; rewrite G, I; simpl; now destruct hi.
Qed.

(** The maximum check compares [self.min_value] with the value: with a
    maximum and no minimum configured, a value other than [None] raises
    TypeError whatever the maximum is. *)
Lemma NumberField_validate_no_minimum hi v st :
  v <> PNone ->
  exists m, NumberField_validate rt h self None (Some hi) v st
            = (Raise (Exn TypeError m), st).
Proof.
  intros NN. unfold NumberField_validate.
  destruct v; try congruence; eexists; reflexivity.
Qed.

(** With both bounds configured and the value not below the minimum, the
    maximum check records an error exactly when the minimum is below the
    value; the maximum is not looked at. *)
Lemma NumberField_validate_above lo hi v st above :
  Num.gt (val_of_number lo) v = Ok false ->
  Num.lt (val_of_number lo) v = Ok above ->
  NumberField_validate rt h self (Some lo) (Some hi) v st
  = if above then (incorrect_format rt h self;; mret PNone) st else (Ok v, st).
Proof.
  intros G L. unfold NumberField_validate.
  assert (v <> PNone) as NN.
  { intros ->. unfold Num.gt, Num.lt in G. simpl in G. discriminate. }
  destruct v; try congruence;
    unfold mbind, M_bind, lift, mret, M_ret; rewrite G; simpl; rewrite L;
    now destruct above.
Qed.

End RangeCheck.

(** C4 (the code departs from the claim).  The maximum check of
    [NumberField.validate] compares the minimum, not the maximum, with the
    value.  With [max_value=10] alone, 11 exceeds the maximum and the hook
    raises TypeError instead of recording, also out of the assignment of
    ["11"]; with [min_value=10, max_value=5] the value 10 exceeds the
    maximum and nothing is recorded; with [min_value=0, max_value=10] the
    value 5 lies within the bounds and is recorded as an error. *)
Theorem C4_maximum_check_compares_minimum :
  let st := listening 0 in
  let only_max := declare (IntField None (Some (NumInt 10))) "n" false in
  let crossed := declare (IntField (Some (NumInt 10)) (Some (NumInt 5))) "n" false in
  let ranged := declare (IntField (Some (NumInt 0)) (Some (NumInt 10))) "n" false in
  (exists m,
     validate example_runtime heap7 only_max (PInt 11) st = (Raise (Exn TypeError m), st)
     /\ (__set__ example_runtime heap7 only_max 0 (PStr "11") init_state).1.1
        = Raise (Exn TypeError m))
  /\ validate example_runtime heap7 crossed (PInt 10) st = (Ok (PInt 10), st)
  /\ (exists msg,
        validate example_runtime heap7 ranged (PInt 5) st
        = (Ok PNone, with_error msg st)).
Proof.
  vm_compute. repeat split; eexists; try split; reflexivity.
Qed.

(** ** Decimal quantization and the places limit (C5) *)

(** C5 (the code departs from the claim).
    [price = DecimalField(places=Decimal("0.01"), rounding=ROUND_HALF_UP)]
    assigned ["1.005"]: the hook quantizes to 1.01 in a local variable, and
    the stored value is the unquantized 1.005.  With [places_limit=2] the
    same text raises the AttributeError of [defaultdict.append] out of the
    assignment; where recording works, the one message recorded is the
    missing-key diagnostic for [incorrect_format], which does not mention
    the value. *)
Theorem C5_quantized_value_is_not_stored :
  let price := declare (DecimalField (Some (DFin false 1 (-2))) None
                          (Some Dec.ROUND_HALF_UP) None None) "price" false in
  let limited := declare (DecimalField None (Some 2) None None None) "price" false in
  let a := __set__ example_runtime heap7 price 0 (PStr "1.005") init_state in
  let b := __set__ example_runtime heap7 limited 0 (PStr "1.005") init_state in
  Dec.quantize (DFin false 1005 (-3)) (DFin false 1 (-2)) (Some Dec.ROUND_HALF_UP)
  = Ok (DFin false 101 (-2))
  /\ a.1.1 = Ok ()
  /\ slots (deref a.2 0) !! "_price" = Some (PDecimal (DFin false 1005 (-3)))
  /\ b.1.1 = Raise no_append
  /\ _deserialize example_runtime heap7 limited (PStr "1.005") (listening 0)
     = (Ok (PDecimal (DFin false 1005 (-3))),
        with_error (missing_key_message "DecimalField" "incorrect_format")
          (listening 0)).
Proof. vm_compute. repeat split. Qed.

(** ** The datetime parse failure (C6) *)

(** C6 (the code departs from the claim).  [at = DateTime()] assigned text
    that is no ISO-8601 datetime: [_make_error] returns [None], so there is
    no "invalid" exception to raise.  The assignment raises the
    AttributeError of [defaultdict.append]; where recording works, the
    message is recorded, the flag is set, and [raise None] raises TypeError. *)
Theorem C6_datetime_failure_raises_no_invalid_error :
  let at_ := declare (DateTime None) "at" false in
  let a := __set__ example_runtime heap7 at_ 0 (PStr "yesterday") init_state in
  Utils.from_iso_datetime (PStr "yesterday") = Raise Utils.not_iso8601
  /\ a.1.1 = Raise no_append
  /\ errors a.1.2 = ErrDefaultDict []
  /\ _deserialize example_runtime heap7 at_ (PStr "yesterday") (listening 0)
     = (Raise (Exn TypeError "exceptions must derive from BaseException"),
        with_error (PStr "Not a valid datetime.") (listening 0)).
Proof. vm_compute. repeat split. Qed.

Section DateTimeFailure.
Variable rt : Runtime.
Variable h : gmap nat Instance.
Variable self : Field.

(** Where recording works, a parse that raises a type, attribute or
    value error is recorded, and what propagates is the TypeError of
    [raise None]. *)
Lemma DateTime_deserialize_failure format value e st l rn msg :
  datetime_parse rt format value = Raise e ->
  is_class TypeError e || is_class AttributeError e || is_class ValueError e = true ->
  errors st = ErrList l ->
  owner_row_number h st = Ok rn ->
  error_text rt self "invalid" [("input", value); ("obj_type", PStr OBJ_TYPE)] rn
  = Ok msg ->
  DateTime_deserialize rt h self format value st
  = (Raise (Exn TypeError "exceptions must derive from BaseException"),
     with_error msg st).
Proof.
  intros P C E R T. unfold DateTime_deserialize, try_except.
  fold (datetime_parse rt format value). rewrite P.
  unfold mbind at 1, M_bind at 1, lift. rewrite C.
  unfold mbind, M_bind.
  now rewrite (make_error_records rt h self _ _ st l rn msg E R T).
Qed.

End DateTimeFailure.

(** ** Conversion errors of the number fields (C9) *)

Section ConversionErrors.
Variable rt : Runtime.
Variable h : gmap nat Instance.
Variable self : Field.





End ConversionErrors.




(** ** The Decimal validate hook on [None] (C10) *)

Section DecimalOnNone.
Variable rt : Runtime.
Variable h : gmap nat Instance.
Variable self : Field.

(** With [places] or a non-zero [places_limit] the hook calls
    [as_tuple()] or [is_finite()] on whatever it is handed. *)
Lemma DecimalField_validate_None places limit rnd lo hi st :
  accepts_None (DecimalField places limit rnd lo hi) = false ->
  exists name,
    (name = "as_tuple" \/ name = "is_finite")
    /\ DecimalField_validate rt h self places limit rnd lo hi PNone st
       = (Raise (no_attribute name), st).
Proof.
  unfold accepts_None, DecimalField_validate, DecimalField__validate_place.
  intros A.
  destruct limit as [[|p|p]|]; destruct places as [q|]; try discriminate;
    eexists; (split; [|reflexivity]); auto.
Qed.

(** text that is no decimal literal: [deserialize] goes to [_make_error]
    and then returns [None] *)
Lemma DecimalField_deserialize_syntax out st :
  Dec.of_string (py_str rt out) = None ->
  DecimalField_deserialize rt h self out st
  = (incorrect_format rt h self;; mret PNone) st.
Proof.
  intros E. unfold DecimalField_deserialize, try_except, lift. now rewrite E.
Qed.

End DecimalOnNone.

(** C10.  A Decimal field with [places] or a non-zero [places_limit]: the
    validate hook is run on [None] and raises AttributeError ([as_tuple] or
    [is_finite]).  So the pipeline on text that is no decimal literal,
    where the "format" error can be recorded (a list in [errors]), records
    it and then raises that AttributeError; the assignment of such text
    raises an AttributeError as well (already from [defaultdict.append]),
    and so does the assignment of [None] to the non-required field: none
    completes. *)
Theorem C10_decimal_validate_on_None rt h self places limit rnd lo hi
    (Hkind : kind self = DecimalField places limit rnd lo hi)
    (Hcfg : accepts_None (kind self) = false) :
  (forall st, exists name,
      (name = "as_tuple" \/ name = "is_finite")
      /\ validate rt h self PNone st = (Raise (no_attribute name), st))
  /\ (forall v out st l rn msg,
        in_EMPTY_VALUES v = false ->
        _run_preprocessors rt h self (pre_process_value rt self v) st = (Ok out, st) ->
        Dec.of_string (py_str rt out) = None ->
        errors st = ErrList l ->
        owner_row_number h st = Ok rn ->
        error_text rt self "incorrect_format" [("value", original_value st)] rn
        = Ok msg ->
        exists name,
          _deserialize rt h self v st = (Raise (no_attribute name), with_error msg st))
  /\ (forall o v out st rn msg,
        in_EMPTY_VALUES v = false ->
        (_run_preprocessors rt h self (pre_process_value rt self v)
           (entered o v st)).1 = Ok out ->
        Dec.of_string (py_str rt out) = None ->
        row_number (deref h o) = Some rn ->
        error_text rt self "incorrect_format" [("value", v)] rn = Ok msg ->
        __set__ rt h self o v st = (Raise no_append, entered o v st, h))
  /\ (forall o st, required self = false ->
        exists name, __set__ rt h self o PNone st
                     = (Raise (no_attribute name), entered o PNone st, h)).
Proof.
  assert (forall st, exists name,
      (name = "as_tuple" \/ name = "is_finite")
      /\ validate rt h self PNone st = (Raise (no_attribute name), st)) as HV.
  { intros st. unfold validate. rewrite Hkind in Hcfg |- *.
    now apply DecimalField_validate_None. }
  split; [exact HV|]. split; [|split].
  - intros v out st l rn msg Hraw Hpre Hsyn E R T.
    destruct (HV (with_error msg st)) as (name & _ & V). exists name.
    unfold _deserialize.
    rewrite (bind_ok _ _ _ _ _ Hpre).
    assert (_validate_required rt h self v st = (Ok (), st)) as V1.
    { unfold _validate_required. now destruct v. }
    rewrite (bind_ok _ _ _ _ _ V1), Hraw. simpl.
    assert (deserialize rt h self out st = (Ok PNone, with_error msg st)) as D.
    { unfold deserialize. rewrite Hkind.
      rewrite DecimalField_deserialize_syntax by exact Hsyn.
      unfold incorrect_format, mbind, M_bind.
      now rewrite (make_error_records rt h self _ _ st l rn msg E R T). }
    rewrite (bind_ok _ _ _ _ _ D). unfold _validate.
    now rewrite (bind_raise _ _ _ _ _ (bind_raise _ _ _ _ _ V)).
  - intros o v out st rn msg Hraw Hpre Hsyn R T.
    apply set_raise_heap. unfold _deserialize.
    pose proof (frozen__run_preprocessors rt h self (pre_process_value rt self v)
                  (entered o v st) [] eq_refl) as F.
    destruct (_run_preprocessors rt h self (pre_process_value rt self v)
                (entered o v st)) as [r st1] eqn:P.
    simpl in Hpre, F. subst r st1.
    unfold mbind at 1, M_bind at 1. rewrite P.
    assert (_validate_required rt h self v (entered o v st)
            = (Ok (), entered o v st)) as V1.
    { unfold _validate_required. now destruct v. }
    rewrite (bind_ok _ _ _ _ _ V1), Hraw. simpl.
    assert (deserialize rt h self out (entered o v st)
            = (Raise no_append, entered o v st)) as D.
    { unfold deserialize. rewrite Hkind.
      rewrite DecimalField_deserialize_syntax by exact Hsyn.
      unfold incorrect_format, _make_error, mbind, M_bind, lift, errors_append,
        owner_row_number.
      simpl. now rewrite R, T. }
    now rewrite (bind_raise _ _ _ _ _ D).
  - intros o st Hreq.
    destruct (HV (entered o PNone st)) as (name & _ & V). exists name.
    apply set_raise_heap.
    rewrite deserialize_empty by reflexivity. simpl pre_process_value.
    assert (_validate_required rt h self PNone (entered o PNone st)
            = (Ok (), entered o PNone st)) as V1.
    { unfold _validate_required. now rewrite Hreq. }
    rewrite (bind_ok _ _ _ _ _ V1).
    now rewrite (bind_raise _ _ _ _ _ V).
Qed.

(** C10, a witness: [price = DecimalField(places_limit=2)] through the
    pipeline on ["abc"] with a list in [errors] *)
Lemma C10_decimal_validate_on_None_witness :
  let price := declare (DecimalField None (Some 2) None None None) "price" false in
  kind price = DecimalField None (Some 2) None None None
  /\ accepts_None (kind price) = false
  /\ exists name msg,
       _deserialize example_runtime heap7 price (PStr "abc") (listening 0)
       = (Raise (no_attribute name), with_error msg (listening 0)).
Proof.
  split; [reflexivity|]. split; [reflexivity|].
  destruct (C10_decimal_validate_on_None example_runtime heap7
              (declare (DecimalField None (Some 2) None None None) "price" false)
              None (Some 2) None None None eq_refl eq_refl)
    as (_ & H2 & _).
  destruct (H2 (PStr "abc") (PStr "abc") (listening 0) [] (PInt 7)
              (missing_key_message "DecimalField" "incorrect_format"))
    as [name Hn]; try reflexivity.
  exists name. eexists. exact Hn.
Defined.

(** ** The field registry (C8) *)

Section Registry.
Variable rt : Runtime.
Variable o : nat.

(** One assignment: when it completes, the instance's registry is the old
    one (none counts as empty) with the field under its name; when it
    raises, nothing was registered. *)
Lemma set_registers h f v st :
  fields (deref h o) <> FieldsUnset ->
  let '(r, _, h') := __set__ rt h f o v st in
  match r with
  | Ok _ => fields (deref h' o)
            = FieldsDict (register (registry_of (fields (deref h o))) f)
  | Raise _ => h' = h
  end.
Proof.
  intros F. rewrite set_unfold.
  destruct (_deserialize rt h f v (entered o v st)).1 as [value|e]; [|reflexivity].
  unfold stored. simpl.
  destruct (fields (deref h o)) as [| |registry] eqn:E; [congruence| |].
  - unfold deref. rewrite lookup_insert_eq. simpl. unfold register.
    now rewrite insert_empty.
  - destruct (bool_decide (size registry = 0%nat)) eqn:B;
      unfold deref; rewrite lookup_insert_eq; simpl; [|reflexivity].
    apply bool_decide_eq_true_1, map_size_empty_inv in B. subst registry.
    unfold register. now rewrite insert_empty.
Qed.

Lemma assign_all_registry l : forall h,
  fields (deref h o) <> FieldsUnset ->
  let r := assign_all rt o l h in
  (r.2 = [] -> fields (deref r.1 o) = fields (deref h o))
  /\ (r.2 <> [] ->
      fields (deref r.1 o)
      = FieldsDict (foldl register (registry_of (fields (deref h o))) r.2)).
Proof.
  induction l as [|[[f st] v] l IH]; intros h F; simpl.
  - split; [reflexivity|congruence].
  - pose proof (set_registers h f v st F) as S.
    destruct (__set__ rt h f o v st) as [[r st'] h'].
    destruct r as [[]|e].
    + assert (fields (deref h' o) <> FieldsUnset) as F' by (rewrite S; discriminate).
      specialize (IH h' F').
      destruct (assign_all rt o l h') as [h'' done]. simpl in IH |- *.
      destruct IH as [IH0 IH1]. split; [discriminate|]. intros _.
      destruct done as [|g done].
      * rewrite IH0 by reflexivity. exact S.
      * rewrite IH1 by discriminate. now rewrite S.
    + subst h'. specialize (IH h F).
      now destruct (assign_all rt o l h) as [h'' done].
Qed.

Lemma dom_foldl_register (done : list Field) : forall m,
  dom (foldl register m done) = dom m ∪ list_to_set (attr_name <$> done).
Proof.
  induction done as [|f done IH]; intros m; simpl.
  - change (dom m = dom m ∪ ∅). now rewrite union_empty_r_L.
  - rewrite IH. unfold register. rewrite dom_insert_L.
    change (list_to_set (attr_name <$> f :: done))
      with ({[attr_name f]} ∪ list_to_set (attr_name <$> done) : gset string).
    now rewrite (union_comm_L {[attr_name f]} (dom m)), union_assoc_L.
Qed.

End Registry.

(** What holds of the claim: on an instance whose [fields] attribute is
    [None] or empty, after any run of assignments the registry is there as
    soon as one assignment has completed, it holds each field under its
    attribute name (a later field under the same name replaces the
    earlier), and its keys are exactly the names whose assignment
    completed. *)
Lemma registry_built_by_assignment rt o l h
    (Hinit : fields (deref h o) = FieldsNone \/ fields (deref h o) = FieldsDict ∅) :
  let r := assign_all rt o l h in
  (r.2 = [] -> fields (deref r.1 o) = fields (deref h o))
  /\ (r.2 <> [] ->
      exists registry,
        fields (deref r.1 o) = FieldsDict registry
        /\ registry = foldl register ∅ r.2
        /\ dom registry = list_to_set (attr_name <$> r.2)).
Proof.
  assert (fields (deref h o) <> FieldsUnset) as F
      by (destruct Hinit as [E|E]; rewrite E; discriminate).
  assert (registry_of (fields (deref h o)) = ∅) as R0
      by (destruct Hinit as [E|E]; now rewrite E).
  destruct (assign_all_registry rt o l h F) as [H0 H1]. rewrite R0 in H1.
  split; [exact H0|]. intros N.
  eexists. split; [exact (H1 N)|]. split; [reflexivity|].
  now rewrite dom_foldl_register, dom_empty_L, union_empty_l_L.
Qed.

(** On row 7, [rec.age = "42"], [rec.ok = "Yes"], a failing
    [rec.n = "abc"] and [rec.age = "43"] leave the keys [age] and [ok]. *)
Lemma registry_built_by_assignment_example :
  let age := declare (IntField None None) "age" true in
  let ok := declare BooleanField "ok" true in
  let n := declare (IntField None None) "n" true in
  let r := assign_all example_runtime 0
             [(age, init_state, PStr "42"); (ok, init_state, PStr "Yes");
              (n, init_state, PStr "abc"); (age, init_state, PStr "43")] heap7 in
  (fields (deref heap7 0) = FieldsNone \/ fields (deref heap7 0) = FieldsDict ∅)
  /\ r.2 = [age; ok; age]
  /\ exists registry,
       fields (deref r.1 0) = FieldsDict registry
       /\ dom registry = {[ "age"; "ok" ]}.
Proof.
  intros age ok n r.
  assert (fields (deref heap7 0) = FieldsNone \/ fields (deref heap7 0) = FieldsDict ∅)
    as I by (left; vm_compute; reflexivity).
  assert (r.2 = [age; ok; age]) as E2 by (vm_compute; reflexivity).
  split; [exact I|]. split; [exact E2|].
  destruct (registry_built_by_assignment example_runtime 0
              [(age, init_state, PStr "42"); (ok, init_state, PStr "Yes");
               (n, init_state, PStr "abc"); (age, init_state, PStr "43")]
              heap7 I) as [_ H1].
  fold r in H1. rewrite E2 in H1.
  destruct H1 as (registry & E & _ & D); [discriminate|].
  exists registry. split; [exact E|]. rewrite D.
  vm_compute. reflexivity.
Defined.

(** C8 (the code departs from the claim).  On row 7, whose class declares
    [fields = None], with [age = IntField()] and [n = IntField()]:
    [rec.age = "42"] creates the registry with [age] in it, as claimed; the
    next assignment [rec.n = "abc"] raises the AttributeError of
    [defaultdict.append] before the registry is reached, so [n], which has
    been assigned, is not in the registry, and the registry still holds
    [age] alone.  On an instance that has no [fields] attribute,
    [rec.age = "42"] stores the value and then raises AttributeError at
    [getattr(owner, FIELDS)]: the first assignment creates no registry. *)
Theorem C8_registry_misses_assigned_fields :
  let age := declare (IntField None None) "age" true in
  let n := declare (IntField None None) "n" true in
  let a := __set__ example_runtime heap7 age 0 (PStr "42") init_state in
  let b := __set__ example_runtime a.2 n 0 (PStr "abc") init_state in
  let c := __set__ example_runtime ∅ age 3 (PStr "42") init_state in
  (a.1.1 = Ok ()
   /\ registry_of (fields (deref a.2 0)) !! "age" = Some age
   /\ dom (registry_of (fields (deref a.2 0))) = {[ "age" ]})
  /\ (b.1.1 = Raise no_append
      /\ b.2 = a.2
      /\ registry_of (fields (deref b.2 0)) !! "n" = None
      /\ dom (registry_of (fields (deref b.2 0))) = {[ "age" ]})
  /\ (fields (deref ∅ 3) = FieldsUnset
      /\ c.1.1 = Raise (no_attribute "fields")
      /\ slots (deref c.2 3) !! "_age" = Some (PInt 42)
      /\ fields (deref c.2 3) = FieldsUnset).
Proof. vm_compute. repeat split. Qed.

(** ** The ISO-8601 parser (C7) *)

Section DigitText.

Ltac bits c := destruct c as [[] [] [] [] [] [] [] []].

Lemma digit_not_space c : Text.is_digit c = true -> Text.is_space c = false.
Proof. bits c; intros H; try discriminate H; reflexivity. Qed.

Lemma lstrip_digits s : Text.all_digits s = true -> Text.lstrip s = s.
Proof.
  destruct s as [|c s]; [reflexivity|]. simpl.
  intros [D _]%andb_true_iff. now rewrite (digit_not_space c D).
Qed.

Lemma rstrip_digits s : Text.all_digits s = true -> Text.rstrip s = s.
Proof.
  induction s as [|c s IH]; [reflexivity|]. simpl.
  intros [D A]%andb_true_iff. rewrite (IH A).
  destruct s; [|reflexivity]. now rewrite (digit_not_space c D).
Qed.

Lemma int_digits_all s : forall prev acc,
  Text.all_digits s = true -> (s <> EmptyString \/ prev = true) ->
  Text.int_digits prev acc s = Some (Text.digits_val acc s).
Proof.
  induction s as [|c s IH]; intros prev acc A N; simpl.
  - destruct N as [N|N]; [congruence|now rewrite N].
  - simpl in A. apply andb_true_iff in A as [D A]. rewrite D.
    apply IH; [exact A|now right].
Qed.

(** [int(s)] on a non-empty run of digits is its value. *)
Lemma parse_int_digits s :
  Text.all_digits s = true -> s <> EmptyString ->
  Text.parse_int s = Some (Text.digits_val 0 s).
Proof.
  intros A N. unfold Text.parse_int, Text.strip.
  rewrite (lstrip_digits s A), (rstrip_digits s A).
  destruct s as [|c s]; [congruence|].
  assert (Text.is_digit c = true) as D by (simpl in A; now apply andb_true_iff in A).
  rewrite <- (int_digits_all (String c s) false 0 A (or_introl N)).
  bits c; try discriminate D; reflexivity.
Qed.

End DigitText.

Section RunFacts.
Import Re.
Context {A : Type}.
Implicit Types (k : string -> gmap string string -> option A).

Lemma run_seq a b s caps k :
  run (Seq a b) s caps k = run a s caps (fun s' caps' => run b s' caps' k).
Proof. reflexivity. Qed.

Lemma run_chr p c s caps k x :
  p c = true -> k s caps = Some x -> run (Chr p) (String c s) caps k = Some x.
Proof. intros P K. simpl. now rewrite P. Qed.

Lemma run_opt_take a s caps k x :
  run a s caps k = Some x -> run (Opt a) s caps k = Some x.
Proof. intros R. simpl. now rewrite R. Qed.

Lemma run_opt_skip a s caps k x :
  run a s caps k = None -> k s caps = Some x -> run (Opt a) s caps k = Some x.
Proof. intros R K. simpl. now rewrite R. Qed.

Lemma run_alt_left a b s caps k x :
  run a s caps k = Some x -> run (Alt a b) s caps k = Some x.
Proof. intros R. simpl. now rewrite R. Qed.

Lemma run_alt_right a b s caps k x :
  run a s caps k = None -> run b s caps k = Some x -> run (Alt a b) s caps k = Some x.
Proof. intros R K. simpl. now rewrite R. Qed.

Lemma run_eps s caps k : run Eps s caps k = k s caps.
Proof. reflexivity. Qed.

Lemma run_eot caps k : run Eot EmptyString caps k = k EmptyString caps.
Proof. reflexivity. Qed.

Lemma run_chr_digit c a s caps k :
  Text.is_digit c = false -> Text.is_digit a = true ->
  run (Chr (Ascii.eqb c)) (String a s) caps k = None.
Proof.
  intros C D. simpl. destruct (Ascii.eqb_spec c a); [congruence|reflexivity].
Qed.

Lemma run_grp name a s caps k x :
  run a s caps (fun s' caps' => k s' (<[name := consumed s s']> caps')) = Some x ->
  run (Grp name a) s caps k = Some x.
Proof. now intros R. Qed.
End RunFacts.

Ltac run_step :=
  cbv beta;
  lazymatch goal with
  | |- Re.run (Re.Seq _ _) _ _ _ = Some _ => rewrite run_seq
  | |- Re.run Re.Eps _ _ _ = Some _ => rewrite run_eps
  | |- Re.run Re.Eot _ _ _ = Some _ => rewrite run_eot
  | |- Re.run (Re.Grp _ _) _ _ _ = Some _ => apply run_grp
  | |- Re.run (Re.Chr _) _ _ _ = Some _ =>
      apply run_chr; [first [assumption | reflexivity] |]
  | |- Re.run (Re.Opt _) _ _ _ = Some _ =>
      first
        [ apply run_opt_skip;
          [first [reflexivity | apply run_chr_digit; [reflexivity | assumption]] |]
        | apply run_opt_take ]
  | |- Re.run (Re.Alt _ _) _ _ _ = Some _ =>
      first [apply run_alt_right; [reflexivity |] | apply run_alt_left]
  end.

Lemma datetime_new_ok y mo d h mi s us tz :
  in_calendar y mo d h mi s us = true ->
  Utils.datetime_new y mo d h mi s us tz = Ok (mkDatetime y mo d h mi s us tz).
Proof.
  unfold in_calendar, Utils.datetime_new. intros H.
  do 6 (apply andb_true_iff in H as [H ?]).
  repeat match goal with E : Utils.in_range _ _ _ = true |- _ => rewrite E; clear E end.
  reflexivity.
Qed.

Lemma datetime_new_tzinfo y mo d h mi s us tz dt :
  Utils.datetime_new y mo d h mi s us tz = Ok dt -> dt_tzinfo dt = tz.
Proof.
  unfold Utils.datetime_new.
  repeat match goal with |- context [if ?b then _ else _] => destruct b end;
    intros [= <-]; reflexivity.
Qed.

Lemma int_of_text_digits s :
  Text.all_digits s = true -> s <> EmptyString ->
  Utils.int_of_text s = Ok (val s).
Proof. intros A N. unfold Utils.int_of_text. now rewrite parse_int_digits. Qed.

(** [from_iso_datetime] on text that matches, by the groups of the match *)
Lemma from_iso_matched s kw :
  Re.matches Utils._iso8601_datetime_re s = Some kw ->
  Utils.from_iso_datetime (PStr s) =
  Utils.bind_result (tzinfo_of (kw !! "tzinfo")) (fun tzinfo =>
  Utils.bind_result (group_int (kw !! "year") 0) (fun year =>
  Utils.bind_result (group_int (kw !! "month") 0) (fun month =>
  Utils.bind_result (group_int (kw !! "day") 0) (fun day =>
  Utils.bind_result (group_int (kw !! "hour") 0) (fun hour =>
  Utils.bind_result (group_int (kw !! "minute") 0) (fun minute =>
  Utils.bind_result (group_int (kw !! "second") 0) (fun second =>
  Utils.bind_result (group_int (Text.ljust 6 "0" <$> kw !! "microsecond") 0)
    (fun microsecond =>
  Utils.datetime_new year month day hour minute second microsecond tzinfo)))))))).
Proof.
  intros M. unfold Utils.from_iso_datetime. rewrite M.
  unfold Utils.int_group, tzinfo_of, group_int.
  destruct (kw !! "microsecond") as [us|] eqn:U;
    rewrite ?lookup_delete_ne, ?lookup_insert_ne, ?lookup_insert_eq, ?U by discriminate;
    rewrite ?lookup_delete_ne, ?U by discriminate;
    reflexivity.
Qed.

Ltac explode :=
  repeat match goal with
  | H : digits _ ?s |- _ =>
      let L := fresh "L" in let A := fresh "A" in
      destruct H as [L A];
      repeat (destruct s as [|? s]; [discriminate L|]);
      destruct s; [|discriminate L]; clear L;
      pose proof (int_of_text_digits _ A ltac:(discriminate));
      repeat (apply andb_true_iff in A as [? A]); clear A
  end.

Ltac match_iso :=
  unfold Re.matches;
  cbv [Utils._iso8601_datetime_re Re.seqs Re.between Re.times Re.upto Re.digit
       Re.lit Re.one_of Nat.sub String.append];
  repeat run_step;
  cbn [Re.consumed Text.take String.length Nat.sub];
  reflexivity.

Ltac lookups :=
  repeat first
    [ rewrite lookup_insert_eq
    | rewrite lookup_insert_ne by discriminate
    | rewrite lookup_empty ].

Ltac iso_eval :=
  match goal with
  | |- Utils.from_iso_datetime (PStr ?s) = _ =>
      let M := fresh "M" in
      eassert (Re.matches Utils._iso8601_datetime_re s = Some _) as M
        by match_iso;
      etransitivity; [exact (from_iso_matched _ _ M)|]; clear M
  end;
  lookups;
  cbn [fmap option_fmap option_map group_int tzinfo_of];
  repeat match goal with
         | E : Utils.int_of_text _ = Ok _ |- _ => rewrite E; clear E
         end;
  cbn [Utils.bind_result].

Lemma get_fixed_timezone_minutes offset :
  -1440 < offset < 1440 ->
  Utils.get_fixed_timezone (Utils.OffsetMinutes offset)
  = Ok (TzFixed offset (offset_name offset)).
Proof.
  intros [L U]. unfold Utils.get_fixed_timezone, Utils.timezone_new.
  apply Z.ltb_lt in L, U. now rewrite L, U.
Qed.

(** the offset read off [+HH:MM], [-HH:MM], [+HHMM] or [-HHMM] is
    [sign * (hours * 60 + minutes)] *)
Lemma tz_offset_minutes neg (colon : bool) z1 z2 z3 z4 :
  Text.is_digit z1 = true -> Text.is_digit z2 = true ->
  Text.is_digit z3 = true -> Text.is_digit z4 = true ->
  Utils.tz_offset
    (String (sign_char neg)
       (String z1 (String z2
          ((if colon then ":" else EmptyString)
           +:+ String z3 (String z4 EmptyString)))))
  = Ok (sign_of neg * (val (String z1 (String z2 EmptyString)) * 60
                       + val (String z3 (String z4 EmptyString)))).
Proof.
  intros D1 D2 D3 D4. unfold Utils.tz_offset.
  destruct colon; cbv [String.append];
    cbn [Text.last2 Text.drop Text.take String.length Nat.sub];
    rewrite !int_of_text_digits by (simpl; rewrite ?D1, ?D2, ?D3, ?D4; done);
    [change (3 <? Z.of_nat 6) with true | change (3 <? Z.of_nat 5) with true];
    cbn [Utils.bind_result];
    (destruct neg; simpl sign_char; simpl sign_of;
     [rewrite bool_decide_eq_true_2 by reflexivity
     |rewrite bool_decide_eq_false_2 by discriminate]; f_equal; lia).
Qed.

(** the offset read off [+HH] or [-HH] is [sign * hours * 60] *)
Lemma tz_offset_hours neg z1 z2 :
  Text.is_digit z1 = true -> Text.is_digit z2 = true ->
  Utils.tz_offset (String (sign_char neg) (String z1 (String z2 EmptyString)))
  = Ok (sign_of neg * (val (String z1 (String z2 EmptyString)) * 60)).
Proof.
  intros D1 D2. unfold Utils.tz_offset.
  cbn [Text.last2 Text.drop Text.take String.length Nat.sub].
  rewrite !int_of_text_digits by (simpl; rewrite ?D1, ?D2; done).
  change (3 <? Z.of_nat 3) with false. cbn [Utils.bind_result].
  destruct neg; simpl sign_char; simpl sign_of;
    [rewrite bool_decide_eq_true_2 by reflexivity
    |rewrite bool_decide_eq_false_2 by discriminate]; f_equal; lia.
Qed.

Ltac name_sign :=
  match goal with
  | |- context [Utils.tz_offset (String ?c _)] =>
      first [change c with (sign_char true) | change c with (sign_char false)]
  end.

Ltac read_offset :=
  let T := fresh "T" in
  lazymatch goal with
  | |- context [Utils.tz_offset
                  (String (sign_char ?neg)
                     (String ?z1 (String ?z2
                        (String ":" (String ?z3 (String ?z4 EmptyString))))))] =>
      pose proof (tz_offset_minutes neg true z1 z2 z3 z4
                    ltac:(assumption) ltac:(assumption)
                    ltac:(assumption) ltac:(assumption)) as T
  | |- context [Utils.tz_offset
                  (String (sign_char ?neg)
                     (String ?z1 (String ?z2
                        (String ?z3 (String ?z4 EmptyString)))))] =>
      pose proof (tz_offset_minutes neg false z1 z2 z3 z4
                    ltac:(assumption) ltac:(assumption)
                    ltac:(assumption) ltac:(assumption)) as T
  end;
  cbv [String.append] in T; rewrite T; clear T.

(** C7.  The ISO-8601 parser: the spec's UTC example; for every text
    [YYYY-MM-DD(T| )HH:MM:SS] whose fields lie in the calendar, no suffix
    gives the naive datetime, [Z] gives UTC, and a suffix [+HH:MM],
    [-HH:MM], [+HHMM], [-HHMM], [+HH] or [-HH] within a day gives the fixed
    offset of [sign * (hours * 60 + minutes)] minutes with the name
    [get_fixed_timezone] builds from it; and text the pattern does not
    match fails with the dedicated ValueError. *)
Theorem C7_from_iso_datetime yy mo dd hh mi ss sep
    (Hyy : digits 4 yy) (Hmo : digits 2 mo) (Hdd : digits 2 dd)
    (Hhh : digits 2 hh) (Hmi : digits 2 mi) (Hss : digits 2 ss)
    (Hsep : sep = "T" \/ sep = " ")
    (Hcal : in_calendar (val yy) (val mo) (val dd) (val hh) (val mi) (val ss) 0
            = true) :
  let stamp := yy +:+ "-" +:+ mo +:+ "-" +:+ dd +:+ sep
               +:+ hh +:+ ":" +:+ mi +:+ ":" +:+ ss in
  let at_ := mkDatetime (val yy) (val mo) (val dd) (val hh) (val mi) (val ss) 0 in
  Utils.from_iso_datetime (PStr "2023-01-15T10:30:00Z")
  = Ok (mkDatetime 2023 1 15 10 30 0 0 (Some TzUTC))
  /\ Utils.from_iso_datetime (PStr stamp) = Ok (at_ None)
  /\ Utils.from_iso_datetime (PStr (stamp +:+ "Z")) = Ok (at_ (Some TzUTC))
  /\ (forall neg (colon : bool) zh zm, digits 2 zh -> digits 2 zm ->
      let offset := sign_of neg * (val zh * 60 + val zm) in
      -1440 < offset < 1440 ->
      Utils.from_iso_datetime
        (PStr (stamp +:+ String (sign_char neg) zh
               +:+ (if colon then ":" else EmptyString) +:+ zm))
      = Ok (at_ (Some (TzFixed offset (offset_name offset)))))
  /\ (forall neg zh, digits 2 zh ->
      let offset := sign_of neg * (val zh * 60) in
      -1440 < offset < 1440 ->
      Utils.from_iso_datetime (PStr (stamp +:+ String (sign_char neg) zh))
      = Ok (at_ (Some (TzFixed offset (offset_name offset)))))
  /\ (forall s, Re.matches Utils._iso8601_datetime_re s = None ->
      Utils.from_iso_datetime (PStr s) = Raise Utils.not_iso8601).
Proof.
  intros stamp at_. subst stamp at_.
  split; [vm_compute; reflexivity|].
  split; [|split; [|split; [|split]]].
  - explode. destruct Hsep as [-> | ->]; iso_eval; now apply datetime_new_ok.
  - explode. destruct Hsep as [-> | ->]; iso_eval; now apply datetime_new_ok.
  - intros neg colon zh zm Hzh Hzm offset Hoff. explode.
    destruct Hsep as [-> | ->]; destruct neg; destruct colon; iso_eval.
    all: rewrite bool_decide_eq_false_2 by discriminate.
    all: name_sign.
    all: read_offset; cbn [Utils.bind_result].
    all: rewrite get_fixed_timezone_minutes by exact Hoff; cbn [Utils.bind_result].
    all: now apply datetime_new_ok.
  - intros neg zh Hzh offset Hoff. explode.
    destruct Hsep as [-> | ->]; destruct neg; iso_eval.
    all: rewrite bool_decide_eq_false_2 by discriminate.
    all: name_sign.
    all: rewrite tz_offset_hours by assumption; cbn [Utils.bind_result].
    all: rewrite get_fixed_timezone_minutes by exact Hoff; cbn [Utils.bind_result].
    all: now apply datetime_new_ok.
  - intros s M. unfold Utils.from_iso_datetime. now rewrite M.
Qed.

(** C7, a witness: ["2023-01-15T10:30:00"] with no suffix and with
    ["+05:30"] *)
Lemma C7_from_iso_datetime_witness :
  (digits 4 "2023" /\ digits 2 "01" /\ digits 2 "15" /\ digits 2 "10"
   /\ digits 2 "30" /\ digits 2 "00")
  /\ in_calendar (val "2023") (val "01") (val "15") (val "10") (val "30")
       (val "00") 0 = true
  /\ Utils.from_iso_datetime (PStr "2023-01-15T10:30:00")
     = Ok (mkDatetime 2023 1 15 10 30 0 0 None)
  /\ Utils.from_iso_datetime (PStr "2023-01-15T10:30:00+05:30")
     = Ok (mkDatetime 2023 1 15 10 30 0 0 (Some (TzFixed 330 "+0530"))).
Proof.
  assert (forall n s, String.length s = n -> Text.all_digits s = true -> digits n s)
    as D by (intros n s L A; split; assumption).
  pose proof (C7_from_iso_datetime "2023" "01" "15" "10" "30" "00" "T"
                (D 4%nat "2023" eq_refl eq_refl) (D 2%nat "01" eq_refl eq_refl)
                (D 2%nat "15" eq_refl eq_refl) (D 2%nat "10" eq_refl eq_refl)
                (D 2%nat "30" eq_refl eq_refl) (D 2%nat "00" eq_refl eq_refl)
                (or_introl eq_refl) eq_refl) as (_ & Hnaive & _ & Hoff & _).
  split; [repeat split|]. split; [reflexivity|]. split; [exact Hnaive|].
  refine (Hoff false true "05" "30" (D 2%nat "05" eq_refl eq_refl)
            (D 2%nat "30" eq_refl eq_refl) _).
  vm_compute. split; reflexivity.
Defined.

(** * Further properties of the code *)

(** ** Assignment and read access *)

(** X1.  Whatever the field kind, the value and the outcome, an assignment
    leaves [errors] an empty [defaultdict], the flag as it found it, and
    the new owner and original value: no assignment records an error. *)
Theorem set_never_records rt h self o v st :
  let st' := (__set__ rt h self o v st).1.2 in
  errors st' = ErrDefaultDict [] /\ is_error st' = is_error st
  /\ original_value st' = v /\ owner st' = Some o.
Proof. simpl. rewrite set_state. repeat split. Qed.

(** X2.  Reading after a completed assignment gives the value the pipeline
    returned, with the field's default in place of [None]; reading an
    attribute that was never assigned raises AttributeError. *)
Theorem get_after_set rt h self o v st st' h'
    (Hset : __set__ rt h self o v st = (Ok (), st', h')) :
  (exists value,
     (_deserialize rt h self v (entered o v st)).1 = Ok value
     /\ __get__ h' self o = Ok (if is_None value then default self else value))
  /\ (forall g o', slots (deref g o') !! private_name self = None ->
      __get__ g self o' = Raise (no_attribute (private_name self))).
Proof.
  split.
  - rewrite set_unfold in Hset.
    destruct (_deserialize rt h self v (entered o v st)).1 as [value|e];
      [|discriminate].
    exists value. split; [reflexivity|].
    unfold stored in Hset. simpl in Hset. unfold __get__.
    assert (slots (deref h' o) !! private_name self = Some value) as ->.
    { destruct (fields (deref h o)) as [| |registry]; [discriminate| |];
        [|destruct (bool_decide _)]; injection Hset as _ <-;
        unfold deref; rewrite lookup_insert_eq; simpl; apply lookup_insert_eq. }
    now destruct value.
  - intros g o' E. unfold __get__. now rewrite E.
Qed.

Lemma get_after_set_witness :
  let age := {| kind := IntField None None; attr_name := "age";
                verbose_name_arg := None; required := false; default := PInt 18;
                convert_to_none_strings_arg := []; validators_arg := [];
                pre_processors_arg := []; error_messages_arg := ∅ |} in
  let a := __set__ example_runtime heap7 age 0 PNone init_state in
  let b := __set__ example_runtime heap7 age 0 (PStr "42") init_state in
  a.1.1 = Ok () /\ __get__ a.2 age 0 = Ok (PInt 18)
  /\ b.1.1 = Ok () /\ __get__ b.2 age 0 = Ok (PInt 42).
Proof.
  intros age a b.
  assert (a = (Ok (), a.1.2, a.2)) as Ea by (vm_compute; reflexivity).
  assert (b = (Ok (), b.1.2, b.2)) as Eb by (vm_compute; reflexivity).
  destruct (get_after_set example_runtime heap7 age 0 PNone init_state _ _ Ea)
    as [(va & Da & Ga) _].
  destruct (get_after_set example_runtime heap7 age 0 (PStr "42") init_state _ _ Eb)
    as [(vb & Db & Gb) _].
  assert (va = PNone) as -> by (vm_compute in Da; congruence).
  assert (vb = PInt 42) as -> by (vm_compute in Db; congruence).
  split; [reflexivity|]. split; [exact Ga|]. split; [reflexivity|exact Gb].
Defined.

Lemma stored_heap self h o value :
  exists i,
    (stored self h o value).2 = <[o := i]> h
    /\ row_number i = row_number (deref h o)
    /\ slots i = <[private_name self := value]> (slots (deref h o)).
Proof.
  unfold stored. simpl.
  destruct (fields (deref h o)) as [| |registry]; [| |destruct (bool_decide _)];
    eexists; (split; [reflexivity|]); split; reflexivity.
Qed.

Lemma deref_insert h o i : deref (<[o := i]> h) o = i.
Proof. unfold deref. now rewrite lookup_insert_eq. Qed.

(** X3.  An assignment writes the field's private attribute on the
    instance it is made on, and, of what an instance holds, nothing else
    but the registry: the row number and the private attributes of every
    other instance are as before, and so are the row number of the
    instance itself and its attributes under other private names, whether
    the assignment completes or raises.  Nothing is said of the registry,
    which [update] changes in place in whatever dict [getattr] found. *)
Theorem set_frame rt h self o v st :
  let h' := (__set__ rt h self o v st).2 in
  (forall o', o' <> o ->
     row_number (deref h' o') = row_number (deref h o')
     /\ slots (deref h' o') = slots (deref h o'))
  /\ row_number (deref h' o) = row_number (deref h o)
  /\ (forall name, name <> private_name self ->
      slots (deref h' o) !! name = slots (deref h o) !! name).
Proof.
  simpl. rewrite set_unfold.
  destruct (_deserialize rt h self v (entered o v st)).1 as [value|e];
    [|now repeat split].
  destruct (stored_heap self h o value) as (i & E & R & S).
  destruct (stored self h o value) as [r h']. simpl in E |- *. subst h'.
  rewrite deref_insert.
  split; [intros o' N; unfold deref; now rewrite lookup_insert_ne|].
  split; [exact R|].
  intros name N. rewrite S. now rewrite lookup_insert_ne.
Qed.

(** X4.  On an object without a [fields] attribute the pipeline's value is
    stored first and the registry lookup raises afterwards: the assignment
    fails with AttributeError although the attribute has been set. *)
Theorem set_without_fields_attribute rt h self o v st value
    (Hfields : fields (deref h o) = FieldsUnset)
    (Hvalue : (_deserialize rt h self v (entered o v st)).1 = Ok value) :
  exists h',
    __set__ rt h self o v st = (Raise (no_attribute "fields"), entered o v st, h')
    /\ slots (deref h' o) !! private_name self = Some value
    /\ fields (deref h' o) = FieldsUnset.
Proof.
  rewrite set_unfold, Hvalue. unfold stored. simpl. rewrite Hfields.
  eexists. split; [reflexivity|].
  rewrite deref_insert. simpl.
  split; [apply lookup_insert_eq|exact Hfields].
Qed.

Lemma set_without_fields_attribute_witness :
  let age := declare (IntField None None) "age" true in
  fields (deref ∅ 3) = FieldsUnset
  /\ exists h',
       __set__ example_runtime ∅ age 3 (PStr "42") init_state
       = (Raise (no_attribute "fields"), entered 3 (PStr "42") init_state, h')
       /\ slots (deref h' 3) !! "_age" = Some (PInt 42).
Proof.
  intros age.
  assert (fields (deref ∅ 3) = FieldsUnset) as F by (vm_compute; reflexivity).
  split; [exact F|].
  destruct (set_without_fields_attribute example_runtime ∅ age 3 (PStr "42")
              init_state (PInt 42) F) as (h' & E & S & _).
  - vm_compute. reflexivity.
  - exists h'. split; [exact E|exact S].
Defined.

(** X5.  On an instance that has a [fields] attribute an assignment is
    all or nothing: when it raises, the exception comes out of the
    pipeline and the heap is as it was; when it completes, the attribute
    holds the pipeline's value and the field is in the registry under its
    name. *)
Theorem set_all_or_nothing rt h self o v st
    (Hfields : fields (deref h o) <> FieldsUnset) :
  match (__set__ rt h self o v st).1.1 with
  | Raise e =>
      (_deserialize rt h self v (entered o v st)).1 = Raise e
      /\ (__set__ rt h self o v st).2 = h
  | Ok _ =>
      exists value registry,
        (_deserialize rt h self v (entered o v st)).1 = Ok value
        /\ slots (deref (__set__ rt h self o v st).2 o) !! private_name self
           = Some value
        /\ fields (deref (__set__ rt h self o v st).2 o) = FieldsDict registry
        /\ registry !! attr_name self = Some self
  end.
Proof.
  rewrite set_unfold.
  destruct (_deserialize rt h self v (entered o v st)).1 as [value|e];
    [|split; reflexivity].
  destruct (stored_ok h self o value Hfields) as (h' & -> & S & registry & F & R).
  simpl. exists value, registry. repeat split; assumption.
Qed.

Lemma set_all_or_nothing_witness :
  let age := declare (IntField None None) "age" true in
  fields (deref heap7 0) <> FieldsUnset
  /\ (__set__ example_runtime heap7 age 0 (PStr "abc") init_state).2 = heap7
  /\ slots (deref (__set__ example_runtime heap7 age 0 (PStr "42") init_state).2 0)
       !! "_age" = Some (PInt 42).
Proof.
  intros age.
  assert (fields (deref heap7 0) <> FieldsUnset) as F
    by (vm_compute; discriminate).
  split; [exact F|]. split.
  - pose proof (set_all_or_nothing example_runtime heap7 age 0 (PStr "abc")
                  init_state F) as A.
    destruct (__set__ example_runtime heap7 age 0 (PStr "abc") init_state).1.1
      eqn:E; [vm_compute in E; discriminate E|].
    exact (proj2 A).
  - pose proof (set_all_or_nothing example_runtime heap7 age 0 (PStr "42")
                  init_state F) as A.
    destruct (__set__ example_runtime heap7 age 0 (PStr "42") init_state).1.1
      eqn:E; [|vm_compute in E; discriminate E].
    destruct A as (value & registry & D & S & _).
    assert (value = PInt 42) as <- by (vm_compute in D; congruence).
    exact S.
Defined.

(** ** Pre-processing *)

Section StripFacts.

Local Ltac bits c := destruct c as [[] [] [] [] [] [] [] []].

Lemma rstrip_idem s : Text.rstrip (Text.rstrip s) = Text.rstrip s.
Proof.
  induction s as [|c s IH]; [reflexivity|]. simpl.
  destruct (Text.rstrip s) as [|d r] eqn:E.
  - destruct (Text.is_space c) eqn:S; [reflexivity|]. simpl. now rewrite S.
  - simpl in IH |- *. now rewrite IH.
Qed.

Lemma lstrip_rstrip_lstrip s :
  Text.lstrip (Text.rstrip (Text.lstrip s)) = Text.rstrip (Text.lstrip s).
Proof.
  assert (forall t, match t with
                    | String c _ => Text.is_space c = false
                    | EmptyString => True
                    end -> Text.lstrip (Text.rstrip t) = Text.rstrip t) as H.
  { intros [|c t] C; [reflexivity|]. simpl.
    destruct (Text.rstrip t); rewrite ?C; simpl; rewrite ?C; reflexivity. }
  apply H. induction s as [|c s IH]; [exact I|]. simpl.
  destruct (Text.is_space c) eqn:S; [exact IH|exact S].
Qed.

(** [strip] is idempotent. *)
Lemma strip_idem s : Text.strip (Text.strip s) = Text.strip s.
Proof.
  unfold Text.strip. now rewrite lstrip_rstrip_lstrip, rstrip_idem.
Qed.

Lemma lower_char_not_upper c : is_upper (Text.lower_char c) = false.
Proof. bits c; reflexivity. Qed.

Lemma lower_no_upper s : has_upper (Text.lower s) = false.
Proof.
  induction s as [|c s IH]; [reflexivity|]. simpl.
  now rewrite lower_char_not_upper, IH.
Qed.

End StripFacts.

(** X6.  Pre-processing is idempotent, and text comes out either as [None]
    or trimmed, non-empty and not a convert-to-none token when lower-cased;
    values that are not text pass unchanged. *)
Theorem pre_process_value_idempotent rt self v :
  pre_process_value rt self (pre_process_value rt self v)
  = pre_process_value rt self v
  /\ (forall s t, v = PStr s -> pre_process_value rt self v = PStr t ->
      t = Text.strip s /\ t <> EmptyString /\ Text.strip t = t
      /\ Text.lower t ∉ convert_to_none_strings self)
  /\ (forall s, v = PStr s ->
      pre_process_value rt self v = PNone
      \/ pre_process_value rt self v = PStr (Text.strip s))
  /\ ((forall s, v <> PStr s) -> pre_process_value rt self v = v).
Proof.
  assert (forall s t, pre_process_value rt self (PStr s) = PStr t ->
            t = Text.strip s /\ t <> EmptyString /\ Text.strip t = t
            /\ Text.lower t ∉ convert_to_none_strings self) as Shape.
  { intros s t. unfold pre_process_value.
    destruct (Text.strip s) as [|c r] eqn:E; simpl.
    - now destruct (bool_decide _).
    - destruct (bool_decide _) eqn:B; [discriminate|]. intros [= <-].
      apply bool_decide_eq_false_1 in B.
      split; [reflexivity|]. split; [discriminate|].
      split; [rewrite <- E; apply strip_idem|exact B]. }
  split; [|split; [|split]].
  - destruct v as [| | | |s| | | | | |]; try reflexivity.
    destruct (pre_process_value rt self (PStr s)) as [| | | |t| | | | | |] eqn:P;
      try reflexivity.
    destruct (Shape s t P) as (_ & N & S & T).
    unfold pre_process_value. rewrite S.
    destruct t as [|c r]; [congruence|]. simpl.
    now rewrite bool_decide_eq_false_2.
  - intros s t ->. apply Shape.
  - intros s ->. unfold pre_process_value.
    destruct (Dec.nonempty (Text.strip s)); destruct (bool_decide _); auto.
  - intros N. destruct v; try reflexivity. now contradiction (N s).
Qed.

(** X7.  The comparison with the convert-to-none tokens lower-cases the
    text but not the tokens: when every token the caller configured has an
    upper-case letter, text becomes [None] exactly when it is blank or
    reads [null] in any case, so none of those tokens is ever matched. *)
Theorem uppercase_tokens_never_match rt self s
    (Hup : forall t, t ∈ convert_to_none_strings_arg self -> has_upper t = true) :
  pre_process_value rt self (PStr s) = PNone
  <-> (Text.strip s = EmptyString \/ Text.lower (Text.strip s) = "null").
Proof.
  assert (Text.lower (Text.strip s) ∈ convert_to_none_strings self
          <-> Text.lower (Text.strip s) = "null") as T.
  { unfold convert_to_none_strings, default_convert_to_none_strings.
    rewrite elem_of_app, list_elem_of_singleton. split; [|auto].
    intros [E|E]; [exact E|]. apply Hup in E.
    now rewrite lower_no_upper in E. }
  unfold pre_process_value.
  destruct (Text.strip s) as [|c r] eqn:E; simpl.
  - destruct (bool_decide _); split; auto.
  - destruct (bool_decide _) eqn:B.
    + apply bool_decide_eq_true_1 in B. split; [|reflexivity].
      intros _. right. now apply T.
    + apply bool_decide_eq_false_1 in B. split; [discriminate|].
      intros [D|D]; [discriminate|]. now apply T in D.
Qed.

Lemma uppercase_tokens_never_match_witness :
  let f := {| kind := StrField None None; attr_name := "note";
              verbose_name_arg := None; required := false; default := PNone;
              convert_to_none_strings_arg := ["N/A"]; validators_arg := [];
              pre_processors_arg := []; error_messages_arg := ∅ |} in
  (forall t, t ∈ convert_to_none_strings_arg f -> has_upper t = true)
  /\ pre_process_value example_runtime f (PStr "N/A") = PStr "N/A"
  /\ pre_process_value example_runtime f (PStr " NULL ") = PNone.
Proof.
  intros f.
  assert (forall t, t ∈ convert_to_none_strings_arg f -> has_upper t = true) as U.
  { intros t [->|[]%elem_of_nil]%elem_of_cons. reflexivity. }
  split; [exact U|]. split; [reflexivity|].
  apply (uppercase_tokens_never_match example_runtime f " NULL " U).
  right. reflexivity.
Defined.

(** ** Error messages *)

Lemma error_messages_lookup self key :
  error_messages self !! key =
  match error_messages_arg self !! key with
  | Some m => Some m
  | None =>
      match class_error_messages (kind self) !! key with
      | Some m => Some m
      | None => Field_default_error_messages !! key
      end
  end.
Proof.
  unfold error_messages. rewrite !lookup_union.
  destruct (error_messages_arg self !! key);
    destruct (class_error_messages (kind self) !! key);
    destruct (Field_default_error_messages !! key); reflexivity.
Qed.

Lemma incorrect_format_no_default k :
  class_error_messages k !! "incorrect_format" = None
  /\ Field_default_error_messages !! "incorrect_format" = None.
Proof. split; [destruct k|]; vm_compute; reflexivity. Qed.

(** X8.  No class defines a message under the key every format failure is
    reported with: unless the constructor's [error_messages] supplies
    ["incorrect_format"], the text is the missing-key diagnostic, whatever
    the value and the row, and that is what a failure records. *)
Theorem incorrect_format_is_missing_key rt h self
    (Hkey : error_messages_arg self !! "incorrect_format" = None) :
  (forall kwargs rn,
     error_text rt self "incorrect_format" kwargs rn
     = Ok (missing_key_message (class_name (kind self)) "incorrect_format"))
  /\ (forall st l rn,
      errors st = ErrList l -> owner_row_number h st = Ok rn ->
      incorrect_format rt h self st
      = (Ok (), with_error (missing_key_message (class_name (kind self))
                              "incorrect_format") st)).
Proof.
  assert (forall kwargs rn,
     error_text rt self "incorrect_format" kwargs rn
     = Ok (missing_key_message (class_name (kind self)) "incorrect_format")) as T.
  { intros kwargs rn. unfold error_text.
    rewrite error_messages_lookup, Hkey.
    destruct (incorrect_format_no_default (kind self)) as [-> ->].
    unfold Constants.MISSING_ERROR_MESSAGE. cbn [format].
    rewrite !list_to_map_cons. cbn [fst snd].
    rewrite lookup_insert_eq, lookup_insert_ne, lookup_insert_eq by discriminate.
    cbn [py_str]. unfold missing_key_message. reflexivity. }
  split; [exact T|].
  intros st l rn E R. unfold incorrect_format, mbind at 1, M_bind at 1.
  now apply make_error_records with (l := l) (rn := rn).
Qed.

Lemma incorrect_format_is_missing_key_witness :
  let age := declare (IntField None None) "age" true in
  error_messages_arg age !! "incorrect_format" = None
  /\ (_deserialize example_runtime heap7 age (PStr "abc") (listening 0)).2
     = with_error (missing_key_message "IntField" "incorrect_format")
         (listening 0).
Proof.
  intros age.
  assert (error_messages_arg age !! "incorrect_format" = None) as K
    by apply lookup_empty.
  split; [exact K|].
  destruct (incorrect_format_is_missing_key example_runtime heap7 age K) as [_ R].
  specialize (R (listening 0) [] (PInt 7) eq_refl eq_refl).
  transitivity (incorrect_format example_runtime heap7 age (listening 0)).2;
    [vm_compute; reflexivity|].
  rewrite R. reflexivity.
Defined.

Lemma format_first_missing rt t kwargs :
  match first_missing t kwargs.*1 with
  | Some name => format rt t kwargs = Raise (Exn KeyError name)
  | None => exists text, format rt t kwargs = Ok text
  end.
Proof.
  induction t as [|[s|name] t IH]; cbn [first_missing format].
  - eexists; reflexivity.
  - destruct (first_missing t kwargs.*1) as [missing|].
    + now rewrite IH.
    + destruct IH as [text ->]. eexists; reflexivity.
  - destruct (bool_decide (name ∈ kwargs.*1)) eqn:B.
    + apply bool_decide_eq_true_1 in B.
      destruct ((list_to_map kwargs : gmap string pyval) !! name) as [x|] eqn:L;
        [|now apply not_elem_of_list_to_map_2 in L].
      destruct (first_missing t kwargs.*1) as [missing|].
      * now rewrite IH.
      * destruct IH as [text ->]. eexists; reflexivity.
    + apply bool_decide_eq_false_1 in B.
      now rewrite (not_elem_of_list_to_map_1 _ _ B).
Qed.

(** X9.  A message the constructor's [error_messages] gives for a key wins
    over the defaults of the classes.  If it is not a string, the message
    [_make_error] builds is that object itself, unformatted, whatever the
    keyword arguments and the row.  If it is a template, it is formatted
    with [field], [row_number] and the keyword arguments of the call: when
    a field of the template is not among them, building the message raises
    KeyError with the leftmost such field, and in any state whose owner has
    a row number [_make_error] raises it and writes nothing; when no field
    is missing, the text is built. *)
Theorem error_message_override rt h self key m
    (Hkey : error_messages_arg self !! key = Some m) :
  error_messages self !! key = Some m
  /\ (forall kwargs rn v,
      m = MsgObject v -> error_text rt self key kwargs rn = Ok v)
  /\ (forall kwargs rn t,
      m = MsgTemplate t ->
      match first_missing t ("field" :: "row_number" :: kwargs.*1) with
      | Some name =>
          error_text rt self key kwargs rn = Raise (Exn KeyError name)
          /\ (forall st, owner_row_number h st = Ok rn ->
              _make_error rt h self key kwargs st
              = (Raise (Exn KeyError name), st))
      | None => exists text, error_text rt self key kwargs rn = Ok (PStr text)
      end).
Proof.
  assert (error_messages self !! key = Some m) as L
    by now rewrite error_messages_lookup, Hkey.
  split; [exact L|]. split.
  - intros kwargs rn v ->. unfold error_text. now rewrite L.
  - intros kwargs rn t ->.
    pose proof (format_first_missing rt t
                  (("field", PStr (verbose_name self)) :: ("row_number", rn)
                   :: kwargs)) as F.
    cbn [fmap list_fmap fst] in F.
    destruct (first_missing t ("field" :: "row_number" :: kwargs.*1)) as [name|].
    + assert (error_text rt self key kwargs rn = Raise (Exn KeyError name)) as T
        by (unfold error_text; now rewrite L, F).
      split; [exact T|]. intros st R.
      unfold _make_error, mbind, M_bind, lift. now rewrite R, T.
    + destruct F as [text F]. exists text. unfold error_text. now rewrite L, F.
Qed.

Lemma error_message_override_witness :
  let code := PInt 422 in
  let age :=
    {| kind := IntField None None; attr_name := "age";
       verbose_name_arg := None; required := true; default := PNone;
       convert_to_none_strings_arg := []; validators_arg := [];
       pre_processors_arg := [];
       error_messages_arg :=
         {[ "incorrect_format" := MsgObject code;
            "required" :=
              MsgTemplate [Constants.Hole "field"; Constants.Lit " of ";
                           Constants.Hole "sheet"; Constants.Hole "value"] ]} |} in
  error_messages_arg age !! "incorrect_format" = Some (MsgObject code)
  /\ error_text example_runtime age "incorrect_format" [("value", PStr "abc")]
       (PInt 7) = Ok code
  /\ __set__ example_runtime heap7 age 0 PNone init_state
     = (Raise (Exn KeyError "sheet"), entered 0 PNone init_state, heap7).
Proof.
  intros code age.
  assert (error_messages_arg age !! "incorrect_format" = Some (MsgObject code))
    as K by (vm_compute; reflexivity).
  assert (error_messages_arg age !! "required"
          = Some (MsgTemplate [Constants.Hole "field"; Constants.Lit " of ";
                               Constants.Hole "sheet"; Constants.Hole "value"]))
    as K' by (vm_compute; reflexivity).
  split; [exact K|]. split.
  - destruct (error_message_override example_runtime heap7 age _ _ K)
      as (_ & R & _).
    exact (R [("value", PStr "abc")] (PInt 7) code eq_refl).
  - destruct (error_message_override example_runtime heap7 age _ _ K')
      as (_ & _ & R).
    specialize (R [("value", PNone)] (PInt 7) _ eq_refl).
    assert (first_missing
              [Constants.Hole "field"; Constants.Lit " of ";
               Constants.Hole "sheet"; Constants.Hole "value"]
              ("field" :: "row_number" :: [("value", PNone)].*1) = Some "sheet")
      as M by (vm_compute; reflexivity).
    rewrite M in R. destruct R as [_ R].
    specialize (R (entered 0 PNone init_state) eq_refl).
    transitivity
      (let '(r, s) := _make_error example_runtime heap7 age "required"
                        [("value", PNone)] (entered 0 PNone init_state) in
       (match r with Ok _ => Ok () | Raise e => Raise e end, s, heap7));
      [vm_compute; reflexivity|].
    rewrite R. reflexivity.
Defined.

(** ** Validators and preprocessors *)

Section Loops.
Variable rt : Runtime.
Variable h : gmap nat Instance.
Variable self : Field.

Lemma with_error_keeps msg st :
  owner (with_error msg st) = owner st
  /\ original_value (with_error msg st) = original_value st
  /\ owner_row_number h (with_error msg st) = owner_row_number h st
  /\ (forall l, errors st = ErrList l ->
      errors (with_error msg st) = ErrList (l ++ [msg])).
Proof.
  repeat split. intros l E. unfold with_error. simpl. now rewrite E.
Qed.

Lemma apply_validators_collects vs v : forall st l rn msg,
  errors st = ErrList l ->
  owner_row_number h st = Ok rn ->
  error_text rt self "incorrect_format" [("value", original_value st)] rn
  = Ok msg ->
  (forall f, f ∈ vs -> returns_or_rejects f v = true) ->
  apply_validators rt h self vs v st
  = (Ok (), Nat.iter (length (List.filter (rejects v) vs)) (with_error msg) st).
Proof.
  induction vs as [|f vs IH]; intros st l rn msg E R T A; [reflexivity|].
  cbn [apply_validators List.filter]. unfold rejects at 1.
  pose proof (A f ltac:(left)) as Af. unfold returns_or_rejects in Af.
  assert (forall g, g ∈ vs -> returns_or_rejects g v = true) as A'
    by (intros g G; apply A; now right).
  destruct (f v) as [x|e].
  - now apply IH with (l := l) (rn := rn).
  - rewrite Af. cbn [length]. rewrite Nat.iter_succ_r.
    unfold mbind at 1, M_bind at 1. unfold mbind at 1, M_bind at 1.
    rewrite (make_error_records rt h self _ _ st l rn msg E R T).
    destruct (with_error_keeps msg st) as (_ & O & R' & E').
    apply IH with (l := (l ++ [msg])%list) (rn := rn);
      [now apply E'|now rewrite R'|now rewrite O|exact A'].
Qed.

Lemma chain_raise (ps : list pyfun) e :
  foldl (fun r p => match r with Ok x => p x | Raise e => Raise e end)
    (Raise e : result pyval) ps = Raise e.
Proof. induction ps; simpl; auto. Qed.

Lemma apply_preprocessors_chain ps orig : forall v v' st,
  chain ps v = Ok v' ->
  apply_preprocessors rt h self ps orig v st = (Ok v', st).
Proof.
  induction ps as [|p ps IH]; intros v v' st C.
  - now injection C as ->.
  - unfold chain in C. cbn [foldl] in C. cbn [apply_preprocessors].
    destruct (p v) as [x|e]; [now apply IH|].
    now rewrite chain_raise in C.
Qed.

Lemma apply_preprocessors_app ps1 ps2 orig v u st :
  chain ps1 v = Ok u ->
  apply_preprocessors rt h self (ps1 ++ ps2)%list orig v st
  = apply_preprocessors rt h self ps2 orig u st.
Proof.
  revert v. induction ps1 as [|p ps1 IH]; intros v C.
  - now injection C as ->.
  - unfold chain in C. cbn [foldl] in C. cbn [app apply_preprocessors].
    destruct (p v) as [x|e].
    + now apply IH.
    + now rewrite chain_raise in C.
Qed.

(** a call of [_make_error] whose message builds, in a state whose owner
    has a row number *)
Lemma make_error_recorded key kwargs st rn msg :
  owner_row_number h st = Ok rn ->
  error_text rt self key kwargs rn = Ok msg ->
  _make_error rt h self key kwargs st = recorded msg () st.
Proof.
  intros R T. unfold recorded.
  destruct (errors st) as [l|items] eqn:E.
  - now apply make_error_records with (l := l) (rn := rn).
  - now apply make_error_on_assignment with (items := items) (rn := rn) (msg := msg).
Qed.

Lemma incorrect_format_recorded {A : Type} (a : A) st rn msg :
  owner_row_number h st = Ok rn ->
  error_text rt self "incorrect_format" [("value", original_value st)] rn
  = Ok msg ->
  (incorrect_format rt h self;; mret a) st = recorded msg a st.
Proof.
  intros R T. unfold incorrect_format, mbind, M_bind.
  rewrite (make_error_recorded _ _ st rn msg R T). unfold recorded.
  now destruct (errors st).
Qed.

(** the validators that return are passed over *)
Lemma apply_validators_app vs1 vs2 v st :
  (forall g, g ∈ vs1 -> exists x, g v = Ok x) ->
  apply_validators rt h self (vs1 ++ vs2)%list v st
  = apply_validators rt h self vs2 v st.
Proof.
  induction vs1 as [|g vs1 IH]; intros A; [reflexivity|].
  cbn [app apply_validators].
  destruct (A g ltac:(left)) as [x ->].
  apply IH. intros g' G. apply A. now right.
Qed.

End Loops.

(** X10.  The validators, on a value that is not an empty-value sentinel
    and in a state whose owner has a row number and where the message
    builds.  They are called in order and their return values are ignored:
    when none raises, the call returns and the state is untouched; an
    exception that is not a ValidationError leaves the call at once.  At
    the first validator that raises ValidationError, with the [defaultdict]
    an assignment puts in [errors], [_make_error] raises the AttributeError
    of [append]: nothing is recorded and the later validators are not
    called.  Only with a list in [errors], which a caller has to put there,
    do all the validators run, each rejection adding the same message built
    from the original value. *)
Theorem run_validators_on_assignment rt h self v st rn msg
    (Hv : in_EMPTY_VALUES v = false)
    (Hrow : owner_row_number h st = Ok rn)
    (Htext : error_text rt self "incorrect_format"
               [("value", original_value st)] rn = Ok msg) :
  ((forall f, f ∈ validators self -> exists x, f v = Ok x) ->
   _run_validators rt h self v st = (Ok (), st))
  /\ (forall vs1 f vs2 e,
      validators self = (vs1 ++ f :: vs2)%list ->
      (forall g, g ∈ vs1 -> exists x, g v = Ok x) ->
      f v = Raise e ->
      if is_class ValidationError e then
        forall items, errors st = ErrDefaultDict items ->
                      _run_validators rt h self v st = (Raise no_append, st)
      else _run_validators rt h self v st = (Raise e, st))
  /\ (forall l,
      errors st = ErrList l ->
      (forall f, f ∈ validators self -> returns_or_rejects f v = true) ->
      let n := length (List.filter (rejects v) (validators self)) in
      _run_validators rt h self v st = (Ok (), Nat.iter n (with_error msg) st)
      /\ errors (Nat.iter n (with_error msg) st) = ErrList (l ++ replicate n msg)).
Proof.
  unfold _run_validators. rewrite Hv. split; [|split].
  - intros A. rewrite <- (app_nil_r (validators self)).
    now rewrite apply_validators_app.
  - intros vs1 f vs2 e -> A F.
    rewrite (apply_validators_app rt h self vs1 (f :: vs2) v st A).
    cbn [apply_validators]. rewrite F.
    destruct (is_class ValidationError e); [|reflexivity].
    intros items E. unfold mbind at 1, M_bind at 1.
    unfold mbind at 1, M_bind at 1.
    now rewrite (make_error_on_assignment rt h self _ _ st items rn msg E Hrow Htext).
  - intros l E A. split.
    + now apply apply_validators_collects with (l := l) (rn := rn).
    + generalize (length (List.filter (rejects v) (validators self))). intros n.
      assert (forall k, (replicate k msg ++ [msg])%list = msg :: replicate k msg)
        as Snoc by (induction k; simpl; [reflexivity|now f_equal]).
      induction n as [|n IH]; simpl; [now rewrite E, app_nil_r|].
      now rewrite IH, <- app_assoc, Snoc.
Qed.

Lemma run_validators_on_assignment_witness :
  let odd : pyfun := fun v =>
    match v with
    | PInt z => if Z.odd z then Ok PNone
                else Raise (Exn ValidationError "even")
    | _ => Raise (Exn ValidationError "not an int")
    end in
  let small : pyfun := fun v =>
    match v with
    | PInt z => if z <? 10 then Ok PNone
                else Raise (Exn ValidationError "large")
    | _ => Ok PNone
    end in
  let age :=
    {| kind := IntField None None; attr_name := "age";
       verbose_name_arg := None; required := true; default := PNone;
       convert_to_none_strings_arg := []; validators_arg := [odd; small; odd];
       pre_processors_arg := []; error_messages_arg := ∅ |} in
  let st := entered 0 (PStr "5") init_state in
  _run_validators example_runtime heap7 age (PInt 5) st = (Ok (), st)
  /\ _run_validators example_runtime heap7 age (PInt 11) st = (Raise no_append, st)
  /\ __set__ example_runtime heap7 age 0 (PStr "11") init_state
     = (Raise no_append, entered 0 (PStr "11") init_state, heap7).
Proof.
  intros odd small age st.
  pose proof (fun v => run_validators_on_assignment example_runtime heap7 age v st
                (PInt 7) (missing_key_message "IntField" "incorrect_format"))
    as R.
  split; [|split].
  - destruct (R (PInt 5) eq_refl eq_refl ltac:(vm_compute; reflexivity)) as [A _].
    apply A. intros f F. unfold validators in F. simpl in F.
    repeat (apply elem_of_cons in F as [->|F]; [eexists; reflexivity|]).
    now apply elem_of_nil in F.
  - destruct (R (PInt 11) eq_refl eq_refl ltac:(vm_compute; reflexivity))
      as (_ & A & _).
    specialize (A [odd] small [odd] (Exn ValidationError "large") eq_refl).
    cbn [is_class exn_cls] in A. apply A with (items := []); try reflexivity.
    intros g [->|[]%elem_of_nil]%elem_of_cons. eexists; reflexivity.
  - vm_compute. reflexivity.
Defined.

(** X11.  The preprocessors, on a value that is not an empty-value
    sentinel: they are applied left to right, each to the result of the one
    before, and when none raises the result is that of the last, with the
    state untouched.  An exception that is not a ValidationError leaves the
    call at once.  At the first ValidationError the later preprocessors are
    not called and [_make_error] is called with the value as it was handed
    in: in a state whose owner has a row number and where the message
    builds, with the [defaultdict] an assignment puts in [errors] it raises
    the AttributeError of [append] and nothing is recorded; with a list in
    [errors], which a caller has to put there, the message is appended and
    the result is [None]. *)
Theorem run_preprocessors_chain rt h self v st
    (Hv : in_EMPTY_VALUES v = false) :
  (forall v', chain (preprocessors self) v = Ok v' ->
     _run_preprocessors rt h self v st = (Ok v', st))
  /\ (forall ps1 p ps2 u e,
      preprocessors self = (ps1 ++ p :: ps2)%list ->
      chain ps1 v = Ok u -> p u = Raise e ->
      if is_class ValidationError e then
        forall rn msg,
          owner_row_number h st = Ok rn ->
          error_text rt self "incorrect_format" [("value", v)] rn = Ok msg ->
          _run_preprocessors rt h self v st = recorded msg PNone st
      else _run_preprocessors rt h self v st = (Raise e, st)).
Proof.
  unfold _run_preprocessors. rewrite Hv. split.
  - intros v' C. now apply apply_preprocessors_chain.
  - intros ps1 p ps2 u e -> C P.
    rewrite (apply_preprocessors_app rt h self ps1 (p :: ps2) v v u st C).
    cbn [apply_preprocessors]. rewrite P.
    destruct (is_class ValidationError e); [|reflexivity].
    intros rn msg R T. unfold mbind, M_bind.
    rewrite (make_error_recorded rt h self _ _ st rn msg R T). unfold recorded.
    now destruct (errors st).
Qed.

Lemma run_preprocessors_chain_witness :
  let spaced : pyfun := fun v =>
    match v with
    | PStr s => Ok (PStr (Text.underscores_to_spaces s))
    | _ => Raise (Exn ValidationError "not text")
    end in
  let short : pyfun := fun v =>
    match v with
    | PStr (String _ (String _ (String _ _))) =>
        Raise (Exn ValidationError "too long")
    | _ => Ok v
    end in
  let note :=
    {| kind := StrField None None; attr_name := "note";
       verbose_name_arg := None; required := true; default := PNone;
       convert_to_none_strings_arg := []; validators_arg := [];
       pre_processors_arg := [spaced; short; spaced];
       error_messages_arg := ∅ |} in
  let st := entered 0 (PStr "a_b") init_state in
  in_EMPTY_VALUES (PStr "a_") = false
  /\ _run_preprocessors example_runtime heap7 note (PStr "a_") st
     = (Ok (PStr "a "), st)
  /\ _run_preprocessors example_runtime heap7 note (PStr "a_b") st
     = (Raise no_append, st)
  /\ _run_preprocessors example_runtime heap7 note (PStr "a_b") (listening 0)
     = (Ok PNone,
        with_error (missing_key_message "StrField" "incorrect_format")
          (listening 0)).
Proof.
  intros spaced short note st.
  split; [reflexivity|]. split; [|split].
  - destruct (run_preprocessors_chain example_runtime heap7 note (PStr "a_")
                st eq_refl) as [C _].
    apply C. reflexivity.
  - destruct (run_preprocessors_chain example_runtime heap7 note (PStr "a_b")
                st eq_refl) as [_ F].
    specialize (F [spaced] short [spaced] (PStr "a b")
                  (Exn ValidationError "too long") eq_refl eq_refl eq_refl).
    cbn [is_class exn_cls] in F.
    apply (F (PInt 7) (missing_key_message "StrField" "incorrect_format"));
      [reflexivity|]. vm_compute. reflexivity.
  - destruct (run_preprocessors_chain example_runtime heap7 note (PStr "a_b")
                (listening 0) eq_refl) as [_ F].
    specialize (F [spaced] short [spaced] (PStr "a b")
                  (Exn ValidationError "too long") eq_refl eq_refl eq_refl).
    cbn [is_class exn_cls] in F.
    apply (F (PInt 7) (missing_key_message "StrField" "incorrect_format"));
      [reflexivity|]. vm_compute. reflexivity.
Defined.

(** ** The pipeline of a field with no preprocessor and no validator *)

Section Plain.
Variable rt : Runtime.
Variable h : gmap nat Instance.
Variable self : Field.
Hypothesis Hpp : pre_processors_arg self = [].
Hypothesis Hval : validators_arg self = [].

(** On a value that is not an empty-value sentinel the pipeline is the
    conversion of the pre-processed value followed by the validate hook,
    whose return value is dropped. *)
Lemma deserialize_plain v st :
  in_EMPTY_VALUES v = false ->
  _deserialize rt h self v st =
  (out ← deserialize rt h self (pre_process_value rt self v);
   validate rt h self out;; mret out) st.
Proof.
  intros E. unfold _deserialize, _validate, _run_preprocessors, _run_validators,
    preprocessors, validators, default_validators.
  rewrite Hpp, Hval, E. cbn [app apply_preprocessors apply_validators negb].
  assert (_validate_required rt h self v = mret ()) as ->
    by (destruct v; try reflexivity; discriminate).
  unfold mbind, M_bind, mret, M_ret.
  destruct (in_EMPTY_VALUES (pre_process_value rt self v));
    destruct (deserialize rt h self (pre_process_value rt self v) st)
      as [[out|e] st1]; try reflexivity;
    destruct (validate rt h self out st1) as [[r|e] st2]; try reflexivity;
    destruct (in_EMPTY_VALUES out); reflexivity.
Qed.

End Plain.

Lemma pre_process_value_text rt self s :
  Text.strip s <> EmptyString ->
  Text.lower (Text.strip s) ∉ convert_to_none_strings self ->
  pre_process_value rt self (PStr s) = PStr (Text.strip s).
Proof.
  intros N T. unfold pre_process_value.
  destruct (Text.strip s) as [|c r]; [congruence|]. simpl.
  now rewrite bool_decide_eq_false_2.
Qed.

Lemma StrField_validate_text rt h self lo hi t st :
  let n := Z.of_nat (String.length t) in
  StrField_validate rt h self lo hi (PStr t) st
  = ((if match lo with Some m => n <? m | None => false end
         || match hi with Some m => m <? n | None => false end
      then incorrect_format rt h self else mret ());;
     mret PNone) st.
Proof.
  unfold StrField_validate. cbn [py_len].
  unfold mbind, M_bind, lift, mret, M_ret.
  destruct lo as [m|], hi as [m'|]; cbv beta iota;
    repeat (destruct (_ <? _); cbv beta iota); reflexivity.
Qed.

(** X12.  A text field with no preprocessor and no validator, given text
    that is not blank and not a convert-to-none token.  The length bounds
    are compared with the length of the trimmed text.  Within them, the
    pipeline returns the trimmed text and leaves the state untouched,
    whatever it holds.  Outside them [_make_error] is called: in a state
    whose owner has a row number and where the message builds, with the
    [defaultdict] an assignment puts in [errors] the pipeline raises the
    AttributeError of [append], so the assignment raises and neither stores
    nor records anything; with a list in [errors], which a caller has to
    put there, the message is appended and the trimmed text is returned all
    the same. *)
Theorem StrField_stores_trimmed_text rt h self lo hi s st
    (Hkind : kind self = StrField lo hi)
    (Hpp : pre_processors_arg self = [])
    (Hval : validators_arg self = [])
    (Hs : Text.strip s <> EmptyString)
    (Htok : Text.lower (Text.strip s) ∉ convert_to_none_strings self) :
  let n := Z.of_nat (String.length (Text.strip s)) in
  let short := match lo with Some m => n <? m | None => false end in
  let long := match hi with Some m => m <? n | None => false end in
  (short || long = false ->
   _deserialize rt h self (PStr s) st = (Ok (PStr (Text.strip s)), st))
  /\ (short || long = true ->
      (forall rn msg,
         owner_row_number h st = Ok rn ->
         error_text rt self "incorrect_format" [("value", original_value st)] rn
         = Ok msg ->
         _deserialize rt h self (PStr s) st
         = recorded msg (PStr (Text.strip s)) st)
      /\ (forall o rn msg,
          owner_row_number h (entered o (PStr s) st) = Ok rn ->
          error_text rt self "incorrect_format" [("value", PStr s)] rn = Ok msg ->
          __set__ rt h self o (PStr s) st
          = (Raise no_append, entered o (PStr s) st, h))).
Proof.
  intros n short long.
  assert (in_EMPTY_VALUES (PStr s) = false) as E.
  { destruct s; [|reflexivity]. now contradiction Hs. }
  assert (forall st', _deserialize rt h self (PStr s) st'
            = ((if short || long then incorrect_format rt h self else mret ());;
               mret (PStr (Text.strip s))) st') as D.
  { intros st'. rewrite (deserialize_plain rt h self Hpp Hval _ st' E).
    rewrite (pre_process_value_text rt self s Hs Htok).
    unfold deserialize, validate. rewrite Hkind.
    unfold mbind, M_bind, StrField_deserialize, mret, M_ret. cbn [py_str].
    rewrite strip_idem, StrField_validate_text. fold n short long.
    unfold mbind, M_bind, mret, M_ret.
    destruct ((if short || long then incorrect_format rt h self
               else fun st0 => (Ok (), st0)) st') as [[[]|e] st1]; reflexivity. }
  split; intros B.
  - rewrite D, B. reflexivity.
  - assert (forall st' rn msg,
              owner_row_number h st' = Ok rn ->
              error_text rt self "incorrect_format"
                [("value", original_value st')] rn = Ok msg ->
              _deserialize rt h self (PStr s) st'
              = recorded msg (PStr (Text.strip s)) st') as Rec.
    { intros st' rn msg R T. rewrite D, B.
      exact (incorrect_format_recorded rt h self _ st' rn msg R T). }
    split; [intros rn msg; apply Rec|].
    intros o rn msg R T. rewrite set_unfold.
    now rewrite (Rec (entered o (PStr s) st) rn msg R T).
Qed.

Lemma StrField_stores_trimmed_text_witness :
  let name := declare (StrField (Some 2) (Some 5)) "name" true in
  (Text.strip "  Ada " <> EmptyString
   /\ Text.lower (Text.strip "  Ada ") ∉ convert_to_none_strings name)
  /\ _deserialize example_runtime heap7 name (PStr "  Ada ")
       (entered 0 (PStr "  Ada ") init_state)
     = (Ok (PStr "Ada"), entered 0 (PStr "  Ada ") init_state)
  /\ __set__ example_runtime heap7 name 0 (PStr " Lovelace ") init_state
     = (Raise no_append, entered 0 (PStr " Lovelace ") init_state, heap7)
  /\ _deserialize example_runtime heap7 name (PStr " Lovelace ") (listening 0)
     = (Ok (PStr "Lovelace"),
        with_error (missing_key_message "StrField" "incorrect_format")
          (listening 0)).
Proof.
  intros name.
  assert (forall s, s <> "null" -> s ∉ convert_to_none_strings name) as T.
  { intros s N [->|[]%elem_of_nil]%elem_of_cons. congruence. }
  assert (Text.strip "  Ada " <> EmptyString) as N1 by (vm_compute; discriminate).
  assert (Text.strip " Lovelace " <> EmptyString) as N2
    by (vm_compute; discriminate).
  assert (Text.lower (Text.strip "  Ada ") ∉ convert_to_none_strings name) as T1
    by (apply T; vm_compute; discriminate).
  assert (Text.lower (Text.strip " Lovelace ") ∉ convert_to_none_strings name)
    as T2 by (apply T; vm_compute; discriminate).
  pose proof (fun st => StrField_stores_trimmed_text example_runtime heap7 name
                (Some 2) (Some 5) " Lovelace " st eq_refl eq_refl eq_refl N2 T2)
    as L.
  split; [split; assumption|]. split; [|split].
  - apply (StrField_stores_trimmed_text example_runtime heap7 name (Some 2)
             (Some 5) "  Ada " _ eq_refl eq_refl eq_refl N1 T1).
    reflexivity.
  - destruct (L init_state) as [_ B]. destruct (B eq_refl) as [_ A].
    apply (A 0%nat (PInt 7) (missing_key_message "StrField" "incorrect_format"));
      [reflexivity|vm_compute; reflexivity].
  - destruct (L (listening 0)) as [_ B]. destruct (B eq_refl) as [A _].
    apply (A (PInt 7) (missing_key_message "StrField" "incorrect_format"));
      [reflexivity|vm_compute; reflexivity].
Defined.

(** ** Integers as text *)

Section IntText.

Local Ltac bits c := destruct c as [[] [] [] [] [] [] [] []].

Lemma digit_char_spec d :
  0 <= d <= 9 ->
  Text.is_digit (Text.digit_char d) = true
  /\ Text.digit_val (Text.digit_char d) = d
  /\ Text.lower_char (Text.digit_char d) = Text.digit_char d.
Proof.
  intros H.
  assert (d = 0 \/ d = 1 \/ d = 2 \/ d = 3 \/ d = 4 \/ d = 5 \/ d = 6 \/ d = 7
          \/ d = 8 \/ d = 9) as D by lia.
  repeat (destruct D as [->|D]; [repeat split|]); subst; repeat split.
Qed.

Lemma digits_val_app a s t :
  Text.digits_val a (s +:+ t) = Text.digits_val (Text.digits_val a s) t.
Proof. revert a. induction s as [|c s IH]; intros a; simpl; auto. Qed.

Lemma all_digits_app s t :
  Text.all_digits (s +:+ t) = Text.all_digits s && Text.all_digits t.
Proof.
  induction s as [|c s IH]; simpl; [reflexivity|].
  now rewrite IH, andb_assoc.
Qed.

Lemma string_app_assoc (s t u : string) : (s +:+ t) +:+ u = s +:+ (t +:+ u).
Proof.
  induction s as [|c s IH]; [reflexivity|].
  change (String c ((s +:+ t) +:+ u) = String c (s +:+ (t +:+ u))).
  now rewrite IH.
Qed.

(** the digits the conversion loop puts in front of [acc] *)
Lemma digits_of_pos_fuel_spec fuel : forall n acc,
  0 <= n < 2 ^ Z.of_nat (S fuel) ->
  exists d, Text.digits_of_pos_fuel (S fuel) n acc = d +:+ acc
    /\ d <> EmptyString /\ Text.all_digits d = true
    /\ Text.lower d = d
    /\ (String.length d = 1%nat \/ 10 ^ Z.of_nat (String.length d - 1) <= n)
    /\ forall a, Text.digits_val a d = a * 10 ^ Z.of_nat (String.length d) + n.
Proof.
  induction fuel as [|fuel IH]; intros n acc H;
    cbn [Text.digits_of_pos_fuel];
    (destruct (digit_char_spec (n mod 10)) as (D1 & D2 & D3);
      [pose proof (Z.mod_pos_bound n 10); lia|]).
  - change (2 ^ Z.of_nat 1) with 2 in H.
    replace (n <? 10) with true by (symmetry; apply Z.ltb_lt; lia).
    rewrite Z.mod_small in * by lia.
    exists (String (Text.digit_char n) EmptyString).
    split; [reflexivity|]. split; [discriminate|].
    split; [simpl; now rewrite D1|]. split; [simpl; now rewrite D3|].
    split; [now left|].
    intros a. simpl. rewrite D2. lia.
  - set (fuel' := S fuel) in *. cbn [Text.digits_of_pos_fuel] in *.
    destruct (n <? 10) eqn:L.
    + apply Z.ltb_lt in L. rewrite Z.mod_small in * by lia.
      exists (String (Text.digit_char n) EmptyString).
      split; [reflexivity|]. split; [discriminate|].
      split; [simpl; now rewrite D1|]. split; [simpl; now rewrite D3|].
      split; [now left|].
      intros a. simpl. rewrite D2. lia.
    + apply Z.ltb_ge in L.
      destruct (IH (n / 10) (String (Text.digit_char (n mod 10)) acc))
        as (d & E & N & A & Lw & B & V).
      { split; [apply Z.div_pos; lia|].
        apply Z.div_lt_upper_bound; [lia|].
        rewrite Nat2Z.inj_succ, Z.pow_succ_r in H by lia. lia. }
      exists (d +:+ String (Text.digit_char (n mod 10)) EmptyString).
      rewrite string_app_assoc. split; [exact E|].
      split; [destruct d; [congruence|discriminate]|].
      split; [rewrite all_digits_app, A; simpl; now rewrite D1|].
      split.
      { clear - Lw D3. induction d as [|c d IHd]; simpl in *.
        - now rewrite D3.
        - injection Lw as Lc Ld. now rewrite Lc, IHd. }
      assert (String.length (d +:+ String (Text.digit_char (n mod 10)) EmptyString)
              = S (String.length d)) as ->.
      { clear. induction d; simpl; auto. }
      pose proof (Z.div_mod n 10 ltac:(lia)) as DM.
      pose proof (Z.mod_pos_bound n 10 ltac:(lia)) as MB.
      split.
      { right. replace (S (String.length d) - 1)%nat with (String.length d) by lia.
        destruct B as [->|B]; [simpl; lia|].
        destruct (String.length d) as [|k]; [simpl; lia|].
        rewrite Nat2Z.inj_succ, Z.pow_succ_r by lia.
        replace (S k - 1)%nat with k in B by lia. lia. }
      intros a. rewrite digits_val_app, V. simpl. rewrite D2.
      rewrite Nat2Z.inj_succ, Z.pow_succ_r by lia. lia.
Qed.

Lemma digits_of_spec n :
  0 <= n ->
  Text.digits_of n <> EmptyString /\ Text.all_digits (Text.digits_of n) = true
  /\ Text.lower (Text.digits_of n) = Text.digits_of n
  /\ Text.digits_val 0 (Text.digits_of n) = n
  /\ (forall w, (0 < w)%nat -> n < 10 ^ Z.of_nat w ->
      (String.length (Text.digits_of n) <= w)%nat).
Proof.
  intros H. unfold Text.digits_of.
  destruct (digits_of_pos_fuel_spec (Z.to_nat (Z.log2 n)) n EmptyString)
    as (d & E & N & A & Lw & B & V).
  { split; [exact H|]. rewrite Nat2Z.inj_succ, Z2Nat.id by apply Z.log2_nonneg.
    destruct (Z.eq_dec n 0) as [->|]; [reflexivity|].
    apply Z.log2_spec. lia. }
  rewrite E.
  assert (forall t, t +:+ EmptyString = t) as ->.
  { clear. induction t as [|c t IHt]; [reflexivity|].
    change (String c (t +:+ EmptyString) = String c t). now rewrite IHt. }
  split; [exact N|]. split; [exact A|]. split; [exact Lw|].
  split; [rewrite V; lia|].
  intros w W U. destruct B as [->|B]; [lia|].
  assert (Z.of_nat (String.length d - 1) < Z.of_nat w); [|lia].
  apply (Z.pow_lt_mono_r_iff 10); lia.
Qed.

(** [str(z)] is its own trimmed, lower-cased form, and [int] reads it
    back. *)
Lemma of_Z_spec z :
  Text.of_Z z <> EmptyString /\ Text.strip (Text.of_Z z) = Text.of_Z z
  /\ Text.lower (Text.of_Z z) = Text.of_Z z
  /\ Text.parse_int (Text.of_Z z) = Some z.
Proof.
  unfold Text.of_Z. destruct (z <? 0) eqn:S.
  - apply Z.ltb_lt in S.
    destruct (digits_of_spec (- z)) as (N & A & Lw & V & _); [lia|].
    assert (Text.strip (String "-" (Text.digits_of (- z)))
            = String "-" (Text.digits_of (- z))) as St.
    { unfold Text.strip. cbn [Text.lstrip]. change (Text.is_space "-") with false.
      cbn [Text.rstrip]. rewrite (rstrip_digits _ A).
      destruct (Text.digits_of (- z)); [congruence|reflexivity]. }
    split; [discriminate|]. split; [exact St|].
    split; [simpl; now rewrite Lw|].
    unfold Text.parse_int. rewrite St.
    rewrite (int_digits_all _ false 0 A (or_introl N)), V. simpl. f_equal. lia.
  - apply Z.ltb_ge in S.
    destruct (digits_of_spec z S) as (N & A & Lw & V & _).
    split; [exact N|].
    split; [unfold Text.strip; now rewrite (lstrip_digits _ A), (rstrip_digits _ A)|].
    split; [exact Lw|].
    now rewrite (parse_int_digits _ A N), V.
Qed.

End IntText.

Lemma count_digits_length s :
  0 <= Text.count_digits s <= Z.of_nat (String.length s).
Proof.
  induction s as [|c s IH]; cbn [Text.count_digits String.length]; [lia|].
  destruct (Text.is_digit c); lia.
Qed.

(** X13.  An integer field with an integer minimum, or none, and no
    maximum, with no preprocessor and no validator, on an instance that has
    a [fields] attribute, assigned the decimal text [str(z)] of an integer
    [z], provided that text is not a convert-to-none token.  When the text
    has at most 4300 characters, the limit of [int()] on digit text as the
    interpreter starts: if [z] is at or above the minimum the assignment
    completes and the attribute then reads as the integer [z]; if it is
    below, the assignment raises and leaves the heap as it was.  When the
    text has more than 4300 digits, [int()] raises a ValueError, and the
    assignment raises and leaves the heap as it was. *)
Theorem IntField_assignment rt h self o z lo st
    (Hkind : kind self = IntField (NumInt <$> lo) None)
    (Hpp : pre_processors_arg self = [])
    (Hval : validators_arg self = [])
    (Htok : Text.of_Z z ∉ convert_to_none_strings self)
    (Hfields : fields (deref h o) <> FieldsUnset) :
  let below := match lo with Some m => z <? m | None => false end in
  ((String.length (Text.of_Z z) <= 4300)%nat ->
   if below then
     exists e, __set__ rt h self o (PStr (Text.of_Z z)) st
               = (Raise e, entered o (PStr (Text.of_Z z)) st, h)
   else
     exists h', __set__ rt h self o (PStr (Text.of_Z z)) st
                = (Ok (), entered o (PStr (Text.of_Z z)) st, h')
       /\ __get__ h' self o = Ok (PInt z))
  /\ (INT_MAX_STR_DIGITS < Text.count_digits (Text.of_Z z) ->
      (exists msg, py_int (PStr (Text.of_Z z)) = Raise (Exn ValueError msg))
      /\ exists e, __set__ rt h self o (PStr (Text.of_Z z)) st
                   = (Raise e, entered o (PStr (Text.of_Z z)) st, h)).
Proof.
  intros below. set (v := PStr (Text.of_Z z)). set (st0 := entered o v st).
  destruct (of_Z_spec z) as (N & St & Lw & P).
  assert (in_EMPTY_VALUES v = false) as E.
  { subst v. simpl. destruct (Text.of_Z z); [congruence|reflexivity]. }
  assert (pre_process_value rt self v = v) as PP.
  { subst v. rewrite pre_process_value_text; rewrite St; try assumption.
    - reflexivity.
    - now rewrite Lw. }
  assert (_deserialize rt h self v st0
          = (out ← IntField_deserialize rt h self v;
             NumberField_validate rt h self (NumInt <$> lo) None out;;
             mret out) st0) as D.
  { rewrite (deserialize_plain rt h self Hpp Hval _ st0 E), PP.
    unfold deserialize, validate. now rewrite Hkind. }
  assert (forall m : M unit, exists e, (incorrect_format rt h self;; m) st0
                                       = (Raise e, st0)) as Raises.
  { intros m.
    destruct (make_error_raises rt h self "incorrect_format"
                [("value", original_value st0)] st0 [] eq_refl) as [e Me].
    exists e. unfold incorrect_format, mbind, M_bind. now rewrite Me. }
  pose proof (count_digits_length (Text.of_Z z)) as CL.
  split.
  - intros Len.
    assert (IntField_deserialize rt h self v st0 = (Ok (PInt z), st0)) as C.
    { unfold IntField_deserialize, try_except, lift. subst v. cbn [py_int].
      rewrite P. unfold INT_MAX_STR_DIGITS.
      replace (4300 <? Text.count_digits (Text.of_Z z)) with false
        by (symmetry; apply Z.ltb_ge; lia).
      reflexivity. }
    assert (_deserialize rt h self v st0
            = (NumberField_validate rt h self (NumInt <$> lo) None (PInt z);;
               mret (PInt z)) st0) as D'.
    { rewrite D. unfold mbind at 1, M_bind at 1. now rewrite C. }
    rewrite set_unfold. fold v st0. rewrite D'.
    unfold NumberField_validate, mbind, M_bind, lift, mret, M_ret.
    destruct lo as [m|]; cbn [fmap option_fmap option_map val_of_number];
      subst below; cbv beta iota.
    + unfold Num.gt, Num.lt. cbn [Num.of_val Num.is_decimal_nan orb Num.ltb].
      rewrite !Z.mul_1_r.
      destruct (z <? m).
      * destruct (Raises (mret ())) as [e Me].
        unfold mbind, M_bind in Me.
        destruct (incorrect_format rt h self st0) as [[[]|e0] st1];
          [discriminate Me|]. injection Me as -> ->. simpl. eauto.
      * simpl.
        destruct (stored_ok h self o (PInt z) Hfields) as (h' & S & G & _).
        rewrite S. exists h'. split; [reflexivity|].
        unfold __get__. now rewrite G.
    + simpl.
      destruct (stored_ok h self o (PInt z) Hfields) as (h' & S & G & _).
      rewrite S. exists h'. split; [reflexivity|].
      unfold __get__. now rewrite G.
  - intros Long.
    assert (py_int v = Raise (Exn ValueError
              "Exceeds the limit (4300 digits) for integer string conversion"))
      as C.
    { subst v. cbn [py_int]. rewrite P.
      now replace (INT_MAX_STR_DIGITS <? Text.count_digits (Text.of_Z z))
        with true by (symmetry; apply Z.ltb_lt; lia). }
    split; [eexists; exact C|].
    rewrite set_unfold. fold v st0. rewrite D.
    unfold mbind at 1, M_bind at 1.
    unfold IntField_deserialize, try_except, lift. rewrite C.
    cbn [is_class exn_cls].
    destruct (Raises (mret ())) as [e Me]. unfold mbind, M_bind in Me |- *.
    destruct (incorrect_format rt h self st0) as [[[]|e0] st1];
      [discriminate Me|]. injection Me as -> ->. simpl. eauto.
Qed.

Lemma IntField_assignment_witness :
  let age := declare (IntField (Some (NumInt 18)) None) "age" true in
  (Text.of_Z 42 ∉ convert_to_none_strings age)
  /\ fields (deref heap7 0) <> FieldsUnset
  /\ (exists h', __set__ example_runtime heap7 age 0 (PStr "42") init_state
                 = (Ok (), entered 0 (PStr "42") init_state, h')
        /\ __get__ h' age 0 = Ok (PInt 42))
  /\ (exists e, __set__ example_runtime heap7 age 0 (PStr "-7") init_state
                = (Raise e, entered 0 (PStr "-7") init_state, heap7)).
Proof.
  intros age.
  assert (forall s, s <> "null" -> s ∉ convert_to_none_strings age) as T.
  { intros s N [->|[]%elem_of_nil]%elem_of_cons. congruence. }
  assert (fields (deref heap7 0) <> FieldsUnset) as F
    by (vm_compute; discriminate).
  assert (Text.of_Z 42 ∉ convert_to_none_strings age) as T1
    by (apply T; vm_compute; discriminate).
  assert (Text.of_Z (-7) ∉ convert_to_none_strings age) as T2
    by (apply T; vm_compute; discriminate).
  assert (String.length (Text.of_Z 42) <= 4300)%nat as L1
    by (change (2 <= 4300)%nat; lia).
  assert (String.length (Text.of_Z (-7)) <= 4300)%nat as L2
    by (change (2 <= 4300)%nat; lia).
  split; [exact T1|]. split; [exact F|]. split.
  - exact (proj1 (IntField_assignment example_runtime heap7 age 0 42 (Some 18)
                    init_state eq_refl eq_refl eq_refl T1 F) L1).
  - exact (proj1 (IntField_assignment example_runtime heap7 age 0 (-7) (Some 18)
                    init_state eq_refl eq_refl eq_refl T2 F) L2).
Defined.

(** ** Boolean and enumeration fields *)

Lemma of_val_denominator v n d : Num.of_val v = Some (Num.Fin n d) -> 0 < d.
Proof.
  assert (forall neg m b e, 0 < b -> Num.scaled neg m b e = Num.Fin n d -> 0 < d)
    as S.
  { intros neg m b e B. unfold Num.scaled.
    destruct (0 <=? e) eqn:E; intros [= <- <-]; [lia|].
    apply Z.leb_gt in E. apply Z.pow_pos_nonneg; lia. }
  destruct v as [| b | z | f | | | | | dc | |]; simpl; try discriminate.
  - intros [= <- <-]. lia.
  - intros [= <- <-]. lia.
  - destruct f; simpl; try discriminate.
    + intros [= <- <-]. lia.
    + intros [= E]. revert E. apply S. lia.
  - destruct dc; simpl; try discriminate.
    intros [= E]. revert E. apply S. lia.
Qed.

(** a number is in [truthy] when it equals 1 and in [falsy] when it equals
    0 *)
Lemma number_in_sets v x :
  Num.of_val v = Some x ->
  existsb (member_eq v) truthy = Num.eqb x (Num.Fin 1 1)
  /\ existsb (member_eq v) falsy = Num.eqb x (Num.Fin 0 1).
Proof.
  intros V.
  destruct v as [| b | z | f | s | | | | dc | |]; try discriminate V;
    unfold truthy, falsy, existsb, member_eq; rewrite V;
    cbn [Num.of_val Num.of_float orb];
    destruct (Num.eqb x (Num.Fin 1 1)), (Num.eqb x (Num.Fin 0 1)); split; reflexivity.
Qed.

(** No value is equal to a member of [truthy] and to one of [falsy]. *)
Lemma truthy_falsy_disjoint v :
  existsb (member_eq v) truthy = true -> existsb (member_eq v) falsy = false.
Proof.
  destruct (Num.of_val v) as [x|] eqn:V.
  - destruct (number_in_sets v x V) as [-> ->].
    destruct x as [n d| |]; try discriminate.
    pose proof (of_val_denominator v n d V). simpl.
    intros T%Z.eqb_eq. apply Z.eqb_neq. lia.
  - destruct v as [| b | z | f | s | | | | dc | |]; try discriminate V;
      try (intros T; vm_compute in T; discriminate T).
    intros T. apply existsb_exists in T as (t & Tin & Tm). simpl in Tin.
    repeat (destruct Tin as [<-|Tin];
            [first [discriminate Tm
                   | apply bool_decide_eq_true_1 in Tm; subst s;
                     vm_compute; reflexivity]|]).
    contradiction.
Qed.

(** X14.  A boolean field's conversion.  In every state, a hashable
    value equal to a member of [truthy] gives [True] and one equal to a
    member of [falsy] gives [False], with the state untouched, and no value
    is equal to members of both sets.  For every other value, the
    unhashable ones included, [_make_error] is called: in a state whose
    owner has a row number and where the message builds, with the
    [defaultdict] an assignment puts in [errors] the conversion raises the
    AttributeError of [append], which [except TypeError] does not catch,
    and nothing is recorded; with a list in [errors], which a caller has to
    put there, the message is appended and the result is [None]. *)
Theorem BooleanField_deserialize_outcome rt h self v st :
  (hashable v = true -> existsb (member_eq v) truthy = true ->
   BooleanField_deserialize rt h self v st = (Ok (PBool true), st))
  /\ (hashable v = true -> existsb (member_eq v) falsy = true ->
      BooleanField_deserialize rt h self v st = (Ok (PBool false), st))
  /\ (existsb (member_eq v) truthy = true -> existsb (member_eq v) falsy = false)
  /\ (hashable v && (existsb (member_eq v) truthy || existsb (member_eq v) falsy)
      = false ->
      forall rn msg,
        owner_row_number h st = Ok rn ->
        error_text rt self "incorrect_format" [("value", original_value st)] rn
        = Ok msg ->
        BooleanField_deserialize rt h self v st = recorded msg PNone st).
Proof.
  assert (forall rn msg,
            owner_row_number h st = Ok rn ->
            error_text rt self "incorrect_format"
              [("value", original_value st)] rn = Ok msg ->
            (incorrect_format rt h self;; mret PNone) st = recorded msg PNone st
            /\ forall e, recorded msg PNone st = (Raise e, st) ->
                         is_class TypeError e = false) as IF.
  { intros rn msg R T. split.
    - exact (incorrect_format_recorded rt h self PNone st rn msg R T).
    - unfold recorded. destruct (errors st); [discriminate|].
      intros e [= <-]. reflexivity. }
  assert (BooleanField_deserialize rt h self v st
          = try_except
              (t ← lift (set_contains truthy v);
               if t : bool then mret (PBool true)
               else
                 f ← lift (set_contains falsy v);
                 if f : bool then mret (PBool false)
                 else incorrect_format rt h self;; mret PNone)
              (is_class TypeError)
              (fun _ => incorrect_format rt h self;; mret PNone) st) as ->
    by reflexivity.
  unfold try_except, set_contains, lift.
  split; [|split; [|split]].
  - intros H T. unfold mbind, M_bind, mret, M_ret. now rewrite H, T.
  - intros H F. unfold mbind, M_bind, mret, M_ret. rewrite H, F.
    destruct (existsb (member_eq v) truthy) eqn:T; [|reflexivity].
    now rewrite (truthy_falsy_disjoint v T) in F.
  - apply truthy_falsy_disjoint.
  - intros N rn msg R T. destruct (IF rn msg R T) as [I C].
    destruct (hashable v) eqn:H.
    + cbn [andb] in N. apply orb_false_iff in N as [Tr Fa].
      unfold mbind at 1, M_bind at 1. rewrite Tr.
      unfold mbind at 1, M_bind at 1. rewrite Fa.
      rewrite I.
      destruct (recorded msg PNone st) as [[r|e] st1] eqn:Re; [reflexivity|].
      assert (st1 = st) as ->.
      { revert Re. unfold recorded. destruct (errors st); [discriminate|].
        now intros [= _ <-]. }
      now rewrite (C e eq_refl).
    + unfold mbind at 1, M_bind at 1. cbn [is_class exn_cls]. exact I.
Qed.

Lemma BooleanField_deserialize_outcome_witness :
  let flag := declare BooleanField "flag" true in
  let st := entered 0 (PStr "maybe") init_state in
  BooleanField_deserialize example_runtime heap7 flag (PStr "Yes") st
  = (Ok (PBool true), st)
  /\ BooleanField_deserialize example_runtime heap7 flag (PFloat (S754_zero true)) st
     = (Ok (PBool false), st)
  /\ BooleanField_deserialize example_runtime heap7 flag (PStr "maybe") st
     = (Raise no_append, st)
  /\ BooleanField_deserialize example_runtime heap7 flag (PList []) st
     = (Raise no_append, st)
  /\ BooleanField_deserialize example_runtime heap7 flag (PInt 2) (listening 0)
     = (Ok PNone,
        with_error (missing_key_message "BooleanField" "incorrect_format")
          (listening 0)).
Proof.
  intros flag st.
  pose proof (fun v s => BooleanField_deserialize_outcome example_runtime heap7
                flag v s) as B.
  split; [|split; [|split; [|split]]].
  - destruct (B (PStr "Yes") st) as [T _]. apply T; reflexivity.
  - destruct (B (PFloat (S754_zero true)) st) as (_ & F & _). apply F; reflexivity.
  - destruct (B (PStr "maybe") st) as (_ & _ & _ & N).
    apply (N eq_refl (PInt 7)
             (missing_key_message "BooleanField" "incorrect_format"));
      [reflexivity|vm_compute; reflexivity].
  - destruct (B (PList []) st) as (_ & _ & _ & N).
    apply (N eq_refl (PInt 7)
             (missing_key_message "BooleanField" "incorrect_format"));
      [reflexivity|vm_compute; reflexivity].
  - destruct (B (PInt 2) (listening 0)) as (_ & _ & _ & N).
    apply (N eq_refl (PInt 7)
             (missing_key_message "BooleanField" "incorrect_format"));
      [reflexivity|vm_compute; reflexivity].
Defined.

Section Enumeration.
Variable enumeration : list (string * string).

Lemma enum_lookup_fold (l : list (string * string)) :
  forall (m : gmap string string) k,
  (forall v, foldl (fun m '(_, v) => <[Text.lower v := v]> m) m l !! k = Some v ->
     m !! k = Some v
     \/ exists name, (name, v) ∈ l /\ Text.lower v = k)
  /\ ((is_Some (m !! k) \/ exists name v, (name, v) ∈ l /\ Text.lower v = k) ->
      is_Some (foldl (fun m '(_, v) => <[Text.lower v := v]> m) m l !! k)).
Proof.
  induction l as [|[n x] l IH]; intros m k; cbn [foldl].
  - split; [auto|]. intros [H|(name & v & H & _)]; [exact H|].
    now apply elem_of_nil in H.
  - destruct (IH (<[Text.lower x := x]> m) k) as [IH1 IH2]. split.
    + intros v H. apply IH1 in H as [H|(name & H & E)].
      * destruct (decide (Text.lower x = k)) as [<-|N].
        -- rewrite lookup_insert_eq in H. injection H as <-.
           right. exists n. split; [left|reflexivity].
        -- rewrite lookup_insert_ne in H by exact N. now left.
      * right. exists name. split; [now right|exact E].
    + intros H. apply IH2.
      destruct (decide (Text.lower x = k)) as [<-|N].
      * left. rewrite lookup_insert_eq. eauto.
      * rewrite lookup_insert_ne by exact N.
        destruct H as [H|(name & v & [[= -> ->]|H]%elem_of_cons & E)];
          [now left|congruence|].
        right. eauto.
Qed.

Lemma enum_call_member v name :
  (name, v) ∈ enumeration ->
  exists name', enum_call enumeration (Some v) = Ok (PEnum name' (PStr v))
    /\ (name', v) ∈ enumeration.
Proof.
  intros H. unfold enum_call.
  destruct (List.find (fun m => bool_decide (m.2 = v)) enumeration)
    as [[n x]|] eqn:F.
  - apply find_some in F as [I E]. apply bool_decide_eq_true_1 in E.
    simpl in E. subst x. exists n. split; [reflexivity|].
    now apply list_elem_of_In.
  - apply list_elem_of_In in H.
    pose proof (find_none _ _ F _ H) as E. simpl in E.
    now rewrite bool_decide_eq_true_2 in E.
Qed.

End Enumeration.

(** X15.  An enumeration field's conversion matches text against the
    members' values without regard to case: in every state it returns a
    member exactly when some member's value equals the text once both are
    lower-cased, the member it returns is one of the enumeration with such
    a value, and the state is untouched.  For text that matches no member,
    and for a value that is not text, [_make_error] is called: in a state
    whose owner has a row number and where the message builds, with the
    [defaultdict] an assignment puts in [errors] the conversion raises the
    AttributeError of [append] and nothing is recorded; with a list in
    [errors], which a caller has to put there, the message is appended and
    the result is [None]. *)
Theorem EnumField_deserialize_member rt h self enumeration v st :
  (forall s, v = PStr s ->
     (exists name value,
        (name, value) ∈ enumeration /\ Text.lower value = Text.lower s)
     <-> (exists name value,
            EnumField_deserialize rt h self enumeration v st
            = (Ok (PEnum name (PStr value)), st)
            /\ (name, value) ∈ enumeration
            /\ Text.lower value = Text.lower s))
  /\ (forall rn msg,
      (forall s, v = PStr s ->
         forall name value, (name, value) ∈ enumeration ->
                            Text.lower value <> Text.lower s) ->
      owner_row_number h st = Ok rn ->
      error_text rt self "incorrect_format" [("value", original_value st)] rn
      = Ok msg ->
      EnumField_deserialize rt h self enumeration v st = recorded msg PNone st).
Proof.
  split.
  - intros s ->. split; [|intros (name & value & _ & H); eauto].
    intros (name & value & Hin & E).
    destruct (enum_lookup_fold enumeration ∅ (Text.lower s)) as [L1 L2].
    destruct L2 as [x Hx]; [right; eauto|].
    destruct (L1 x Hx) as [H|(n & Hn & En)]; [now rewrite lookup_empty in H|].
    destruct (enum_call_member enumeration x n Hn) as (n' & C & Hn').
    exists n', x. split; [|split; assumption].
    unfold EnumField_deserialize, try_except, lift, enum_lookup.
    now rewrite Hx, C.
  - intros rn msg None R T.
    pose proof (incorrect_format_recorded rt h self PNone st rn msg R T) as IF.
    unfold EnumField_deserialize, try_except, lift.
    destruct v as [| | | |s| | | | | |];
      try (cbn [is_class exn_cls no_attribute orb]; exact IF).
    destruct (enum_lookup enumeration !! Text.lower s) as [x|] eqn:Hx.
    + destruct (enum_lookup_fold enumeration ∅ (Text.lower s)) as [L1 _].
      destruct (L1 x Hx) as [H|(n & Hn & En)]; [now rewrite lookup_empty in H|].
      now contradiction (None s eq_refl n x Hn).
    + cbn [enum_call is_class exn_cls orb]. exact IF.
Qed.

Lemma EnumField_deserialize_member_witness :
  let status := declare (EnumField Models.members) "status" true in
  let st := entered 0 (PStr "closed") init_state in
  EnumField_deserialize example_runtime heap7 status Models.members
    (PStr "ReOpened") st
  = (Ok (PEnum "REOPENED" (PStr "reopened")), st)
  /\ EnumField_deserialize example_runtime heap7 status Models.members
       (PStr "closed") st
     = (Raise no_append, st)
  /\ EnumField_deserialize example_runtime heap7 status Models.members
       (PStr "closed") (listening 0)
     = (Ok PNone,
        with_error (missing_key_message "EnumField" "incorrect_format")
          (listening 0)).
Proof.
  intros status st.
  pose proof (fun v s => EnumField_deserialize_member example_runtime heap7 status
                Models.members v s) as E.
  assert (forall s, PStr "closed" = PStr s ->
            forall name value, (name, value) ∈ Models.members ->
                               Text.lower value <> Text.lower s) as No.
  { intros s [= <-] name value I. unfold Models.members in I.
    repeat (apply elem_of_cons in I as [[= -> ->]|I];
            [vm_compute; discriminate|]).
    now apply elem_of_nil in I. }
  split; [|split].
  - destruct (E (PStr "ReOpened") st) as [M _].
    destruct (proj1 (M "ReOpened" eq_refl)) as (name & value & R & I & L).
    { exists "REOPENED", "reopened". split; [|reflexivity].
      unfold Models.members. apply elem_of_cons. right. apply elem_of_cons. now left. }
    rewrite R. f_equal.
    unfold Models.members in I.
    repeat (apply elem_of_cons in I as [[= -> ->]|I];
            [first [reflexivity | vm_compute in L; discriminate L]|]).
    now apply elem_of_nil in I.
  - destruct (E (PStr "closed") st) as [_ N].
    apply (N (PInt 7) (missing_key_message "EnumField" "incorrect_format") No);
      [reflexivity|vm_compute; reflexivity].
  - destruct (E (PStr "closed") (listening 0)) as [_ N].
    apply (N (PInt 7) (missing_key_message "EnumField" "incorrect_format") No);
      [reflexivity|vm_compute; reflexivity].
Defined.

(** ** The verbose name *)

Lemma underscores_to_spaces_spec s :
  has_char "_" (Text.underscores_to_spaces s) = false
  /\ String.length (Text.underscores_to_spaces s) = String.length s.
Proof.
  induction s as [|c s [IH L]]; [split; reflexivity|].
  cbn [Text.underscores_to_spaces has_char String.length].
  rewrite IH, L, orb_false_r. split; [|reflexivity].
  destruct (Ascii.eqb c "_") eqn:C; [reflexivity|].
  now rewrite Ascii.eqb_sym.
Qed.

Lemma lower_keeps s :
  has_char "_" s = false ->
  has_char "_" (Text.lower s) = false
  /\ String.length (Text.lower s) = String.length s.
Proof.
  induction s as [|c s IH]; [split; reflexivity|].
  cbn [Text.lower has_char String.length].
  intros [C H]%orb_false_iff. destruct (IH H) as [-> ->].
  split; [|reflexivity]. rewrite orb_false_r.
  destruct c as [[] [] [] [] [] [] [] []]; try reflexivity; discriminate C.
Qed.

(** X16.  The verbose name: a name given to the constructor is kept as it
    is; with none, or an empty one, the attribute name is shown with every
    underscore turned into a space, the first letter in upper case and the
    others in lower case, so that the result has the length of the
    attribute name, no underscore, and no upper-case letter after the
    first character. *)
Theorem verbose_name_from_attribute self :
  (forall name, verbose_name_arg self = Some name -> name <> EmptyString ->
     verbose_name self = name)
  /\ (verbose_name_arg self = None \/ verbose_name_arg self = Some EmptyString ->
      has_char "_" (verbose_name self) = false
      /\ String.length (verbose_name self) = String.length (attr_name self)
      /\ has_upper (Text.drop 1 (verbose_name self)) = false).
Proof.
  unfold verbose_name, make_verbose_name. split.
  - intros name -> N. destruct name; [congruence|reflexivity].
  - intros H.
    assert (match verbose_name_arg self with
            | Some v => if Dec.nonempty v then v
                        else Text.capitalize
                               (Text.underscores_to_spaces (attr_name self))
            | None => Text.capitalize (Text.underscores_to_spaces (attr_name self))
            end = Text.capitalize (Text.underscores_to_spaces (attr_name self)))
      as -> by (destruct H as [-> | ->]; reflexivity).
    destruct (underscores_to_spaces_spec (attr_name self)) as [U L].
    rewrite <- L. destruct (Text.underscores_to_spaces (attr_name self)) as [|c s].
    + repeat split.
    + cbn [has_char] in U. apply orb_false_iff in U as [C U].
      destruct (lower_keeps s U) as [U' L'].
      cbn [Text.capitalize Text.drop has_char String.length].
      rewrite U', L', lower_no_upper. repeat split.
      rewrite orb_false_r.
      destruct c as [[] [] [] [] [] [] [] []]; try reflexivity; discriminate C.
Qed.

Lemma verbose_name_from_attribute_witness :
  let f := declare (StrField None None) "first_NAME_2" true in
  verbose_name f = "First name 2"
  /\ has_char "_" (verbose_name f) = false
  /\ String.length (verbose_name f) = String.length (attr_name f)
  /\ has_upper (Text.drop 1 (verbose_name f)) = false.
Proof.
  intros f. split; [reflexivity|].
  exact (proj2 (verbose_name_from_attribute f) (or_introl eq_refl)).
Defined.

(** ** A [DateTime] field *)

(** X17.  A [DateTime] field parses the trimmed text: when the parser the
    format selects returns a datetime for the text without its surrounding
    whitespace, the pipeline returns that datetime and leaves the runtime
    attributes alone, whatever they hold; the format is ISO-8601 unless
    the constructor names another. *)
Theorem DateTime_field_parses_trimmed_text rt h self format s d st
    (Hkind : kind self = DateTime format)
    (Hpp : pre_processors_arg self = [])
    (Hval : validators_arg self = [])
    (Hs : Text.strip s <> EmptyString)
    (Htok : Text.lower (Text.strip s) ∉ convert_to_none_strings self)
    (Hparse : datetime_parse rt format (PStr (Text.strip s)) = Ok d) :
  _deserialize rt h self (PStr s) st = (Ok (PDatetime d), st)
  /\ (format = None \/ format = Some EmptyString \/ format = Some "iso"
      \/ format = Some "iso8601" ->
      Utils.from_iso_datetime (PStr (Text.strip s)) = Ok d).
Proof.
  assert (in_EMPTY_VALUES (PStr s) = false) as E.
  { destruct s; [|reflexivity]. now contradiction Hs. }
  split.
  - rewrite (deserialize_plain rt h self Hpp Hval _ st E).
    rewrite (pre_process_value_text rt self s Hs Htok).
    unfold deserialize, validate. rewrite Hkind.
    unfold DateTime_deserialize, try_except.
    fold (datetime_parse rt format (PStr (Text.strip s))). rewrite Hparse.
    reflexivity.
  - intros [->|[->|[->| ->]]]; exact Hparse.
Qed.

Lemma DateTime_field_parses_trimmed_text_witness :
  let at_ := declare (DateTime None) "at" true in
  let d := mkDatetime 2023 1 15 10 30 0 0 (Some TzUTC) in
  datetime_parse example_runtime None (PStr (Text.strip " 2023-01-15T10:30:00Z "))
  = Ok d
  /\ _deserialize example_runtime heap7 at_ (PStr " 2023-01-15T10:30:00Z ")
       init_state
     = (Ok (PDatetime d), init_state).
Proof.
  intros at_ d.
  assert (datetime_parse example_runtime None
            (PStr (Text.strip " 2023-01-15T10:30:00Z ")) = Ok d) as P
    by (vm_compute; reflexivity).
  split; [exact P|].
  apply (DateTime_field_parses_trimmed_text example_runtime heap7 at_ None
           " 2023-01-15T10:30:00Z " d init_state eq_refl eq_refl eq_refl).
  - vm_compute. discriminate.
  - intros [E|[]%elem_of_nil]%elem_of_cons. vm_compute in E. discriminate E.
  - exact P.
Defined.

(** ** A [DecimalField] with a limit of places *)

(** X18.  The place check of a decimal field takes the absolute value of
    the exponent: with a limit other than zero, text that reads as an
    infinity or a NaN makes the pipeline raise TypeError, recording
    nothing, because the exponent of such a value is not a number; and a
    limit of zero is no limit at all. *)
Theorem DecimalField_places_limit_on_special rt h self places limit rnd lo hi
    s d st
    (Hkind : kind self = DecimalField places (Some limit) rnd lo hi)
    (Hpp : pre_processors_arg self = [])
    (Hval : validators_arg self = [])
    (Hs : Text.strip s <> EmptyString)
    (Htok : Text.lower (Text.strip s) ∉ convert_to_none_strings self)
    (Hparse : Dec.of_string (Text.strip s) = Some d) :
  (limit <> 0 -> Dec.is_finite d = false ->
   exists msg, _deserialize rt h self (PStr s) st = (Raise (Exn TypeError msg), st))
  /\ (forall v st', DecimalField__validate_place rt h self (Some 0) v st'
                    = (Ok v, st')).
Proof.
  assert (in_EMPTY_VALUES (PStr s) = false) as E.
  { destruct s; [|reflexivity]. now contradiction Hs. }
  split; [|reflexivity].
  intros L F.
  rewrite (deserialize_plain rt h self Hpp Hval _ st E).
  rewrite (pre_process_value_text rt self s Hs Htok).
  unfold deserialize, validate. rewrite Hkind.
  unfold DecimalField_deserialize, try_except, lift. cbn [py_str].
  rewrite Hparse. unfold mbind at 1, M_bind at 1.
  unfold DecimalField_validate, DecimalField__validate_place.
  destruct limit as [|p|p]; [congruence| |];
    destruct d as [neg c e|neg|neg sig]; try discriminate F;
    eexists; reflexivity.
Qed.

Lemma DecimalField_places_limit_on_special_witness :
  let price :=
    declare (DecimalField None (Some 2) None None None) "price" true in
  exists msg,
    _deserialize example_runtime heap7 price (PStr " Infinity ") (listening 0)
    = (Raise (Exn TypeError msg), listening 0).
Proof.
  intros price.
  assert (Text.lower (Text.strip " Infinity ") ∉ convert_to_none_strings price)
    as T.
  { intros [E|[]%elem_of_nil]%elem_of_cons. vm_compute in E. discriminate E. }
  destruct (DecimalField_places_limit_on_special example_runtime heap7 price
              None 2 None None None " Infinity " (DInf false) (listening 0)
              eq_refl eq_refl eq_refl ltac:(vm_compute; discriminate) T
              ltac:(vm_compute; reflexivity)) as [R _].
  exact (R ltac:(discriminate) eq_refl).
Defined.

(** ** [src/utils.py]: what the parser returns *)

Lemma datetime_new_inv y mo d hh mi s us tz dt :
  Utils.datetime_new y mo d hh mi s us tz = Ok dt ->
  in_calendar y mo d hh mi s us = true
  /\ dt = mkDatetime y mo d hh mi s us tz.
Proof.
  unfold Utils.datetime_new, in_calendar.
  repeat match goal with
         | |- context [negb ?b] => destruct b; cbn [negb andb]; try discriminate
         end.
  intros [= <-]. split; reflexivity.
Qed.

Lemma tzinfo_of_parsed g tz : tzinfo_of g = Ok tz -> parsed_tzinfo tz.
Proof.
  unfold tzinfo_of. destruct g as [s|]; [|intros [= <-]; exact I].
  destruct (bool_decide _); [intros [= <-]; exact I|].
  destruct (Utils.tz_offset s) as [off|e]; [|discriminate]. cbn [Utils.bind_result].
  unfold Utils.get_fixed_timezone, Utils.timezone_new.
  destruct ((-1440 <? off) && (off <? 1440)) eqn:R; [|discriminate].
  cbn [Utils.bind_result]. intros [= <-]. simpl.
  apply andb_true_iff in R as [L U]. apply Z.ltb_lt in L, U.
  split; [lia|reflexivity].
Qed.

(** X19.  Whatever [from_iso_datetime] returns is a datetime of the
    calendar read off text the pattern matches, and its timezone is
    absent, UTC, or a fixed offset strictly within a day that carries the
    name [get_fixed_timezone] builds; a value that is not text raises
    TypeError. *)
Theorem from_iso_datetime_sound v d
    (Hparse : Utils.from_iso_datetime v = Ok d) :
  (exists s kw, v = PStr s
     /\ Re.matches Utils._iso8601_datetime_re s = Some kw)
  /\ in_calendar (dt_year d) (dt_month d) (dt_day d) (dt_hour d) (dt_minute d)
       (dt_second d) (dt_microsecond d) = true
  /\ parsed_tzinfo (dt_tzinfo d).
Proof.
  destruct v as [| | | |s| | | | | |]; try discriminate Hparse.
  destruct (Re.matches Utils._iso8601_datetime_re s) as [kw|] eqn:M;
    [|unfold Utils.from_iso_datetime in Hparse; rewrite M in Hparse;
      discriminate Hparse].
  split; [eauto|].
  rewrite (from_iso_matched s kw M) in Hparse.
  destruct (tzinfo_of (kw !! "tzinfo")) as [tz|] eqn:Tz; [|discriminate].
  cbn [Utils.bind_result] in Hparse.
  repeat match type of Hparse with
         | Utils.bind_result ?r _ = _ =>
             destruct r; [|discriminate]; cbn [Utils.bind_result] in Hparse
         end.
  apply datetime_new_inv in Hparse as [C ->]. simpl.
  split; [exact C|]. now apply tzinfo_of_parsed in Tz.
Qed.

Lemma from_iso_datetime_sound_witness :
  Utils.from_iso_datetime (PStr "2024-02-29 23:59:59.5-08:00")
  = Ok (mkDatetime 2024 2 29 23 59 59 500000 (Some (TzFixed (-480) "-0800")))
  /\ parsed_tzinfo (Some (TzFixed (-480) "-0800")).
Proof.
  assert (Utils.from_iso_datetime (PStr "2024-02-29 23:59:59.5-08:00")
          = Ok (mkDatetime 2024 2 29 23 59 59 500000
                  (Some (TzFixed (-480) "-0800")))) as P
    by (vm_compute; reflexivity).
  split; [exact P|].
  exact (proj2 (proj2 (from_iso_datetime_sound _ _ P))).
Defined.

(** ** [get_fixed_timezone] *)

Lemma names_read_back_day : names_read_back (seqZ (-1439) 2879) = true.
Proof. vm_compute. reflexivity. Qed.

Lemma names_read_back_elem l m :
  names_read_back l = true -> m ∈ l ->
  Utils.tz_offset (offset_name m) = Ok m
  /\ String.length (offset_name m) = 5%nat.
Proof.
  unfold names_read_back. rewrite forallb_forall. intros B H.
  apply list_elem_of_In in H. specialize (B m H).
  destruct (Utils.tz_offset (offset_name m)) as [z|]; [|discriminate].
  apply andb_true_iff in B as [Z L].
  apply Z.eqb_eq in Z. apply Nat.eqb_eq in L. now subst.
Qed.

(** X20.  [get_fixed_timezone] takes minutes or a [timedelta], whose whole
    minutes it takes rounding down; for an offset strictly within a day
    it returns the fixed offset under a five-character name, and that name
    reads back as the same offset through the arithmetic
    [from_iso_datetime] applies to a numeric suffix; any other offset
    raises ValueError. *)
Theorem get_fixed_timezone_name offset :
  let m := offset_minutes_of offset in
  (forall seconds, offset = Utils.OffsetDelta seconds ->
     60 * m <= seconds < 60 * m + 60)
  /\ (-1440 < m < 1440 ->
      Utils.get_fixed_timezone offset = Ok (TzFixed m (offset_name m))
      /\ String.length (offset_name m) = 5%nat
      /\ Utils.tz_offset (offset_name m) = Ok m)
  /\ (~ -1440 < m < 1440 ->
      exists msg, Utils.get_fixed_timezone offset = Raise (Exn ValueError msg)).
Proof.
  intros m. split; [|split].
  - intros seconds ->. subst m. simpl.
    pose proof (Z.div_mod seconds 60). pose proof (Z.mod_pos_bound seconds 60).
    lia.
  - intros R.
    assert (Utils.get_fixed_timezone offset
            = Utils.get_fixed_timezone (Utils.OffsetMinutes m)) as ->
      by (destruct offset; reflexivity).
    split; [now apply get_fixed_timezone_minutes|].
    assert (m ∈ seqZ (-1439) 2879) as H by (apply elem_of_seqZ; lia).
    destruct (names_read_back_elem _ m names_read_back_day H) as [T L].
    split; assumption.
  - intros R.
    assert (Utils.get_fixed_timezone offset
            = Utils.get_fixed_timezone (Utils.OffsetMinutes m)) as ->
      by (destruct offset; reflexivity).
    unfold Utils.get_fixed_timezone, Utils.timezone_new.
    destruct ((-1440 <? m) && (m <? 1440)) eqn:E; [|eauto].
    apply andb_true_iff in E as [L U]. apply Z.ltb_lt in L, U. lia.
Qed.

Lemma get_fixed_timezone_name_witness :
  Utils.get_fixed_timezone (Utils.OffsetDelta (-90)) = Ok (TzFixed (-2) "-0002")
  /\ Utils.tz_offset "-0002" = Ok (-2)
  /\ Utils.get_fixed_timezone (Utils.OffsetMinutes 330) = Ok (TzFixed 330 "+0530").
Proof.
  destruct (get_fixed_timezone_name (Utils.OffsetDelta (-90))) as (_ & A & _).
  destruct (A ltac:(vm_compute; split; reflexivity)) as (G & _ & T).
  destruct (get_fixed_timezone_name (Utils.OffsetMinutes 330)) as (_ & B & _).
  destruct (B ltac:(vm_compute; split; reflexivity)) as (G' & _ & _).
  split; [exact G|]. split; [exact T|exact G'].
Defined.

(** ** [from_iso_datetime]: offsets out of range and fractions of a second *)

(** a numeric suffix is turned into a timezone before the date is looked
    at *)
Lemma from_iso_offset_first yy mo dd hh mi ss sep neg (colon : bool) zh zm :
  digits 4 yy -> digits 2 mo -> digits 2 dd ->
  digits 2 hh -> digits 2 mi -> digits 2 ss ->
  sep = "T" \/ sep = " " ->
  digits 2 zh -> digits 2 zm ->
  Utils.from_iso_datetime
    (PStr (stamp yy mo dd sep hh mi ss +:+ offset_suffix neg colon zh zm))
  = Utils.bind_result
      (Utils.get_fixed_timezone
         (Utils.OffsetMinutes (sign_of neg * (val zh * 60 + val zm))))
      (fun tz => Utils.datetime_new (val yy) (val mo) (val dd) (val hh)
                   (val mi) (val ss) 0 (Some tz)).
Proof.
  intros Hyy Hmo Hdd Hhh Hmi Hss Hsep Hzh Hzm. unfold stamp, offset_suffix.
  explode.
  destruct Hsep as [-> | ->]; destruct neg; destruct colon; iso_eval.
  all: rewrite bool_decide_eq_false_2 by discriminate.
  all: name_sign.
  all: read_offset; cbn [Utils.bind_result].
  all: match goal with
       | |- context [Utils.get_fixed_timezone ?a] =>
           destruct (Utils.get_fixed_timezone a)
       end; reflexivity.
Qed.

(** X21.  A numeric suffix of a day or more is refused with the
    ValueError of [datetime.timezone], whether or not the date and time
    before it exist in the calendar: the timezone is built first. *)
Theorem from_iso_offset_out_of_range yy mo dd hh mi ss sep neg colon zh zm
    (Hyy : digits 4 yy) (Hmo : digits 2 mo) (Hdd : digits 2 dd)
    (Hhh : digits 2 hh) (Hmi : digits 2 mi) (Hss : digits 2 ss)
    (Hsep : sep = "T" \/ sep = " ")
    (Hzh : digits 2 zh) (Hzm : digits 2 zm)
    (Hday : 1440 <= val zh * 60 + val zm) :
  exists msg,
    Utils.from_iso_datetime
      (PStr (stamp yy mo dd sep hh mi ss +:+ offset_suffix neg colon zh zm))
    = Raise (Exn ValueError msg)
    /\ Utils.timezone_new (sign_of neg * (val zh * 60 + val zm)) EmptyString
       = Raise (Exn ValueError msg).
Proof.
  rewrite (from_iso_offset_first yy mo dd hh mi ss sep neg colon zh zm)
    by assumption.
  unfold Utils.get_fixed_timezone, Utils.timezone_new.
  set (off := sign_of neg * (val zh * 60 + val zm)).
  assert ((-1440 <? off) && (off <? 1440) = false) as ->.
  { subst off. apply andb_false_iff.
    destruct neg; simpl sign_of; [left; apply Z.ltb_ge|right; apply Z.ltb_ge]; lia. }
  eexists. split; reflexivity.
Qed.

Lemma from_iso_offset_out_of_range_witness :
  exists msg,
    Utils.from_iso_datetime (PStr "2023-02-30T10:30:00+24:00")
    = Raise (Exn ValueError msg)
    /\ Utils.timezone_new 1440 EmptyString = Raise (Exn ValueError msg).
Proof.
  assert (forall n s, String.length s = n -> Text.all_digits s = true -> digits n s)
    as D by (intros n s L A; split; assumption).
  exact (from_iso_offset_out_of_range "2023" "02" "30" "10" "30" "00" "T"
           false true "24" "00"
           (D 4%nat "2023" eq_refl eq_refl) (D 2%nat "02" eq_refl eq_refl)
           (D 2%nat "30" eq_refl eq_refl) (D 2%nat "10" eq_refl eq_refl)
           (D 2%nat "30" eq_refl eq_refl) (D 2%nat "00" eq_refl eq_refl)
           (or_introl eq_refl)
           (D 2%nat "24" eq_refl eq_refl) (D 2%nat "00" eq_refl eq_refl)
           ltac:(vm_compute; discriminate)).
Defined.

Lemma digit_val_range c : Text.is_digit c = true -> 0 <= Text.digit_val c <= 9.
Proof.
  destruct c as [[] [] [] [] [] [] [] []]; intros H; try discriminate H;
    vm_compute; split; discriminate.
Qed.

Lemma in_calendar_microsecond y mo d hh mi s us :
  in_calendar y mo d hh mi s 0 = true -> 0 <= us <= 999999 ->
  in_calendar y mo d hh mi s us = true.
Proof.
  unfold in_calendar. intros H [L U].
  apply andb_true_iff in H as [H _]. rewrite H. unfold Utils.in_range.
  apply Z.leb_le in L, U. now rewrite L, U.
Qed.

Ltac pad_fraction :=
  cbv [Text.ljust String.length Nat.sub repeat string_of_list_ascii String.append];
  rewrite int_of_text_digits
    by (first [discriminate
              | cbn [Text.all_digits];
                repeat match goal with
                       | H : Text.is_digit _ = true |- _ => rewrite H
                       end; reflexivity]);
  cbn [Utils.bind_result].

Ltac digit_bounds :=
  repeat match goal with
         | H : Text.is_digit ?c = true |- _ =>
             apply digit_val_range in H
         end.

(** X22.  A fraction of a second of one to six digits is read as
    microseconds by padding it with zeros on the right; of a longer
    fraction the first six digits are kept and up to six more are dropped
    without rounding. *)
Theorem from_iso_fraction yy mo dd hh mi ss sep frac n
    (Hyy : digits 4 yy) (Hmo : digits 2 mo) (Hdd : digits 2 dd)
    (Hhh : digits 2 hh) (Hmi : digits 2 mi) (Hss : digits 2 ss)
    (Hsep : sep = "T" \/ sep = " ")
    (Hn : (1 <= n <= 6)%nat) (Hfrac : digits n frac)
    (Hcal : in_calendar (val yy) (val mo) (val dd) (val hh) (val mi) (val ss) 0
            = true) :
  let at_ := mkDatetime (val yy) (val mo) (val dd) (val hh) (val mi) (val ss) in
  Utils.from_iso_datetime (PStr (stamp yy mo dd sep hh mi ss +:+ "." +:+ frac))
  = Ok (at_ (val frac * 10 ^ Z.of_nat (6 - n)) None)
  /\ (forall m extra, n = 6%nat -> (1 <= m <= 6)%nat -> digits m extra ->
      Utils.from_iso_datetime
        (PStr (stamp yy mo dd sep hh mi ss +:+ "." +:+ frac +:+ extra))
      = Ok (at_ (val frac) None)).
Proof.
  intros at_. subst at_. unfold stamp. split.
  - assert (n = 1 \/ n = 2 \/ n = 3 \/ n = 4 \/ n = 5 \/ n = 6)%nat
      as [->|[->|[->|[->|[->| ->]]]]] by lia.
    all: explode; destruct Hsep as [-> | ->]; iso_eval; pad_fraction.
    all: rewrite datetime_new_ok;
      [do 2 f_equal; unfold val; cbn [Text.digits_val];
       change (Text.digit_val "0") with 0;
       match goal with
       | |- context [10 ^ Z.of_nat ?k] =>
           let p := eval vm_compute in (10 ^ Z.of_nat k) in
           change (10 ^ Z.of_nat k) with p
       end; lia|].
    all: apply in_calendar_microsecond; [assumption|].
    all: digit_bounds; unfold val; cbn [Text.digits_val];
      change (Text.digit_val "0") with 0; lia.
  - intros m extra -> Hm Hextra.
    assert (m = 1 \/ m = 2 \/ m = 3 \/ m = 4 \/ m = 5 \/ m = 6)%nat
      as [->|[->|[->|[->|[->| ->]]]]] by lia.
    all: explode; destruct Hsep as [-> | ->]; iso_eval; pad_fraction.
    all: rewrite datetime_new_ok; [reflexivity|].
    all: apply in_calendar_microsecond; [assumption|].
    all: digit_bounds; unfold val; cbn [Text.digits_val]; lia.
Qed.

Lemma from_iso_fraction_witness :
  Utils.from_iso_datetime (PStr "2023-01-15T10:30:00.25")
  = Ok (mkDatetime 2023 1 15 10 30 0 250000 None)
  /\ Utils.from_iso_datetime (PStr "2023-01-15 10:30:00.1234569")
     = Ok (mkDatetime 2023 1 15 10 30 0 123456 None).
Proof.
  assert (forall n s, String.length s = n -> Text.all_digits s = true -> digits n s)
    as D by (intros n s L A; split; assumption).
  split.
  - exact (proj1 (from_iso_fraction "2023" "01" "15" "10" "30" "00" "T" "25" 2
             (D 4%nat "2023" eq_refl eq_refl) (D 2%nat "01" eq_refl eq_refl)
             (D 2%nat "15" eq_refl eq_refl) (D 2%nat "10" eq_refl eq_refl)
             (D 2%nat "30" eq_refl eq_refl) (D 2%nat "00" eq_refl eq_refl)
             (or_introl eq_refl) ltac:(lia) (D 2%nat "25" eq_refl eq_refl)
             eq_refl)).
  - exact (proj2 (from_iso_fraction "2023" "01" "15" "10" "30" "00" " " "123456"
             6
             (D 4%nat "2023" eq_refl eq_refl) (D 2%nat "01" eq_refl eq_refl)
             (D 2%nat "15" eq_refl eq_refl) (D 2%nat "10" eq_refl eq_refl)
             (D 2%nat "30" eq_refl eq_refl) (D 2%nat "00" eq_refl eq_refl)
             (or_intror eq_refl) ltac:(lia) (D 6%nat "123456" eq_refl eq_refl)
             eq_refl) 1%nat "9" eq_refl ltac:(lia) (D 1%nat "9" eq_refl eq_refl)).
Defined.

(** ** [isoformat] and back *)

Lemma pad2_reads_back_100 : pad2_reads_back (seqZ 0 100) = true.
Proof. vm_compute. reflexivity. Qed.

Lemma pad2_digits n :
  0 <= n < 100 -> digits 2 (Text.pad2 n) /\ val (Text.pad2 n) = n.
Proof.
  intros H.
  assert (forall l, pad2_reads_back l = true -> n ∈ l ->
                    digits 2 (Text.pad2 n) /\ val (Text.pad2 n) = n) as B.
  { intros l. unfold pad2_reads_back. rewrite forallb_forall. intros F I.
    apply list_elem_of_In in I. specialize (F n I).
    apply andb_true_iff in F as [[L A]%andb_true_iff V].
    apply Nat.eqb_eq in L. apply Z.eqb_eq in V. repeat split; assumption. }
  apply (B _ pad2_reads_back_100). apply elem_of_seqZ. lia.
Qed.

Lemma zeros_digits k s :
  Text.all_digits (string_of_list_ascii (repeat "0"%char k) +:+ s)
  = Text.all_digits s
  /\ val (string_of_list_ascii (repeat "0"%char k) +:+ s) = val s
  /\ String.length (string_of_list_ascii (repeat "0"%char k) +:+ s)
     = (k + String.length s)%nat.
Proof.
  induction k as [|k (A & V & L)]; [repeat split|].
  cbn [repeat string_of_list_ascii].
  change (String "0" ?a +:+ s) with (String "0" (a +:+ s)).
  repeat split.
  - cbn [Text.all_digits]. exact A.
  - exact V.
  - cbn [String.length]. now rewrite L.
Qed.

Lemma pad_digits w n :
  (0 < w)%nat -> 0 <= n < 10 ^ Z.of_nat w ->
  digits w (pad w n) /\ val (pad w n) = n.
Proof.
  intros W [L U]. unfold pad, digits.
  destruct (digits_of_spec n L) as (_ & A & _ & V & B).
  specialize (B w W U).
  destruct (zeros_digits (w - String.length (Text.digits_of n)) (Text.digits_of n))
    as (A' & V' & L').
  rewrite A', V', L'. repeat split; [lia|exact A|exact V].
Qed.

(** the printed shape: seconds, an optional fraction of six digits, an
    optional offset [+HH:MM] or [-HH:MM] *)
Lemma from_iso_printed yy mo dd hh mi ss
    (frac : option string) (zone : option (bool * string * string)) :
  digits 4 yy -> digits 2 mo -> digits 2 dd ->
  digits 2 hh -> digits 2 mi -> digits 2 ss ->
  match frac with Some f => digits 6 f | None => True end ->
  match zone with
  | Some (_, zh, zm) => digits 2 zh /\ digits 2 zm
  | None => True
  end ->
  Utils.from_iso_datetime
    (PStr (stamp yy mo dd "T" hh mi ss
           +:+ match frac with Some f => "." +:+ f | None => EmptyString end
           +:+ match zone with
               | Some (neg, zh, zm) => offset_suffix neg true zh zm
               | None => EmptyString
               end))
  = Utils.bind_result
      match zone with
      | Some (neg, zh, zm) =>
          Utils.bind_result
            (Utils.get_fixed_timezone
               (Utils.OffsetMinutes (sign_of neg * (val zh * 60 + val zm))))
            (fun tz => Ok (Some tz))
      | None => Ok None
      end
      (fun tz => Utils.datetime_new (val yy) (val mo) (val dd) (val hh)
                   (val mi) (val ss)
                   match frac with Some f => val f | None => 0 end tz).
Proof.
  intros Hyy Hmo Hdd Hhh Hmi Hss Hfrac Hzone. unfold stamp, offset_suffix.
  destruct frac as [f|], zone as [[[neg zh] zm]|];
    [destruct Hzone as [Hzh Hzm]| |destruct Hzone as [Hzh Hzm]|];
    explode; try destruct neg; iso_eval.
  all: try pad_fraction.
  all: try (rewrite bool_decide_eq_false_2 by discriminate;
            name_sign; read_offset).
  all: reflexivity.
Qed.

(** X23.  Printing and parsing: [from_iso_datetime] reads the text
    [isoformat] prints for a datetime of the calendar back as the same date
    and time to the microsecond; a naive datetime comes back naive, and an
    aware one with the same offset, as the fixed-offset timezone
    [get_fixed_timezone] builds, so that UTC comes back under the name
    [+0000]. *)
Theorem isoformat_round_trip d
    (Hcal : in_calendar (dt_year d) (dt_month d) (dt_day d) (dt_hour d)
              (dt_minute d) (dt_second d) (dt_microsecond d) = true)
    (Htz : forall m name, dt_tzinfo d = Some (TzFixed m name) ->
                          -1440 < m < 1440) :
  Utils.from_iso_datetime (PStr (isoformat d))
  = Ok (mkDatetime (dt_year d) (dt_month d) (dt_day d) (dt_hour d)
          (dt_minute d) (dt_second d) (dt_microsecond d)
          (reparsed_tzinfo (dt_tzinfo d))).
Proof.
  destruct d as [y mo dd hh mi ss us tz]. cbn [dt_year dt_month dt_day dt_hour
    dt_minute dt_second dt_microsecond dt_tzinfo] in *.
  pose proof Hcal as R. unfold in_calendar, Utils.in_range in R.
  do 6 (apply andb_true_iff in R as [R ?]).
  repeat match goal with
         | H : _ && _ = true |- _ => apply andb_true_iff in H as [? ?]
         end.
  repeat match goal with H : (_ <=? _) = true |- _ => apply Z.leb_le in H end.
  assert (dd <= 31) as Hdd.
  { unfold Utils.days_in_month in *.
    repeat match goal with
           | H : context [if ?b then _ else _] |- _ => destruct b
           end; lia. }
  destruct (pad_digits 4 y ltac:(lia) ltac:(simpl; lia)) as [Dy Vy].
  destruct (pad2_digits mo ltac:(lia)) as [Dmo Vmo].
  destruct (pad2_digits dd ltac:(lia)) as [Ddd Vdd].
  destruct (pad2_digits hh ltac:(lia)) as [Dhh Vhh].
  destruct (pad2_digits mi ltac:(lia)) as [Dmi Vmi].
  destruct (pad2_digits ss ltac:(lia)) as [Dss Vss].
  destruct (pad_digits 6 us ltac:(lia) ltac:(simpl; lia)) as [Dus Vus].
  set (frac := if us =? 0 then None else Some (pad 6 us)).
  set (zone := match tz with
               | None => None
               | Some TzUTC => Some (false, "00", "00")
               | Some (TzFixed m _) =>
                   Some (m <? 0, Text.pad2 (Z.abs m / 60),
                         Text.pad2 (Z.abs m mod 60))
               end).
  assert (isoformat (mkDatetime y mo dd hh mi ss us tz)
          = stamp (pad 4 y) (Text.pad2 mo) (Text.pad2 dd) "T" (Text.pad2 hh)
              (Text.pad2 mi) (Text.pad2 ss)
            +:+ match frac with Some f => "." +:+ f | None => EmptyString end
            +:+ match zone with
                | Some (neg, zh, zm) => offset_suffix neg true zh zm
                | None => EmptyString
                end) as ->.
  { unfold isoformat, fraction_text, utcoffset_text. subst frac zone.
    cbn [dt_year dt_month dt_day dt_hour dt_minute dt_second dt_microsecond
         dt_tzinfo].
    destruct (us =? 0); destruct tz as [[|m name]|]; reflexivity. }
  rewrite (from_iso_printed _ _ _ _ _ _ frac zone Dy Dmo Ddd Dhh Dmi Dss).
  - rewrite Vy, Vmo, Vdd, Vhh, Vmi, Vss.
    assert (match frac with Some f => val f | None => 0 end = us) as ->.
    { subst frac. destruct (us =? 0) eqn:Z; [apply Z.eqb_eq in Z; lia|exact Vus]. }
    assert (match zone with
            | Some (neg, zh, zm) =>
                Utils.bind_result
                  (Utils.get_fixed_timezone
                     (Utils.OffsetMinutes (sign_of neg * (val zh * 60 + val zm))))
                  (fun tz => Ok (Some tz))
            | None => Ok None
            end = Ok (reparsed_tzinfo tz)) as ->.
    { subst zone. destruct tz as [[|m name]|]; [reflexivity| |reflexivity].
      specialize (Htz m name eq_refl).
      destruct (pad2_digits (Z.abs m / 60)) as [_ ->];
        [split; [apply Z.div_pos; lia|apply Z.div_lt_upper_bound; lia]|].
      destruct (pad2_digits (Z.abs m mod 60)) as [_ ->];
        [pose proof (Z.mod_pos_bound (Z.abs m) 60); lia|].
      replace (sign_of (m <? 0) * (Z.abs m / 60 * 60 + Z.abs m mod 60)) with m.
      - now rewrite get_fixed_timezone_minutes.
      - pose proof (Z.div_mod (Z.abs m) 60 ltac:(lia)).
        destruct (m <? 0) eqn:S; simpl sign_of;
          [apply Z.ltb_lt in S|apply Z.ltb_ge in S]; lia. }
    cbn [Utils.bind_result]. now apply datetime_new_ok.
  - subst frac. now destruct (us =? 0).
  - subst zone. destruct tz as [[|m name]|]; [split; split; reflexivity| |exact I].
    specialize (Htz m name eq_refl).
    split.
    + apply pad2_digits.
      split; [apply Z.div_pos; lia|apply Z.div_lt_upper_bound; lia].
    + apply pad2_digits. pose proof (Z.mod_pos_bound (Z.abs m) 60); lia.
Qed.

Lemma isoformat_round_trip_witness :
  let d := mkDatetime 2024 2 29 23 59 59 1500 (Some TzUTC) in
  isoformat d = "2024-02-29T23:59:59.001500+00:00"
  /\ Utils.from_iso_datetime (PStr (isoformat d))
     = Ok (mkDatetime 2024 2 29 23 59 59 1500 (Some (TzFixed 0 "+0000"))).
Proof.
  intros d. split; [vm_compute; reflexivity|].
  apply (isoformat_round_trip d); [reflexivity|].
  intros m name E. discriminate E.
Defined.

(** ** [src/models.py] *)

(** X24.  The statuses of a staff note: every status may follow itself;
    [RESOLVED] may follow every status, [REOPENED] only [RESOLVED] and
    itself, and [OPEN] only itself; so the relation is neither symmetric
    nor transitive, and the value the module computes when it is imported
    is [True]. *)
Theorem follow_table self other :
  Models.follow self self = true
  /\ Models.follow Models.RESOLVED other = true
  /\ (Models.follow Models.OPEN other = true <-> other = Models.OPEN)
  /\ (Models.follow Models.REOPENED other = true
      <-> other = Models.RESOLVED \/ other = Models.REOPENED)
  /\ (Models.follow self other = true ->
      self = other \/ self = Models.RESOLVED
      \/ (self = Models.REOPENED /\ other = Models.RESOLVED))
  /\ Models.follow Models.REOPENED Models.RESOLVED = true
  /\ Models.follow Models.RESOLVED Models.OPEN = true
  /\ Models.follow Models.REOPENED Models.OPEN = false
  /\ Models.follow Models.OPEN Models.RESOLVED = false
  /\ Models.a = true.
Proof.
  split; [destruct self; reflexivity|].
  split; [destruct other; reflexivity|].
  split; [destruct other; split; (reflexivity || discriminate)|].
  split.
  { destruct other; split; intros H; try reflexivity; try discriminate H;
      auto; destruct H as [H|H]; discriminate H. }
  split; [|repeat split].
  destruct self, other; intros H; try discriminate H; auto.
Qed.

